(** * PeduliGiziBalita: anthropometric core, shallow embedding

    Embedded modules:
    - [modules/who_calculator.py]: z-score orchestration and the two
      classification taxonomies (Permenkes RI 2020, WHO standards);
    - [modules/growth_charts.py]: the bisection root finder and the
      inversion of a z-score function by sampling;
    - [modules/kejar_tumbuh.py]: growth-velocity analysis.

    Number model.  A Python float that is finite is a rational [Q] and its
    arithmetic is exact; the three special floats (NaN and the two
    infinities) are explicit constructors of [pyfloat] wherever the source
    tests for them.  Where the source does float arithmetic that can
    raise outside any [try] (the BMI of [calculate_all_zscores]), the
    range of a float is modelled too: a result too large is an overflow,
    one too small is zero, and the operation raises as Python does.  A
    dict is a [gmap] keyed by strings, or a record when the source only
    reads a fixed set of keys. *)

From Stdlib Require Import QArith Qabs Qround Lqa Lia Ascii String.
From stdpp Require Import gmap strings list fin_maps pretty sorting.

Open Scope Q_scope.

(* ===================================================================== *)
(** ** Floats *)
(* ===================================================================== *)

Module PyFloat.

Inductive pyfloat : Type :=
| Fin (q : Q)
| PosInf
| NegInf
| NaN.

(** [math.isnan], [math.isinf] *)
Definition isnan (x : pyfloat) : bool :=
  match x with NaN => true | _ => false end.

Definition isinf (x : pyfloat) : bool :=
  match x with PosInf | NegInf => true | _ => false end.

(** [x < y] on rationals, as a boolean *)
Definition Qltb (x y : Q) : bool := negb (Qle_bool y x).

(** [x < y]: every comparison with NaN is false *)
Definition flt (x y : pyfloat) : bool :=
  match x, y with
  | NaN, _ | _, NaN => false
  | Fin a, Fin b => Qltb a b
  | NegInf, (Fin _ | PosInf) => true
  | Fin _, PosInf => true
  | _, _ => false
  end.

(** [x <= y] *)
Definition fle (x y : pyfloat) : bool :=
  match x, y with
  | NaN, _ | _, NaN => false
  | Fin a, Fin b => Qle_bool a b
  | NegInf, _ => true
  | _, PosInf => true
  | _, _ => false
  end.

(** [abs(x)] *)
Definition fabs (x : pyfloat) : pyfloat :=
  match x with
  | Fin q => Fin (Qabs q)
  | PosInf | NegInf => PosInf
  | NaN => NaN
  end.

(** an integer literal compared with a float *)
Definition of_int (k : Z) : pyfloat := Fin (inject_Z k).

(** *** The range of a float, and the operations that raise

    Rounding inside the range is not modelled, the range is, with the
    bounds of a binary64 float rounded to nearest: a result whose
    magnitude reaches [overflow_threshold], halfway between the largest
    float and [2^1024], is infinite, and one whose magnitude does not
    exceed [underflow_threshold], half the smallest subnormal, is zero. *)
Definition overflow_threshold : Q := inject_Z (2 ^ 1024 - 2 ^ 970).

Definition underflow_threshold : Q := 1 / inject_Z (2 ^ 1075).

Definition signed_inf (negative : bool) : pyfloat :=
  if negative then NegInf else PosInf.

(** the float that an exact result becomes *)
Definition fround (x : Q) : pyfloat :=
  if Qle_bool overflow_threshold (Qabs x) then signed_inf (Qltb x 0)
  else if Qle_bool (Qabs x) underflow_threshold then Fin 0
  else Fin x.

(** the exceptions of float arithmetic *)
Inductive exception : Type :=
| ZeroDivisionError
| OverflowError.

(** what an expression does: give a value or raise *)
Inductive outcome (A : Type) : Type :=
| Return (a : A)
| Raise (e : exception).

Arguments Return {A} a.
Arguments Raise {A} e.

#[export] Instance outcome_bind : MBind outcome :=
  fun A B f x => match x with Return a => f a | Raise e => Raise e end.

Definition is_zero (x : pyfloat) : bool :=
  match x with Fin q => Qeq_bool q 0 | _ => false end.

Definition is_negative (x : pyfloat) : bool :=
  match x with Fin q => Qltb q 0 | NegInf => true | _ => false end.

(** [x / y]: a zero divisor raises [ZeroDivisionError]; a quotient that
    overflows is infinite, without an exception *)
Definition float_truediv (x y : pyfloat) : outcome pyfloat :=
  if is_zero y then Raise ZeroDivisionError
  else Return
    match x, y with
    | NaN, _ | _, NaN => NaN
    | Fin a, Fin b => fround (a / b)
    | Fin _, _ => Fin 0
    | _, Fin _ => signed_inf (xorb (is_negative x) (is_negative y))
    | _, _ => NaN
    end.

(** [x ** 2]: a finite [x] whose square overflows raises
    [OverflowError]; a square that underflows is zero *)
Definition float_pow2 (x : pyfloat) : outcome pyfloat :=
  match x with
  | NaN => Return NaN
  | PosInf | NegInf => Return PosInf
  | Fin q =>
      match fround (q ^ 2) with
      | Fin r => Return (Fin r)
      | _ => Raise OverflowError
      end
  end.

End PyFloat.

(* ===================================================================== *)
(** ** modules/who_calculator.py *)
(* ===================================================================== *)

Module WhoCalculator.
Import PyFloat.

(** What a call [float(calc_func( *args ))] of the reference-curve
    service can do: raise, give [None], or give a float. *)
Inductive service_result : Type :=
| Raises
| ReturnsNone
| Returns (z : pyfloat).

(** The five methods of the [pygrowup] calculator that the module calls.
    Arguments are in call order: value, age in months, sex and, for
    [wfl], the height.  The value given to [bmifa] is computed by the
    module and can be infinite. *)
Record Calculator : Type := {
  wfa   : Q -> Q -> string -> service_result;
  lhfa  : Q -> Q -> string -> service_result;
  wfl   : Q -> Q -> string -> Q -> service_result;
  bmifa : pyfloat -> Q -> string -> service_result;
  hcfa  : Q -> Q -> string -> service_result
}.

(** [is_calculator_available]; the module-level [calc] is an explicit
    argument. *)
Definition is_calculator_available (calc : option Calculator) : bool :=
  match calc with Some _ => true | None => false end.

(** [_safe_z_calc(calc_func, *args)].  [call] is the suspended call
    [calc_func( *args )]: it is not run when [calc is None]. *)
Definition _safe_z_calc (calc : option Calculator)
    (call : unit -> service_result) : option pyfloat :=
  match calc with
  | None => None
  | Some _ =>
      match call tt with
      | Raises => None
      | ReturnsNone => None
      | Returns z_float =>
          if isnan z_float || isinf z_float then None else Some z_float
      end
  end.

(** [Dict[str, Optional[float]]] *)
Abbreviation zscores := (gmap string (option pyfloat)).

(** [weight / ((height / 100) ** 2)], the expression of the BMI; it is
    outside every [try] *)
Definition bmi (weight height : Q) : outcome pyfloat :=
  x ← float_truediv (Fin height) (of_int 100);
  square ← float_pow2 x;
  float_truediv (Fin weight) square.

(** [calculate_all_zscores(sex, age_months, weight, height, head_circ)];
    an exception of the BMI expression ends the call *)
Definition calculate_all_zscores (calc : option Calculator)
    (sex : string) (age_months : Q)
    (weight height head_circ : option Q) : outcome zscores :=
  let results : zscores :=
    <["hcz" := None]> (<["baz" := None]> (<["whz" := None]>
      (<["haz" := None]> (<["waz" := None]> ∅)))) in
  match calc with
  | None => Return results
  | Some c =>
      let results :=
        match weight with
        | Some w =>
            <["waz" := _safe_z_calc calc (fun _ => wfa c w age_months sex)]> results
        | None => results
        end in
      let results :=
        match height with
        | Some h =>
            <["haz" := _safe_z_calc calc (fun _ => lhfa c h age_months sex)]> results
        | None => results
        end in
      let results :=
        match weight, height with
        | Some w, Some h =>
            <["whz" := _safe_z_calc calc (fun _ => wfl c w age_months sex h)]> results
        | _, _ => results
        end in
      results ←
        match weight, height with
        | Some w, Some h =>
            if Qltb 0 h then
              bmi ← bmi w h;
              Return (<["baz" := _safe_z_calc calc
                                   (fun _ => bmifa c bmi age_months sex)]> results)
            else Return results
        | _, _ => Return results
        end;
      let results :=
        match head_circ with
        | Some hc =>
            <["hcz" := _safe_z_calc calc (fun _ => hcfa c hc age_months sex)]> results
        | None => results
        end in
      Return results
  end.

(** [z_scores.get(key)]: a missing key reads as [None]. *)
Definition get (z_scores : zscores) (key : string) : option pyfloat :=
  match z_scores !! key with
  | Some v => v
  | None => None
  end.

(** [z is not None and not math.isnan(z)] *)
Definition usable (z : option pyfloat) : option pyfloat :=
  match z with
  | Some v => if isnan v then None else Some v
  | None => None
  end.

(** *** [classify_permenkes_2020]: one block per index; each takes the
    dict [classifications] built so far and stores one label in it. *)

(** Weight-for-Age (BB/U) *)
Definition permenkes_waz (z_scores : zscores)
    (classifications : gmap string string) : gmap string string :=
  match usable (get z_scores "waz") with
  | Some waz =>
      if flt waz (of_int (-3)) then
        <["waz" := "Berat Badan Sangat Kurang"]> classifications
      else if flt waz (of_int (-2)) then
        <["waz" := "Berat Badan Kurang"]> classifications
      else if fle waz (of_int 2) then
        <["waz" := "Berat Badan Normal"]> classifications
      else
        <["waz" := "Risiko Berat Badan Lebih"]> classifications
  | None => <["waz" := "Data Tidak Tersedia"]> classifications
  end.

(** Height-for-Age (TB/U) *)
Definition permenkes_haz (z_scores : zscores)
    (classifications : gmap string string) : gmap string string :=
  match usable (get z_scores "haz") with
  | Some haz =>
      if flt haz (of_int (-3)) then
        <["haz" := "Sangat Pendek (Severely Stunted)"]> classifications
      else if flt haz (of_int (-2)) then
        <["haz" := "Pendek (Stunted)"]> classifications
      else if fle haz (of_int 3) then
        <["haz" := "Tinggi Badan Normal"]> classifications
      else
        <["haz" := "Tinggi Badan Berlebih"]> classifications
  | None => <["haz" := "Data Tidak Tersedia"]> classifications
  end.

(** Weight-for-Height (BB/TB) *)
Definition permenkes_whz (z_scores : zscores)
    (classifications : gmap string string) : gmap string string :=
  match usable (get z_scores "whz") with
  | Some whz =>
      if flt whz (of_int (-3)) then
        <["whz" := "Gizi Buruk (Severely Wasted)"]> classifications
      else if flt whz (of_int (-2)) then
        <["whz" := "Gizi Kurang (Wasted)"]> classifications
      else if fle whz (of_int 2) then
        <["whz" := "Gizi Baik (Normal)"]> classifications
      else if fle whz (of_int 3) then
        <["whz" := "Berisiko Gizi Lebih (Possible Risk of Overweight)"]> classifications
      else
        <["whz" := "Gizi Lebih (Overweight)"]> classifications
  | None => <["whz" := "Data Tidak Tersedia"]> classifications
  end.

(** BMI-for-Age (IMT/U) *)
Definition permenkes_baz (z_scores : zscores)
    (classifications : gmap string string) : gmap string string :=
  match usable (get z_scores "baz") with
  | Some baz =>
      if flt baz (of_int (-3)) then
        <["baz" := "Gizi Buruk (Severely Wasted)"]> classifications
      else if flt baz (of_int (-2)) then
        <["baz" := "Gizi Kurang (Wasted)"]> classifications
      else if fle baz (of_int 1) then
        <["baz" := "Gizi Baik (Normal)"]> classifications
      else if fle baz (of_int 2) then
        <["baz" := "Berisiko Gizi Lebih (Possible Risk of Overweight)"]> classifications
      else if fle baz (of_int 3) then
        <["baz" := "Gizi Lebih (Overweight)"]> classifications
      else
        <["baz" := "Obesitas (Obese)"]> classifications
  | None => <["baz" := "Data Tidak Tersedia"]> classifications
  end.

(** Head Circumference-for-Age (LK/U) *)
Definition permenkes_hcz (z_scores : zscores)
    (classifications : gmap string string) : gmap string string :=
  match usable (get z_scores "hcz") with
  | Some hcz =>
      if fle (fabs hcz) (of_int 2) then
        <["hcz" := "Normal"]> classifications
      else if flt hcz (of_int (-2)) then
        <["hcz" := "Mikrosefali (perlu evaluasi)"]> classifications
      else
        <["hcz" := "Makrosefali (perlu evaluasi)"]> classifications
  | None => <["hcz" := "Data Tidak Tersedia"]> classifications
  end.

(** [classify_permenkes_2020(z_scores)] *)
Definition classify_permenkes_2020 (z_scores : zscores) : gmap string string :=
  let classifications : gmap string string := ∅ in
  let classifications := permenkes_waz z_scores classifications in
  let classifications := permenkes_haz z_scores classifications in
  let classifications := permenkes_whz z_scores classifications in
  let classifications := permenkes_baz z_scores classifications in
  let classifications := permenkes_hcz z_scores classifications in
  classifications.

(** *** [classify_who_standards], block by block *)

(** Weight-for-Age *)
Definition who_waz (z_scores : zscores)
    (classifications : gmap string string) : gmap string string :=
  match usable (get z_scores "waz") with
  | Some waz =>
      if flt waz (of_int (-3)) then
        <["waz" := "Severely underweight"]> classifications
      else if flt waz (of_int (-2)) then
        <["waz" := "Underweight"]> classifications
      else if fle waz (of_int 2) then
        <["waz" := "Normal weight"]> classifications
      else
        <["waz" := "Overweight"]> classifications
  | None => <["waz" := "N/A"]> classifications
  end.

(** Height-for-Age *)
Definition who_haz (z_scores : zscores)
    (classifications : gmap string string) : gmap string string :=
  match usable (get z_scores "haz") with
  | Some haz =>
      if flt haz (of_int (-3)) then
        <["haz" := "Severely stunted"]> classifications
      else if flt haz (of_int (-2)) then
        <["haz" := "Stunted"]> classifications
      else if fle haz (of_int 3) then
        <["haz" := "Normal height"]> classifications
      else
        <["haz" := "Tall"]> classifications
  | None => <["haz" := "N/A"]> classifications
  end.

(** Weight-for-Height *)
Definition who_whz (z_scores : zscores)
    (classifications : gmap string string) : gmap string string :=
  match usable (get z_scores "whz") with
  | Some whz =>
      if flt whz (of_int (-3)) then
        <["whz" := "Severely wasted"]> classifications
      else if flt whz (of_int (-2)) then
        <["whz" := "Wasted"]> classifications
      else if fle whz (of_int 2) then
        <["whz" := "Normal"]> classifications
      else if fle whz (of_int 3) then
        <["whz" := "Risk of overweight"]> classifications
      else
        <["whz" := "Overweight"]> classifications
  | None => <["whz" := "N/A"]> classifications
  end.

(** BMI-for-Age *)
Definition who_baz (z_scores : zscores)
    (classifications : gmap string string) : gmap string string :=
  match usable (get z_scores "baz") with
  | Some baz =>
      if flt baz (of_int (-3)) then
        <["baz" := "Severely wasted"]> classifications
      else if flt baz (of_int (-2)) then
        <["baz" := "Wasted"]> classifications
      else if fle baz (of_int 1) then
        <["baz" := "Normal"]> classifications
      else if fle baz (of_int 2) then
        <["baz" := "Risk of overweight"]> classifications
      else if fle baz (of_int 3) then
        <["baz" := "Overweight"]> classifications
      else
        <["baz" := "Obese"]> classifications
  | None => <["baz" := "N/A"]> classifications
  end.

(** Head Circumference-for-Age *)
Definition who_hcz (z_scores : zscores)
    (classifications : gmap string string) : gmap string string :=
  match usable (get z_scores "hcz") with
  | Some hcz =>
      if fle (fabs hcz) (of_int 2) then
        <["hcz" := "Normal"]> classifications
      else if flt hcz (of_int (-2)) then
        <["hcz" := "Microcephaly"]> classifications
      else
        <["hcz" := "Macrocephaly"]> classifications
  | None => <["hcz" := "N/A"]> classifications
  end.

(** [classify_who_standards(z_scores)] *)
Definition classify_who_standards (z_scores : zscores) : gmap string string :=
  let classifications : gmap string string := ∅ in
  let classifications := who_waz z_scores classifications in
  let classifications := who_haz z_scores classifications in
  let classifications := who_whz z_scores classifications in
  let classifications := who_baz z_scores classifications in
  let classifications := who_hcz z_scores classifications in
  classifications.

(** *** [validate_zscores] *)

(** the display names of the indices *)
Definition index_names : gmap string string :=
  list_to_map [
    ("waz", "WAZ (BB/U)"); ("haz", "HAZ (TB/U)"); ("whz", "WHZ (BB/TB)");
    ("baz", "BAZ (IMT/U)"); ("hcz", "HCZ (LK/U)") ].

(** The loop of [validate_zscores] over [z_scores.items()], which come in
    the order of the dict; [format_zscore] is imported from
    [modules/utilities.py]. *)
Fixpoint validate_loop (format_zscore : pyfloat -> string)
    (items : list (string * option pyfloat))
    (errors warnings : list string) : list string * list string :=
  match items with
  | [] => (errors, warnings)
  | (key, z) :: rest =>
      match usable z with
      | None => validate_loop format_zscore rest errors warnings
      | Some z =>
          let name := default key (index_names !! key) in
          let abs_z := fabs z in
          if flt (of_int 5) abs_z then
            validate_loop format_zscore rest
              (errors ++ ["🚨 " +:+ name +:+ " = " +:+ format_zscore z +:+
                          " sangat ekstrem (|Z| > 5). " +:+
                          "PENTING: Verifikasi ulang semua pengukuran dan konsultasi dokter anak."])
              warnings
          else if flt (of_int 3) abs_z then
            validate_loop format_zscore rest errors
              (warnings ++ ["⚠️ " +:+ name +:+ " = " +:+ format_zscore z +:+
                            " di luar rentang umum (|Z| > 3). " +:+
                            "Verifikasi ulang pengukuran atau konsultasi tenaga kesehatan."])
          else validate_loop format_zscore rest errors warnings
      end
  end.

(** [validate_zscores(z_scores)]: the tuple [(errors, warnings)] *)
Definition validate_zscores (format_zscore : pyfloat -> string)
    (items : list (string * option pyfloat)) : list string * list string :=
  validate_loop format_zscore items [] [].

End WhoCalculator.

(* ===================================================================== *)
(** ** modules/growth_charts.py *)
(* ===================================================================== *)

Module GrowthCharts.
Import PyFloat.

(** [np.linspace(start, stop, num)] with the default [endpoint=True]:
    [arange(num) * step + start] with [step = (stop - start) / (num - 1)],
    the last entry overwritten by [stop] when [num > 1]. *)
Definition linspace (start stop : Q) (num : nat) : list Q :=
  let div := (num - 1)%nat in
  let delta := stop - start in
  let step := if (0 <? div)%nat then delta / inject_Z (Z.of_nat div) else delta in
  let y := map (fun i => inject_Z (Z.of_nat i) * step + start) (seq 0 num) in
  if (1 <? num)%nat then removelast y ++ [stop] else y.

(** State of the [for] loop of [brentq_rootfind]. *)
Record bracket : Type := Bracket { br_a : Q; br_fa : Q; br_b : Q; br_fb : Q }.

(** The loop [for iteration in range(maxiter)] of [brentq_rootfind];
    [n] is the number of iterations left. *)
Fixpoint bisect (f : Q -> option Q) (xtol : Q) (n : nat) (s : bracket) : Q :=
  match n with
  | O => 0.5 * (br_a s + br_b s)
  | S n' =>
      let m := 0.5 * (br_a s + br_b s) in
      match f m with
      | None => m
      | Some fm =>
          if Qltb (Qabs fm) 1e-10 || Qltb ((br_b s - br_a s) / 2) xtol then m
          else if Qltb (br_fa s * fm) 0 then
            bisect f xtol n' (Bracket (br_a s) (br_fa s) m fm)
          else
            bisect f xtol n' (Bracket m fm (br_b s) (br_fb s))
      end
  end.

(** [brentq_rootfind(f, a, b, xtol, maxiter)] *)
Definition brentq_rootfind (f : Q -> option Q) (a b : Q)
    (xtol : Q) (maxiter : nat) : Q :=
  match f a, f b with
  | Some fa, Some fb =>
      if Qltb (Qabs fa) 1e-10 then a
      else if Qltb (Qabs fb) 1e-10 then b
      else if Qltb 0 (fa * fb) then (a + b) / 2
      else bisect f xtol maxiter (Bracket a fa b fb)
  | _, _ => (a + b) / 2
  end.

(** the defaults [xtol=1e-6], [maxiter=100] *)
Definition default_xtol : Q := 1e-6.
Definition default_maxiter : nat := 100.

(** [z or 0.0] *)
Definition or_zero (z : option Q) : Q :=
  match z with
  | Some v => if Qeq_bool v 0 then 0 else v
  | None => 0
  end.

(** [lambda t: (z_func(t) or 0.0) - target_z] *)
Definition residual (z_func : Q -> option Q) (target_z : Q) : Q -> option Q :=
  fun t => Some (or_zero (z_func t) - target_z).

(** The sampling loop of [invert_zscore_function] and the final
    [return].  [last] is [(last_x, last_f)] and [best] is
    [(best_x, best_abs)]; [None] stands for their initial values
    [(None, None)] and [(None, inf)], so that [af < best_abs] holds
    when [best] is [None].  The z-score function gives [None] or a
    finite float, and then nothing under the [try] can raise. *)
Fixpoint sample_loop (z_func : Q -> option Q) (target_z lo hi : Q)
    (xs : list Q) (last best : option (Q * Q)) : Q :=
  match xs with
  | [] =>
      match best with
      | Some (best_x, _) => best_x
      | None => (lo + hi) / 2
      end
  | x :: xs' =>
      match z_func x with
      | None => sample_loop z_func target_z lo hi xs' last best
      | Some z =>
          let f := z - target_z in
          let af := Qabs f in
          let best' :=
            match best with
            | None => Some (x, af)
            | Some (_, best_abs) => if Qltb af best_abs then Some (x, af) else best
            end in
          match last with
          | Some (last_x, last_f) =>
              if Qltb (f * last_f) 0 then
                brentq_rootfind (residual z_func target_z) last_x x 1e-5 default_maxiter
              else sample_loop z_func target_z lo hi xs' (Some (x, f)) best'
          | None => sample_loop z_func target_z lo hi xs' (Some (x, f)) best'
          end
      end
  end.

(** [invert_zscore_function(z_func, target_z, lo, hi, samples)] *)
Definition invert_zscore_function (z_func : Q -> option Q)
    (target_z lo hi : Q) (samples : nat) : Q :=
  let xs := linspace lo hi samples in
  sample_loop z_func target_z lo hi xs None None.

(** the default [samples=150] *)
Definition default_samples : nat := 150.

(** *** The same routines with the calls of the function counted *)

(** [bisect] with the number of loop iterations entered. *)
Fixpoint bisect_count (f : Q -> option Q) (xtol : Q) (n : nat) (s : bracket)
    : Q * nat :=
  match n with
  | O => (0.5 * (br_a s + br_b s), O)
  | S n' =>
      let m := 0.5 * (br_a s + br_b s) in
      match f m with
      | None => (m, 1%nat)
      | Some fm =>
          if Qltb (Qabs fm) 1e-10 || Qltb ((br_b s - br_a s) / 2) xtol then (m, 1%nat)
          else
            let '(r, k) :=
              if Qltb (br_fa s * fm) 0 then
                bisect_count f xtol n' (Bracket (br_a s) (br_fa s) m fm)
              else
                bisect_count f xtol n' (Bracket m fm (br_b s) (br_fb s)) in
            (r, S k)
      end
  end.

(** [brentq_rootfind] with the number of loop iterations entered. *)
Definition brentq_rootfind_count (f : Q -> option Q) (a b : Q)
    (xtol : Q) (maxiter : nat) : Q * nat :=
  match f a, f b with
  | Some fa, Some fb =>
      if Qltb (Qabs fa) 1e-10 then (a, O)
      else if Qltb (Qabs fb) 1e-10 then (b, O)
      else if Qltb 0 (fa * fb) then ((a + b) / 2, O)
      else bisect_count f xtol maxiter (Bracket a fa b fb)
  | _, _ => ((a + b) / 2, O)
  end.

(** [sample_loop] with the number of samples at which [z_func] was
    evaluated and the number of bisection iterations that followed. *)
Fixpoint sample_loop_count (z_func : Q -> option Q) (target_z lo hi : Q)
    (xs : list Q) (last best : option (Q * Q)) : Q * (nat * nat) :=
  match xs with
  | [] =>
      (match best with
       | Some (best_x, _) => best_x
       | None => (lo + hi) / 2
       end, (O, O))
  | x :: xs' =>
      let bump (r : Q * (nat * nat)) := (r.1, (S r.2.1, r.2.2)) in
      match z_func x with
      | None => bump (sample_loop_count z_func target_z lo hi xs' last best)
      | Some z =>
          let f := z - target_z in
          let af := Qabs f in
          let best' :=
            match best with
            | None => Some (x, af)
            | Some (_, best_abs) => if Qltb af best_abs then Some (x, af) else best
            end in
          match last with
          | Some (last_x, last_f) =>
              if Qltb (f * last_f) 0 then
                let r := brentq_rootfind_count (residual z_func target_z)
                           last_x x 1e-5 default_maxiter in
                (r.1, (1%nat, r.2))
              else bump (sample_loop_count z_func target_z lo hi xs' (Some (x, f)) best')
          | None => bump (sample_loop_count z_func target_z lo hi xs' (Some (x, f)) best')
          end
      end
  end.

Definition invert_zscore_function_count (z_func : Q -> option Q)
    (target_z lo hi : Q) (samples : nat) : Q * (nat * nat) :=
  sample_loop_count z_func target_z lo hi (linspace lo hi samples) None None.

(** *** Curve generation *)

(** [np.arange(start, stop, step)] on floats:
    [ceil((stop - start) / step)] values [start + i * step] *)
Definition arange (start stop step : Q) : list Q :=
  let n := Z.to_nat (Qceiling ((stop - start) / step)) in
  map (fun i => start + inject_Z (Z.of_nat i) * step) (seq 0 n).

(** [AGE_GRID = np.arange(0.0, 60.25, 0.25)] *)
Definition AGE_GRID : list Q := arange 0.0 60.25 0.25.

(** [np.zeros_like(grid)] *)
Definition zeros_like (grid : list Q) : list Q := map (fun _ => 0) grid.

(** a z-score given by [_safe_z_calc], which is [None] or finite, as the
    argument of [invert_zscore_function] *)
Definition z_value (z : option pyfloat) : option Q :=
  match z with
  | Some (Fin q) => Some q
  | _ => None
  end.

(** What a curve generator does: [BOUNDS] comes from [config.py], and a
    key that it lacks raises [KeyError]. *)
Inductive curve : Type :=
| Curve (grid values : list Q)
| KeyError.

Import WhoCalculator.

(** [generate_wfa_curve(sex, z_score)] *)
Definition generate_wfa_curve (BOUNDS : gmap string (Q * Q))
    (calc : option Calculator) (sex : string) (z_score : Q) : curve :=
  match calc with
  | None => Curve AGE_GRID (zeros_like AGE_GRID)
  | Some c =>
      match BOUNDS !! "wfa" with
      | None => KeyError
      | Some (lo, hi) =>
          let z_func weight age := _safe_z_calc calc (fun _ => wfa c weight age sex) in
          let weights :=
            map (fun age =>
                   invert_zscore_function (fun w => z_value (z_func w age))
                     z_score lo hi default_samples)
                AGE_GRID in
          Curve AGE_GRID weights
      end
  end.

(** [generate_hfa_curve(sex, z_score)] *)
Definition generate_hfa_curve (BOUNDS : gmap string (Q * Q))
    (calc : option Calculator) (sex : string) (z_score : Q) : curve :=
  match calc with
  | None => Curve AGE_GRID (zeros_like AGE_GRID)
  | Some c =>
      match BOUNDS !! "hfa" with
      | None => KeyError
      | Some (lo, hi) =>
          let z_func height age := _safe_z_calc calc (fun _ => lhfa c height age sex) in
          let heights :=
            map (fun age =>
                   invert_zscore_function (fun h => z_value (z_func h age))
                     z_score lo hi default_samples)
                AGE_GRID in
          Curve AGE_GRID heights
      end
  end.

(** [generate_hcfa_curve(sex, z_score)] *)
Definition generate_hcfa_curve (BOUNDS : gmap string (Q * Q))
    (calc : option Calculator) (sex : string) (z_score : Q) : curve :=
  match calc with
  | None => Curve AGE_GRID (zeros_like AGE_GRID)
  | Some c =>
      match BOUNDS !! "hcfa" with
      | None => KeyError
      | Some (lo, hi) =>
          let z_func hc age := _safe_z_calc calc (fun _ => hcfa c hc age sex) in
          let head_circs :=
            map (fun age =>
                   invert_zscore_function (fun h => z_value (z_func h age))
                     z_score lo hi default_samples)
                AGE_GRID in
          Curve AGE_GRID head_circs
      end
  end.

(** [generate_wfl_curve(sex, age_months, z_score)] *)
Definition generate_wfl_curve (BOUNDS : gmap string (Q * Q))
    (calc : option Calculator) (sex : string) (age_months z_score : Q) : curve :=
  match BOUNDS !! "wfl_l" with
  | None => KeyError
  | Some wfl_l =>
      let lengths := arange wfl_l.1 (wfl_l.2 + 0.5) 0.5 in
      match calc with
      | None => Curve lengths (zeros_like lengths)
      | Some c =>
          match BOUNDS !! "wfl_w" with
          | None => KeyError
          | Some (lo_w, hi_w) =>
              let z_func weight length :=
                _safe_z_calc calc (fun _ => wfl c weight age_months sex length) in
              let weights :=
                map (fun length =>
                       invert_zscore_function (fun w => z_value (z_func w length))
                         z_score lo_w hi_w default_samples)
                    lengths in
              Curve lengths weights
          end
      end
  end.

End GrowthCharts.

(* ===================================================================== *)
(** ** modules/kejar_tumbuh.py *)
(* ===================================================================== *)

Module KejarTumbuh.
Import PyFloat.

(** *** Built-ins used by the module *)

(** Rounding to the nearest integer, ties to the even one. *)
Definition round_half_even (x : Q) : Z :=
  let fl := Qfloor x in
  match Qcompare (x - inject_Z fl) (1 # 2) with
  | Lt => fl
  | Gt => (fl + 1)%Z
  | Eq => if Z.even fl then fl else (fl + 1)%Z
  end.

Definition pow10 (n : nat) : Q := inject_Z (10 ^ Z.of_nat n).

(** [round(x, ndigits)] *)
Definition round (x : Q) (ndigits : nat) : Q :=
  Qred (inject_Z (round_half_even (x * pow10 ndigits)) / pow10 ndigits).

(** [f"{x:.1f}"] *)
Definition format_1f (x : Q) : string :=
  let t := Z.abs_N (round_half_even (x * 10)) in
  (if Qltb x 0 then "-" else "") +:+
  pretty (t / 10)%N +:+ "." +:+ pretty (t mod 10)%N.

(** [c.upper()] on one ASCII character *)
Definition upper (c : ascii) : ascii :=
  let n := nat_of_ascii c in
  if ((97 <=? n) && (n <=? 122))%nat then ascii_of_nat (n - 32) else c.

(** [str(sex).upper().startswith(("M", "L"))] *)
Definition starts_with_M_or_L (sex : string) : bool :=
  match sex with
  | String c _ => Ascii.eqb (upper c) "M" || Ascii.eqb (upper c) "L"
  | EmptyString => false
  end.

(** [sorted(l, key=...)]: the sort is stable, an element goes before the
    first one whose key is not smaller. *)
Section Sorted.
Context {A : Type} (key : A -> Q).

Fixpoint insert_by (x : A) (l : list A) : list A :=
  match l with
  | [] => [x]
  | y :: l' =>
      if Qle_bool (key x) (key y) then x :: y :: l'
      else y :: insert_by x l'
  end.

Definition sorted (l : list A) : list A := foldr insert_by [] l.
End Sorted.

(** *** Reference data *)

(** [GROWTH_VELOCITY_REFERENCE] *)
Definition GROWTH_VELOCITY_REFERENCE : gmap string (gmap string (Q * Q)) :=
  list_to_map [
    ("0_3", list_to_map [
       ("weight_male", (0.8, 1.3)); ("weight_female", (0.7, 1.2));
       ("height_male", (3.0, 4.0)); ("height_female", (2.8, 3.8)) ]);
    ("3_6", list_to_map [
       ("weight_male", (0.5, 0.9)); ("weight_female", (0.4, 0.8));
       ("height_male", (2.0, 2.8)); ("height_female", (1.8, 2.6)) ]);
    ("6_9", list_to_map [
       ("weight_male", (0.3, 0.6)); ("weight_female", (0.3, 0.5));
       ("height_male", (1.3, 1.8)); ("height_female", (1.2, 1.7)) ]);
    ("9_12", list_to_map [
       ("weight_male", (0.2, 0.5)); ("weight_female", (0.2, 0.4));
       ("height_male", (1.0, 1.5)); ("height_female", (0.9, 1.4)) ]);
    ("12_24", list_to_map [
       ("weight_male", (0.15, 0.35)); ("weight_female", (0.15, 0.30));
       ("height_male", (0.8, 1.2)); ("height_female", (0.7, 1.1)) ]);
    ("24_60", list_to_map [
       ("weight_male", (0.1, 0.25)); ("weight_female", (0.1, 0.20));
       ("height_male", (0.5, 0.8)); ("height_female", (0.5, 0.7)) ])
  ].

(** the dict returned by [get_velocity_reference] *)
Record reference : Type := {
  weight_range : Q * Q;
  height_range : Q * Q;
  age_range : string
}.

(** [get_velocity_reference(age_months, sex)] *)
Definition get_velocity_reference (age_months : Q) (sex : string) : reference :=
  let sex_key := if starts_with_M_or_L sex then "male" else "female" in
  let range_key :=
    if Qltb age_months 3 then "0_3"
    else if Qltb age_months 6 then "3_6"
    else if Qltb age_months 9 then "6_9"
    else if Qltb age_months 12 then "9_12"
    else if Qltb age_months 24 then "12_24"
    else "24_60" in
  let ref : gmap string (Q * Q) :=
    default (default ∅ (GROWTH_VELOCITY_REFERENCE !! "24_60"))
            (GROWTH_VELOCITY_REFERENCE !! range_key) in
  {| weight_range := default (0.1, 0.5) (ref !! ("weight_" +:+ sex_key));
     height_range := default (0.5, 1.0) (ref !! ("height_" +:+ sex_key));
     age_range := range_key |}.

(** the dict returned by [evaluate_velocity] *)
Record evaluation : Type := {
  status : string;
  color : string;
  emoji : string;
  message : string;
  severity : string
}.

(** [evaluate_velocity(velocity, reference_range, measure_type)] *)
Definition evaluate_velocity (velocity : Q) (reference_range : Q * Q)
    (measure_type : string) : evaluation :=
  let '(min_normal, max_normal) := reference_range in
  if Qltb velocity 0 then
    {| status := "Penurunan"; color := "#d32f2f"; emoji := "🚨";
       message := "Terjadi PENURUNAN " +:+ measure_type +:+
                  "! Segera konsultasi ke dokter.";
       severity := "critical" |}
  else if Qltb velocity (min_normal * 0.5) then
    {| status := "Sangat Lambat"; color := "#e65100"; emoji := "⚠️";
       message := "Pertumbuhan " +:+ measure_type +:+
                  " sangat lambat. Perlu evaluasi segera.";
       severity := "warning" |}
  else if Qltb velocity min_normal then
    {| status := "Lambat"; color := "#f57c00"; emoji := "📊";
       message := "Pertumbuhan " +:+ measure_type +:+
                  " di bawah rata-rata. Perlu perhatian.";
       severity := "attention" |}
  else if Qle_bool velocity max_normal then
    {| status := "Normal"; color := "#388e3c"; emoji := "✅";
       message := "Pertumbuhan " +:+ measure_type +:+ " dalam rentang normal.";
       severity := "normal" |}
  else
    {| status := "Cepat"; color := "#1976d2"; emoji := "📈";
       message := "Pertumbuhan " +:+ measure_type +:+ " di atas rata-rata.";
       severity := "good" |}.

(** one measurement: [{"usia_bulan": ..., "bb": ..., "tb": ...}] *)
Record measurement : Type := {
  usia_bulan : Q;
  bb : Q;
  tb : Q
}.

(** the dict returned by [calculate_velocity] *)
Record velocity : Type := {
  periode : string;
  delta_months : Q;
  delta_bb : Q;
  delta_tb : Q;
  velocity_bb : Q;
  velocity_tb : Q;
  mid_age : Q
}.

(** [calculate_velocity(data1, data2)] *)
Definition calculate_velocity (data1 data2 : measurement) : option velocity :=
  let delta_months := usia_bulan data2 - usia_bulan data1 in
  if Qle_bool delta_months 0 then None
  else
    let delta_bb := bb data2 - bb data1 in
    let delta_tb := tb data2 - tb data1 in
    let velocity_bb := delta_bb / delta_months in
    let velocity_tb := delta_tb / delta_months in
    Some {| periode := format_1f (usia_bulan data1) +:+ " → " +:+
                       format_1f (usia_bulan data2) +:+ " bulan";
            delta_months := round delta_months 1;
            delta_bb := round delta_bb 2;
            delta_tb := round delta_tb 1;
            velocity_bb := round velocity_bb 3;
            velocity_tb := round velocity_tb 2;
            mid_age := (usia_bulan data1 + usia_bulan data2) / 2 |}.

(** one entry of [evaluations]: [{**vel, 'reference': ..., ...}] *)
Record evaluated : Type := {
  vel : velocity;
  ref : reference;
  bb_evaluation : evaluation;
  tb_evaluation : evaluation
}.

(** the ["summary"] dict *)
Record summary : Type := {
  total_measurements : nat;
  total_periods : nat;
  total_months : Q;
  total_delta_bb : Q;
  total_delta_tb : Q;
  avg_velocity_bb : Q;
  avg_velocity_tb : Q;
  overall_status : string;
  overall_message : string
}.

(** What [analyze_growth_velocity] does: it returns a dict whose
    ["success"] is [False] with an ["error"], or [True] with the report;
    [IndexError] is the exception of [sorted_data[0]] on an empty list. *)
Inductive analysis : Type :=
| Failure (error : string)
| Success (data : list measurement) (velocities : list velocity)
          (evaluations : list evaluated) (summ : summary) (gender : string)
| IndexError.

(** the loop over [range(len(sorted_data) - 1)] *)
Fixpoint adjacent_velocities (sorted_data : list measurement) : list velocity :=
  match sorted_data with
  | d1 :: ((d2 :: _) as rest) =>
      match calculate_velocity d1 d2 with
      | Some v => v :: adjacent_velocities rest
      | None => adjacent_velocities rest
      end
  | _ => []
  end.

(** [sum(...)] of floats: left to right from [0] *)
Definition sum (l : list Q) : Q := fold_left Qplus l 0.

Definition len {A} (l : list A) : Q := inject_Z (Z.of_nat (length l)).

(** [sum(1 for e in evaluations if ... == sev or ... == sev)] *)
Definition count_severity (sev : string) (evaluations : list evaluated) : nat :=
  length (List.filter
            (fun e => String.eqb (severity (bb_evaluation e)) sev
                      || String.eqb (severity (tb_evaluation e)) sev)
            evaluations).

(** [analyze_growth_velocity(data_list, gender)] *)
Definition analyze_growth_velocity (data_list : list measurement)
    (gender : string) : analysis :=
  if (length data_list <? 2)%nat then
    Failure "Minimal 2 pengukuran diperlukan untuk analisis"
  else
    let sorted_data := sorted usia_bulan data_list in
    let velocities := adjacent_velocities sorted_data in
    match velocities with
    | [] => Failure "Tidak dapat menghitung velocity (periksa urutan usia)"
    | _ :: _ =>
        let evaluations :=
          map (fun v =>
                 let r := get_velocity_reference (mid_age v) gender in
                 {| vel := v; ref := r;
                    bb_evaluation :=
                      evaluate_velocity (velocity_bb v) (weight_range r) "berat badan";
                    tb_evaluation :=
                      evaluate_velocity (velocity_tb v) (height_range r) "tinggi badan" |})
              velocities in
        let avg_velocity_bb := sum (map velocity_bb velocities) / len velocities in
        let avg_velocity_tb := sum (map velocity_tb velocities) / len velocities in
        match sorted_data, last sorted_data with
        | first :: _, Some final =>
            let total_delta_bb := bb final - bb first in
            let total_delta_tb := tb final - tb first in
            let total_months := usia_bulan final - usia_bulan first in
            let critical_count := count_severity "critical" evaluations in
            let warning_count := count_severity "warning" evaluations in
            let '(overall_status, overall_message) :=
              if (0 <? critical_count)%nat then
                ("critical",
                 "⚠️ PERHATIAN: Terdeteksi penurunan atau pertumbuhan sangat lambat. Segera konsultasi ke dokter!")
              else if (0 <? warning_count)%nat then
                ("warning",
                 "📊 Perlu perhatian: Beberapa periode menunjukkan pertumbuhan di bawah rata-rata.")
              else
                ("normal",
                 "✅ Pertumbuhan keseluruhan dalam rentang normal. Pertahankan pola makan dan stimulasi.") in
            Success sorted_data velocities evaluations
              {| total_measurements := length sorted_data;
                 total_periods := length velocities;
                 total_months := round total_months 1;
                 total_delta_bb := round total_delta_bb 2;
                 total_delta_tb := round total_delta_tb 1;
                 avg_velocity_bb := round avg_velocity_bb 3;
                 avg_velocity_tb := round avg_velocity_tb 2;
                 overall_status := overall_status;
                 overall_message := overall_message |}
              gender
        | _, _ => IndexError
        end
    end.

End KejarTumbuh.

(* ===================================================================== *)
(** ** modules/who_calculator.py: the normal ranges *)
(* ===================================================================== *)

Module NormalRanges.
Import PyFloat WhoCalculator GrowthCharts.

(** one entry of the dict returned by [get_normal_ranges] *)
Record normal_range : Type := {
  min_normal : Q;
  median : Q;
  max_normal : Q;
  unit : string
}.

(** [get_normal_ranges(sex, age_months)].  [BOUNDS] comes from [config.py];
    a key that it lacks raises [KeyError] under the [try], and the entry
    is then left out.  The three targets are [-2], [0] and [2]. *)
Definition get_normal_ranges (BOUNDS : gmap string (Q * Q))
    (calc : option Calculator) (sex : string) (age_months : Q)
    : gmap string normal_range :=
  match calc with
  | None => ∅
  | Some c =>
      let ranges : gmap string normal_range := ∅ in
      (* Weight-for-Age ranges *)
      let ranges :=
        let wfa_func w := z_value (_safe_z_calc calc (fun _ => wfa c w age_months sex)) in
        match BOUNDS !! "wfa" with
        | Some (lo, hi) =>
            <["weight" :=
               {| min_normal :=
                    KejarTumbuh.round
                      (invert_zscore_function wfa_func (-2) lo hi default_samples) 2;
                  median :=
                    KejarTumbuh.round
                      (invert_zscore_function wfa_func 0 lo hi default_samples) 2;
                  max_normal :=
                    KejarTumbuh.round
                      (invert_zscore_function wfa_func 2 lo hi default_samples) 2;
                  unit := "kg" |}]> ranges
        | None => ranges
        end in
      (* Height-for-Age ranges *)
      let ranges :=
        let hfa_func h := z_value (_safe_z_calc calc (fun _ => lhfa c h age_months sex)) in
        match BOUNDS !! "hfa" with
        | Some (lo, hi) =>
            <["height" :=
               {| min_normal :=
                    KejarTumbuh.round
                      (invert_zscore_function hfa_func (-2) lo hi default_samples) 1;
                  median :=
                    KejarTumbuh.round
                      (invert_zscore_function hfa_func 0 lo hi default_samples) 1;
                  max_normal :=
                    KejarTumbuh.round
                      (invert_zscore_function hfa_func 2 lo hi default_samples) 1;
                  unit := "cm" |}]> ranges
        | None => ranges
        end in
      (* Head Circumference ranges *)
      let ranges :=
        let hcfa_func hc := z_value (_safe_z_calc calc (fun _ => hcfa c hc age_months sex)) in
        match BOUNDS !! "hcfa" with
        | Some (lo, hi) =>
            <["head_circ" :=
               {| min_normal :=
                    KejarTumbuh.round
                      (invert_zscore_function hcfa_func (-2) lo hi default_samples) 1;
                  median :=
                    KejarTumbuh.round
                      (invert_zscore_function hcfa_func 0 lo hi default_samples) 1;
                  max_normal :=
                    KejarTumbuh.round
                      (invert_zscore_function hcfa_func 2 lo hi default_samples) 1;
                  unit := "cm" |}]> ranges
        | None => ranges
        end in
      ranges
  end.

End NormalRanges.

(* ===================================================================== *)
(** ** data/kpsp.py *)
(* ===================================================================== *)

Module Kpsp.

(** one question of a questionnaire *)
Record kpsp_question : Type := {
  id : string;
  domain : string;
  question : string;
  how_to_test : string;
  normal_response : string
}.

(** the questionnaire of one age *)
Record kpsp_entry : Type := {
  age_label : string;
  domain_focus : list string;
  questions : list kpsp_question
}.

(** [KPSP_QUESTIONS] *)
Definition KPSP_QUESTIONS : gmap Z kpsp_entry :=
  list_to_map [
    (3%Z,
     {| age_label := "3 bulan";
        domain_focus := ["Motorik Kasar"; "Bahasa"; "Sosialisasi"];
        questions := [
         {| id := "3-1";
            domain := "Motorik Kasar";
            question := "Apakah anak dapat mengangkat kepalanya 45° saat tengkurap?";
            how_to_test := "Letakkan bayi tengkurap, amati apakah ia mengangkat kepala";
            normal_response := "Bayi dapat mengangkat kepala minimal 45° dari alas" |};
         {| id := "3-2";
            domain := "Sosialisasi";
            question := "Apakah anak tersenyum saat diajak bicara atau tersenyum sendiri?";
            how_to_test := "Ajak bayi berbicara atau tersenyum";
            normal_response := "Bayi tersenyum sebagai respon sosial" |};
         {| id := "3-3";
            domain := "Bahasa";
            question := "Apakah anak mengeluarkan suara-suara (mengoceh)?";
            how_to_test := "Dengarkan apakah bayi mengeluarkan suara vokal";
            normal_response := "Bayi mengeluarkan suara 'aaa', 'uuu', dll" |};
         {| id := "3-4";
            domain := "Motorik Halus";
            question := "Apakah anak dapat menatap dan mengikuti wajah ibu/pengasuh?";
            how_to_test := "Gerakkan wajah Anda perlahan dari kiri ke kanan";
            normal_response := "Mata bayi mengikuti gerakan wajah" |};
         {| id := "3-5";
            domain := "Motorik Halus";
            question := "Apakah anak berusaha meraih benda atau mainan yang ditunjukkan?";
            how_to_test := "Tunjukkan mainan berwarna cerah di depan bayi";
            normal_response := "Bayi berusaha mengulurkan tangan ke arah mainan" |} ] |});
    (6%Z,
     {| age_label := "6 bulan";
        domain_focus := ["Motorik Kasar"; "Motorik Halus"; "Bahasa"];
        questions := [
         {| id := "6-1";
            domain := "Motorik Kasar";
            question := "Apakah anak dapat duduk dengan bantuan (bersandar)?";
            how_to_test := "Dudukkan bayi dengan bantuan bantal atau sandaran";
            normal_response := "Bayi dapat mempertahankan posisi duduk dengan bantuan" |};
         {| id := "6-2";
            domain := "Motorik Halus";
            question := "Apakah anak dapat memindahkan mainan dari tangan satu ke tangan lain?";
            how_to_test := "Berikan mainan kecil ke satu tangan bayi";
            normal_response := "Bayi memindahkan mainan ke tangan lainnya" |};
         {| id := "6-3";
            domain := "Bahasa";
            question := "Apakah anak mengeluarkan suara vokal seperti 'a-u-o'?";
            how_to_test := "Ajak bayi 'berbicara', amati vokalisasinya";
            normal_response := "Bayi menghasilkan variasi suara vokal" |};
         {| id := "6-4";
            domain := "Sosialisasi";
            question := "Apakah anak tertawa keras saat bermain atau diajak bercanda?";
            how_to_test := "Bermain cilukba atau menggelitik ringan";
            normal_response := "Bayi tertawa dengan suara keras" |};
         {| id := "6-5";
            domain := "Sosialisasi";
            question := "Apakah anak mengenal orang asing (tampak malu atau marah)?";
            how_to_test := "Perhatikan reaksi bayi saat bertemu orang baru";
            normal_response := "Bayi menunjukkan reaksi berbeda terhadap orang asing" |} ] |});
    (9%Z,
     {| age_label := "9 bulan";
        domain_focus := ["Motorik Kasar"; "Motorik Halus"; "Bahasa"];
        questions := [
         {| id := "9-1";
            domain := "Motorik Kasar";
            question := "Apakah anak dapat duduk sendiri tanpa bantuan minimal 1 menit?";
            how_to_test := "Dudukkan bayi tanpa sandaran, amati keseimbangan";
            normal_response := "Bayi duduk stabil minimal 1 menit" |};
         {| id := "9-2";
            domain := "Motorik Kasar";
            question := "Apakah anak dapat merangkak maju (bukan mundur)?";
            how_to_test := "Letakkan mainan di depan bayi saat tengkurap";
            normal_response := "Bayi merangkak maju menuju mainan" |};
         {| id := "9-3";
            domain := "Bahasa";
            question := "Apakah anak mengucapkan 'mama' atau 'papa' (meski berlebihan)?";
            how_to_test := "Dengarkan vokalisasi bayi sepanjang hari";
            normal_response := "Bayi mengucapkan suku kata berulang seperti ma-ma, pa-pa" |};
         {| id := "9-4";
            domain := "Motorik Halus";
            question := "Apakah anak dapat meraih benda kecil dengan jempol dan telunjuk?";
            how_to_test := "Letakkan benda kecil (seperti kismis) di depan bayi";
            normal_response := "Bayi mengambil dengan pincer grasp" |};
         {| id := "9-5";
            domain := "Sosialisasi";
            question := "Apakah anak dapat menirukan gerakan tepuk tangan?";
            how_to_test := "Tepuk tangan di depan bayi, ajak menirukan";
            normal_response := "Bayi mencoba menirukan gerakan tepuk tangan" |} ] |});
    (12%Z,
     {| age_label := "12 bulan";
        domain_focus := ["Motorik Kasar"; "Bahasa"; "Kemandirian"];
        questions := [
         {| id := "12-1";
            domain := "Motorik Kasar";
            question := "Apakah anak dapat berdiri sendiri minimal 5 detik tanpa berpegangan?";
            how_to_test := "Bantu anak berdiri lalu lepaskan pegangan";
            normal_response := "Anak berdiri seimbang minimal 5 detik" |};
         {| id := "12-2";
            domain := "Motorik Kasar";
            question := "Apakah anak dapat berjalan berpegangan pada furniture?";
            how_to_test := "Amati anak berjalan menyusuri sofa/meja";
            normal_response := "Anak berjalan sambil berpegangan (cruising)" |};
         {| id := "12-3";
            domain := "Bahasa";
            question := "Apakah anak dapat mengucapkan 2-3 kata yang bermakna?";
            how_to_test := "Catat kata-kata yang diucapkan dengan makna";
            normal_response := "Anak mengucapkan kata seperti mama, papa, susu" |};
         {| id := "12-4";
            domain := "Kemandirian";
            question := "Apakah anak dapat minum dari cangkir sendiri?";
            how_to_test := "Berikan cangkir/sippy cup berisi air";
            normal_response := "Anak memegang dan minum sendiri" |};
         {| id := "12-5";
            domain := "Bahasa";
            question := "Apakah anak dapat menunjuk benda yang diinginkannya?";
            how_to_test := "Perhatikan cara anak berkomunikasi";
            normal_response := "Anak menunjuk dengan jari telunjuk" |} ] |});
    (15%Z,
     {| age_label := "15 bulan";
        domain_focus := ["Motorik Kasar"; "Bahasa"; "Motorik Halus"];
        questions := [
         {| id := "15-1";
            domain := "Motorik Kasar";
            question := "Apakah anak dapat berjalan sendiri dengan stabil minimal 5 langkah?";
            how_to_test := "Minta anak berjalan ke arah Anda";
            normal_response := "Anak berjalan tanpa berpegangan minimal 5 langkah" |};
         {| id := "15-2";
            domain := "Kemandirian";
            question := "Apakah anak dapat minum dari gelas tanpa tumpah?";
            how_to_test := "Berikan gelas dengan sedikit air";
            normal_response := "Anak minum tanpa banyak tumpah" |};
         {| id := "15-3";
            domain := "Bahasa";
            question := "Apakah anak dapat mengucapkan 4-6 kata dengan jelas?";
            how_to_test := "Catat kata-kata yang diucapkan anak";
            normal_response := "Minimal 4 kata yang dapat dimengerti" |};
         {| id := "15-4";
            domain := "Motorik Halus";
            question := "Apakah anak dapat menumpuk 2 kubus dengan stabil?";
            how_to_test := "Berikan kubus/balok, contohkan cara menumpuk";
            normal_response := "Anak menumpuk 2 kubus tanpa jatuh" |};
         {| id := "15-5";
            domain := "Kemandirian";
            question := "Apakah anak dapat membantu melepas sepatunya sendiri?";
            how_to_test := "Longgarkan sepatu, minta anak melepas";
            normal_response := "Anak membantu proses melepas sepatu" |} ] |});
    (18%Z,
     {| age_label := "18 bulan";
        domain_focus := ["Motorik Kasar"; "Bahasa"; "Kemandirian"];
        questions := [
         {| id := "18-1";
            domain := "Motorik Kasar";
            question := "Apakah anak dapat berlari minimal 5 langkah berturut-turut?";
            how_to_test := "Ajak anak bermain kejar-kejaran";
            normal_response := "Anak berlari beberapa langkah" |};
         {| id := "18-2";
            domain := "Motorik Kasar";
            question := "Apakah anak dapat naik tangga dengan bantuan pegangan?";
            how_to_test := "Temani anak naik tangga sambil berpegangan";
            normal_response := "Anak naik tangga dengan pegangan" |};
         {| id := "18-3";
            domain := "Bahasa";
            question := "Apakah anak dapat mengucapkan 10-15 kata yang berbeda?";
            how_to_test := "Catat semua kata yang diucapkan anak";
            normal_response := "Minimal 10 kata bermakna" |};
         {| id := "18-4";
            domain := "Kemandirian";
            question := "Apakah anak dapat makan sendiri dengan sendok?";
            how_to_test := "Berikan sendok dan makanan lunak";
            normal_response := "Anak menyendok dan memasukkan ke mulut" |};
         {| id := "18-5";
            domain := "Bahasa";
            question := "Apakah anak dapat menunjuk minimal 2 bagian tubuhnya?";
            how_to_test := "Tanya 'mana hidung?', 'mana mata?'";
            normal_response := "Anak menunjuk dengan benar minimal 2 bagian" |} ] |});
    (21%Z,
     {| age_label := "21 bulan";
        domain_focus := ["Motorik Kasar"; "Bahasa"; "Kognitif"];
        questions := [
         {| id := "21-1";
            domain := "Motorik Kasar";
            question := "Apakah anak dapat menendang bola ke depan tanpa jatuh?";
            how_to_test := "Letakkan bola di depan anak";
            normal_response := "Anak menendang dengan keseimbangan" |};
         {| id := "21-2";
            domain := "Motorik Kasar";
            question := "Apakah anak dapat naik tangga dengan 1 kaki bergantian?";
            how_to_test := "Amati cara anak naik tangga";
            normal_response := "Anak bergantian kaki (bukan 2 kaki per anak tangga)" |};
         {| id := "21-3";
            domain := "Bahasa";
            question := "Apakah anak dapat mengucapkan kalimat 2-3 kata?";
            how_to_test := "Dengarkan ucapan anak sehari-hari";
            normal_response := "Contoh: 'mau susu', 'mama pergi'" |};
         {| id := "21-4";
            domain := "Motorik Halus";
            question := "Apakah anak dapat membalik halaman buku satu per satu?";
            how_to_test := "Berikan buku bergambar dengan halaman tebal";
            normal_response := "Anak membalik satu halaman dalam sekali waktu" |};
         {| id := "21-5";
            domain := "Kognitif";
            question := "Apakah anak dapat mengikuti perintah sederhana 2 tahap?";
            how_to_test := "Contoh: 'Ambil bola, berikan ke mama'";
            normal_response := "Anak melakukan kedua instruksi berurutan" |} ] |});
    (24%Z,
     {| age_label := "24 bulan";
        domain_focus := ["Motorik Kasar"; "Bahasa"; "Kognitif"];
        questions := [
         {| id := "24-1";
            domain := "Motorik Kasar";
            question := "Apakah anak dapat melompat dengan 2 kaki bersamaan?";
            how_to_test := "Contohkan gerakan melompat";
            normal_response := "Kedua kaki terangkat dari tanah bersamaan" |};
         {| id := "24-2";
            domain := "Motorik Kasar";
            question := "Apakah anak dapat naik-turun tangga tanpa pegangan?";
            how_to_test := "Amati anak naik turun tangga (dengan pengawasan)";
            normal_response := "Anak berjalan naik/turun tanpa berpegangan" |};
         {| id := "24-3";
            domain := "Bahasa";
            question := "Apakah anak dapat membuat kalimat 3-4 kata yang runtut?";
            how_to_test := "Dengarkan percakapan anak";
            normal_response := "Contoh: 'Aku mau makan nasi'" |};
         {| id := "24-4";
            domain := "Motorik Halus";
            question := "Apakah anak dapat menggambar garis vertikal setelah dicontohkan?";
            how_to_test := "Gambar garis vertikal, minta anak meniru";
            normal_response := "Anak menggambar garis dari atas ke bawah" |};
         {| id := "24-5";
            domain := "Kognitif";
            question := "Apakah anak dapat mengikuti perintah kompleks 3 tahap?";
            how_to_test := "'Ambil buku, letakkan di meja, duduk di kursi'";
            normal_response := "Anak melakukan ketiga instruksi berurutan" |} ] |})
  ].

(** [sorted(KPSP_QUESTIONS.keys())]: the keys are distinct integers, so
    the sorted list does not depend on the order in which the dict gives
    them *)
Definition kpsp_ages : list Z :=
  KejarTumbuh.sorted inject_Z (map fst (map_to_list KPSP_QUESTIONS)).

(** the loop of [get_kpsp_questions_for_month], which stops at the first
    age above [month] *)
Fixpoint nearest_with_break (month : Z) (ages : list Z) (nearest_age : option Z)
    : option Z :=
  match ages with
  | [] => nearest_age
  | age :: rest =>
      if (age <=? month)%Z then nearest_with_break month rest (Some age)
      else nearest_age
  end.

(** the loop of [get_kpsp_full_for_month], which runs over all ages *)
Fixpoint nearest_without_break (month : Z) (ages : list Z) (nearest_age : option Z)
    : option Z :=
  match ages with
  | [] => nearest_age
  | age :: rest =>
      if (age <=? month)%Z then nearest_without_break month rest (Some age)
      else nearest_without_break month rest nearest_age
  end.

(** [get_kpsp_questions_for_month(month)] *)
Definition get_kpsp_questions_for_month (month : Z) : list string :=
  match nearest_with_break month kpsp_ages None with
  | None => []
  | Some nearest_age =>
      match KPSP_QUESTIONS !! nearest_age with
      | None => []
      | Some entry => map question (questions entry)
      end
  end.

(** [get_kpsp_full_for_month(month)] *)
Definition get_kpsp_full_for_month (month : Z) : option kpsp_entry :=
  match nearest_without_break month kpsp_ages None with
  | None => None
  | Some nearest_age => KPSP_QUESTIONS !! nearest_age
  end.

(** the dict returned by [interpret_kpsp_result] *)
Record interpretation : Type := {
  status : string;
  color : string;
  emoji : string;
  recommendation : string;
  action : string
}.

(** [interpret_kpsp_result(yes_count, total)] *)
Definition interpret_kpsp_result (yes_count total : Z) : interpretation :=
  let no_count := (total - yes_count)%Z in
  if (no_count =? 0)%Z then
    {| status := "Sesuai"; color := "#28a745"; emoji := "✅";
       recommendation := "Perkembangan anak sesuai dengan usianya. Lanjutkan stimulasi dan pemantauan rutin.";
       action := "Lakukan KPSP ulang sesuai jadwal usia berikutnya." |}
  else if (no_count =? 1)%Z then
    {| status := "Meragukan"; color := "#ffc107"; emoji := "⚠️";
       recommendation := "Ada 1 aspek perkembangan yang perlu perhatian. Lakukan stimulasi lebih intensif pada area tersebut.";
       action := "Ulangi KPSP dalam 2 minggu. Jika masih ada jawaban 'Tidak', konsultasi ke tenaga kesehatan." |}
  else
    {| status := "Kemungkinan Penyimpangan"; color := "#dc3545"; emoji := "🚨";
       recommendation := "Terdeteksi kemungkinan keterlambatan perkembangan. Segera lakukan pemeriksaan lebih lanjut.";
       action := "SEGERA rujuk ke dokter anak atau klinik tumbuh kembang untuk evaluasi menyeluruh." |}.

(** the default [total=5] *)
Definition default_total : Z := 5.

End Kpsp.

(* ===================================================================== *)
(** ** modules/checklist.py: the helpers of the monthly checklist *)
(* ===================================================================== *)

Module Checklist.

(** the milestones of one age *)
Record milestone : Type := {
  motorik_kasar : list string;
  motorik_halus : list string;
  bahasa : list string;
  sosial : list string
}.

(** the recommendations of one phase *)
Record nutrition : Type := {
  title : string;
  recommendations : list string
}.

(** [DEVELOPMENT_MILESTONES] *)
Definition DEVELOPMENT_MILESTONES : gmap Z milestone :=
  list_to_map [
    (0%Z,
     {| motorik_kasar := ["Refleks menggenggam"; "Refleks rooting (mencari puting)"];
        motorik_halus := ["Tangan masih mengepal"];
        bahasa := ["Menangis untuk berkomunikasi"];
        sosial := ["Merespon suara ibu"] |});
    (1%Z,
     {| motorik_kasar := ["Mengangkat kepala sebentar saat tengkurap"];
        motorik_halus := ["Mulai memperhatikan tangannya"];
        bahasa := ["Mengeluarkan suara 'aaa'"];
        sosial := ["Mulai tersenyum sosial"] |});
    (2%Z,
     {| motorik_kasar := ["Mengangkat kepala 45° saat tengkurap"];
        motorik_halus := ["Tangan mulai terbuka"];
        bahasa := ["Cooing (suara vokal)"];
        sosial := ["Tersenyum saat diajak bicara"] |});
    (3%Z,
     {| motorik_kasar := ["Mengangkat kepala 90° saat tengkurap"; "Menopang dengan lengan"];
        motorik_halus := ["Meraih benda di dekatnya"];
        bahasa := ["Mengoceh dengan variasi"];
        sosial := ["Tertawa keras"] |});
    (4%Z,
     {| motorik_kasar := ["Berguling dari tengkurap ke telentang"];
        motorik_halus := ["Menggenggam mainan"];
        bahasa := ["Babbling (ba-ba-ba)"];
        sosial := ["Mengenal wajah familiar"] |});
    (5%Z,
     {| motorik_kasar := ["Berguling dua arah"];
        motorik_halus := ["Memindahkan benda antar tangan"];
        bahasa := ["Variasi babbling meningkat"];
        sosial := ["Stranger anxiety mulai muncul"] |});
    (6%Z,
     {| motorik_kasar := ["Duduk dengan bantuan"; "Merangkak mundur"];
        motorik_halus := ["Mengambil benda dengan seluruh telapak tangan"];
        bahasa := ["Mengucapkan konsonan"];
        sosial := ["Bermain cilukba"] |});
    (7%Z,
     {| motorik_kasar := ["Duduk tanpa bantuan sebentar"];
        motorik_halus := ["Memukul-mukul mainan"];
        bahasa := ["Ma-ma, pa-pa tanpa makna"];
        sosial := ["Melambaikan tangan"] |});
    (8%Z,
     {| motorik_kasar := ["Duduk stabil sendiri"; "Merangkak maju"];
        motorik_halus := ["Pincer grasp mulai berkembang"];
        bahasa := ["Mengerti 'tidak'"];
        sosial := ["Bermain bersama orang dewasa"] |});
    (9%Z,
     {| motorik_kasar := ["Merangkak cepat"; "Berdiri berpegangan"];
        motorik_halus := ["Mengambil benda kecil dengan jempol-telunjuk"];
        bahasa := ["1 kata bermakna"];
        sosial := ["Menunjuk untuk meminta"] |});
    (10%Z,
     {| motorik_kasar := ["Cruising (jalan berpegangan furniture)"];
        motorik_halus := ["Memasukkan benda ke wadah"];
        bahasa := ["2-3 kata bermakna"];
        sosial := ["Meniru gerakan sederhana"] |});
    (11%Z,
     {| motorik_kasar := ["Berdiri sendiri sebentar"];
        motorik_halus := ["Menumpuk 2 kubus"];
        bahasa := ["Mengikuti instruksi sederhana"];
        sosial := ["Main bertepuk tangan"] |});
    (12%Z,
     {| motorik_kasar := ["Berjalan dengan bantuan/sendiri"];
        motorik_halus := ["Mencoret-coret"];
        bahasa := ["4-6 kata bermakna"];
        sosial := ["Minum dari gelas sendiri"] |});
    (15%Z,
     {| motorik_kasar := ["Berjalan stabil"; "Naik tangga merangkak"];
        motorik_halus := ["Menumpuk 3-4 kubus"];
        bahasa := ["10-15 kata"];
        sosial := ["Makan sendiri dengan sendok (berantakan)"] |});
    (18%Z,
     {| motorik_kasar := ["Berlari"; "Naik tangga dengan bantuan"];
        motorik_halus := ["Menumpuk 4-5 kubus"; "Membalik halaman buku"];
        bahasa := ["20-50 kata"; "Kalimat 2 kata"];
        sosial := ["Mulai bermain paralel"] |});
    (21%Z,
     {| motorik_kasar := ["Melompat di tempat"; "Menendang bola"];
        motorik_halus := ["Menggambar garis vertikal"];
        bahasa := ["Kalimat 2-3 kata"; "Menunjuk gambar di buku"];
        sosial := ["Mengikuti instruksi 2 tahap"] |});
    (24%Z,
     {| motorik_kasar := ["Melompat dengan 2 kaki"; "Naik turun tangga sendiri"];
        motorik_halus := ["Menumpuk 6+ kubus"; "Memutar pegangan pintu"];
        bahasa := ["50-200 kata"; "Kalimat 3-4 kata"];
        sosial := ["Bermain pura-pura"; "Toilet training mulai"] |})
  ].

(** [NUTRITION_RECOMMENDATIONS] *)
Definition NUTRITION_RECOMMENDATIONS : gmap string nutrition :=
  list_to_map [
    ("0-6",
     {| title := "ASI Eksklusif";
        recommendations := [
          "🤱 ASI on demand (8-12x/hari)";
          "💧 Tidak perlu air/makanan tambahan";
          "😴 Skin-to-skin untuk bonding";
          "💊 Vitamin D jika diperlukan (konsultasi dokter)" ] |});
    ("6-9",
     {| title := "MPASI Awal";
        recommendations := [
          "🥣 MPASI 2-3x sehari + ASI";
          "🍗 Protein hewani di SETIAP makan";
          "🧈 Tambahkan lemak (EVOO, santan)";
          "📈 Tingkatkan tekstur bertahap" ] |});
    ("9-12",
     {| title := "MPASI Lanjutan";
        recommendations := [
          "🍽️ 3x makan + 2x snack + ASI";
          "🥕 Finger food untuk latih self-feeding";
          "🍖 Variasi protein setiap hari";
          "🥛 Mulai latih minum dari gelas" ] |});
    ("12-24",
     {| title := "Makanan Keluarga";
        recommendations := [
          "🍚 Menu keluarga dengan modifikasi";
          "🥗 Prinsip 4 bintang di setiap makan";
          "🍫 Hindari gula dan garam berlebihan";
          "💧 Cukupi kebutuhan air (600-1000ml)" ] |})
  ].

(** [sorted(DEVELOPMENT_MILESTONES.keys())]: the keys are distinct
    integers, so the sorted list does not depend on the order in which
    the dict gives them *)
Definition milestone_ages : list Z :=
  KejarTumbuh.sorted inject_Z (map fst (map_to_list DEVELOPMENT_MILESTONES)).

(** the loop of [get_milestone_for_month], which starts from
    [nearest = 0] and runs over all ages *)
Fixpoint nearest_milestone (month : Z) (ages : list Z) (nearest : Z) : Z :=
  match ages with
  | [] => nearest
  | age :: rest =>
      if (age <=? month)%Z then nearest_milestone month rest age
      else nearest_milestone month rest nearest
  end.

(** [get_milestone_for_month(month)].  The default of the [.get],
    [DEVELOPMENT_MILESTONES[0]], is evaluated before the lookup: [None]
    stands for its [KeyError]. *)
Definition get_milestone_for_month (month : Z) : option milestone :=
  let nearest := nearest_milestone month milestone_ages 0 in
  match DEVELOPMENT_MILESTONES !! 0%Z with
  | None => None
  | Some fallback => Some (default fallback (DEVELOPMENT_MILESTONES !! nearest))
  end.

(** [get_nutrition_phase(month)]; [None] stands for the [KeyError] of a
    missing phase *)
Definition get_nutrition_phase (month : Z) : option nutrition :=
  if (month <? 6)%Z then NUTRITION_RECOMMENDATIONS !! "0-6"
  else if (month <? 9)%Z then NUTRITION_RECOMMENDATIONS !! "6-9"
  else if (month <? 12)%Z then NUTRITION_RECOMMENDATIONS !! "9-12"
  else NUTRITION_RECOMMENDATIONS !! "12-24".

End Checklist.

(* ===================================================================== *)
(** * Vocabulary of the statements *)
(* ===================================================================== *)

Module WhoCalculatorSpec.
Import PyFloat WhoCalculator.

(** a field that is [None] or a finite number *)
Definition finite (v : option pyfloat) : Prop :=
  match v with
  | Some (Fin _) | None => True
  | Some _ => False
  end.

(** the dict with the five keys, all [None] *)
Definition all_none : zscores :=
  <["hcz" := None]> (<["baz" := None]> (<["whz" := None]>
    (<["haz" := None]> (<["waz" := None]> ∅)))).

(** the square [(h / 100) ** 2] of the BMI is a float that is neither
    zero nor infinite *)
Definition bmi_square_in_range (h : Q) : Prop :=
  underflow_threshold < (h / 100) ^ 2 /\ (h / 100) ^ 2 < overflow_threshold.

(** the five indices *)
Definition indices : list string := ["waz"; "haz"; "whz"; "baz"; "hcz"].

Definition five_keys : gset string := {[ "waz"; "haz"; "whz"; "baz"; "hcz" ]}.

(** the value under [k] is missing, [None] or NaN *)
Definition unavailable (z : zscores) (k : string) : Prop :=
  get z k = None \/ get z k = Some NaN.

(** the two label dicts of a child without any z-score *)
Definition permenkes_unavailable : gmap string string :=
  <["hcz" := "Data Tidak Tersedia"]> (<["baz" := "Data Tidak Tersedia"]>
    (<["whz" := "Data Tidak Tersedia"]> (<["haz" := "Data Tidak Tersedia"]>
      (<["waz" := "Data Tidak Tersedia"]> ∅)))).

Definition who_unavailable : gmap string string :=
  <["hcz" := "N/A"]> (<["baz" := "N/A"]> (<["whz" := "N/A"]>
    (<["haz" := "N/A"]> (<["waz" := "N/A"]> ∅)))).

(** how [validate_zscores] grades one value: nothing, a warning, an error *)
Inductive grade : Type := Quiet | Warned | Flagged.

Definition grade_of (z : option pyfloat) : grade :=
  match z with
  | Some (Fin q) =>
      if Qltb 5 (Qabs q) then Flagged
      else if Qltb 3 (Qabs q) then Warned else Quiet
  | Some PosInf | Some NegInf => Flagged
  | Some NaN | None => Quiet
  end.

Definition is_flagged (z : option pyfloat) : bool :=
  match grade_of z with Flagged => true | _ => false end.

Definition is_warned (z : option pyfloat) : bool :=
  match grade_of z with Warned => true | _ => false end.

(** a value that [validate_zscores] passes in silence: unusable, or
    finite in [[-3, 3]] *)
Definition calm (z : option pyfloat) : Prop :=
  match z with
  | Some (Fin q) => -3 <= q /\ q <= 3
  | Some NaN | None => True
  | Some _ => False
  end.

End WhoCalculatorSpec.

Module GrowthChartsSpec.
Import PyFloat GrowthCharts.

(** [x] lies in the closed interval [[lo, hi]] *)
Definition between (lo hi x : Q) : Prop := lo <= x /\ x <= hi.

(** the abscissa kept in [last] or [best] lies in [[lo, hi]] *)
Definition state_between (lo hi : Q) (st : option (Q * Q)) : Prop :=
  match st with
  | Some (x, _) => between lo hi x
  | None => True
  end.

(** the usable samples in order, each with its residual [z - target_z] *)
Definition residuals (z_func : Q -> option Q) (target_z : Q) (xs : list Q)
    : list (Q * Q) :=
  omap (fun x => (fun z => (x, z - target_z)) <$> z_func x) xs.

(** some two consecutive residuals have opposite signs *)
Fixpoint brackets (fs : list Q) : bool :=
  match fs with
  | f1 :: ((f2 :: _) as tl) => Qltb (f2 * f1) 0 || brackets tl
  | _ => false
  end.

(** the residuals the loop compares: [last_f], then those to come *)
Definition seen (last : option (Q * Q)) (rs : list (Q * Q)) : list Q :=
  match last with
  | Some (_, last_f) => last_f :: rs.*2
  | None => rs.*2
  end.

(** the update of [(best_x, best_abs)] by one usable sample *)
Definition keep_best (best : option (Q * Q)) (s : Q * Q) : option (Q * Q) :=
  match best with
  | None => Some (s.1, Qabs s.2)
  | Some (_, best_abs) =>
      if Qltb (Qabs s.2) best_abs then Some (s.1, Qabs s.2) else best
  end.

(** the final [return] *)
Definition fallback (lo hi : Q) (best : option (Q * Q)) : Q :=
  match best with
  | Some (best_x, _) => best_x
  | None => (lo + hi) / 2
  end.

(** [r] is a sample at which [z_func] is defined and [|z - target_z|]
    is least among the samples at which it is defined *)
Definition best_sample (z_func : Q -> option Q) (target_z : Q)
    (xs : list Q) (r : Q) : Prop :=
  exists x z, x ∈ xs /\ z_func x = Some z /\ r = x /\
    forall x' z', x' ∈ xs -> z_func x' = Some z' ->
      Qabs (z - target_z) <= Qabs (z' - target_z).

(** [2 ^ k] *)
Definition pow2 (k : nat) : Q := inject_Z (2 ^ Z.of_nat k).

(** [g] is strictly increasing, and takes equal rationals to equal ones *)
Definition increasing (g : Q -> Q) : Prop :=
  forall x y, (x < y -> g x < g y) /\ (x == y -> g x == g y).

(** What a converged bisection certifies about its result [r]: a residual
    below [1e-10], or [r] is the midpoint of a bracket inside [[lo, hi]]
    on which [g] changes sign and whose half-width is below [xtol]. *)
Definition certified (g : Q -> Q) (xtol lo hi r : Q) : Prop :=
  Qabs (g r) < 1e-10 \/
  exists a' b', lo <= a' /\ a' < b' /\ b' <= hi /\ g a' * g b' < 0 /\
    r = 0.5 * (a' + b') /\ (b' - a') / 2 < xtol.

(** the list ascends from [prev] by steps of at most [step] *)
Fixpoint gaps_le (step : Q) (prev : option Q) (xs : list Q) : Prop :=
  match xs with
  | [] => True
  | x :: xs' =>
      match prev with
      | Some p => p <= x /\ x - p <= step
      | None => True
      end /\ gaps_le step (Some x) xs'
  end.

(** Where the inversion of an increasing function ends: on a sample equal
    to [v], or in the root finder run on two consecutive samples around
    [v]. *)
Definition located (z_func : Q -> option Q) (target_z v lo hi step r : Q) : Prop :=
  (r == v /\ lo <= r /\ r <= hi) \/
  exists a b, lo <= a /\ a < v /\ v < b /\ b <= hi /\ b - a <= step /\
    r = brentq_rootfind (residual z_func target_z) a b 1e-5 default_maxiter.

(** what an age curve built with the bounds [BOUNDS[key]] looks like *)
Definition age_curve (BOUNDS : gmap string (Q * Q))
    (calc : option WhoCalculator.Calculator) (key : string) (c : curve) : Prop :=
  match c with
  | Curve grid values =>
      grid = AGE_GRID /\ length values = length grid /\
      match calc with
      | None => values = zeros_like AGE_GRID
      | Some _ =>
          exists lo hi, BOUNDS !! key = Some (lo, hi) /\
            (lo <= hi -> Forall (between lo hi) values)
      end
  | KeyError => calc <> None /\ BOUNDS !! key = None
  end.

End GrowthChartsSpec.

Module KejarTumbuhSpec.
Import PyFloat KejarTumbuh.

(** order of the keys *)
Definition key_le {A} (key : A -> Q) (x y : A) : Prop := key x <= key y.


(** the consecutive pairs of a list *)
Fixpoint adjacent_pairs {A} (l : list A) : list (A * A) :=
  match l with
  | x :: ((y :: _) as tl) => (x, y) :: adjacent_pairs tl
  | _ => []
  end.


(** the severities of a report: weight then height, interval by interval *)
Definition severities (es : list evaluated) : list string :=
  flat_map (fun e => [severity (bb_evaluation e); severity (tb_evaluation e)]) es.

(** the severities [evaluate_velocity] can give *)
Definition levels : list string :=
  ["critical"; "warning"; "attention"; "normal"; "good"].

(** the two error messages and the three overall messages *)
Definition err_too_few : string :=
  "Minimal 2 pengukuran diperlukan untuk analisis".
Definition err_no_interval : string :=
  "Tidak dapat menghitung velocity (periksa urutan usia)".
Definition msg_critical : string :=
  "⚠️ PERHATIAN: Terdeteksi penurunan atau pertumbuhan sangat lambat. Segera konsultasi ke dokter!".
Definition msg_warning : string :=
  "📊 Perlu perhatian: Beberapa periode menunjukkan pertumbuhan di bawah rata-rata.".
Definition msg_normal : string :=
  "✅ Pertumbuhan keseluruhan dalam rentang normal. Pertahankan pola makan dan stimulasi.".

(** the ["data"] of a report *)
Definition report_data (a : analysis) : list measurement :=
  match a with
  | Success d _ _ _ _ => d
  | _ => []
  end.

Definition mk (age w h : Q) : measurement :=
  {| usia_bulan := age; bb := w; tb := h |}.

(** the order of the severities, worst first *)
Definition rank (sev : string) : nat :=
  if String.eqb sev "critical" then 0
  else if String.eqb sev "warning" then 1
  else if String.eqb sev "attention" then 2
  else if String.eqb sev "normal" then 3
  else 4.

(** componentwise order of two ranges *)
Definition range_le (r r' : Q * Q) : Prop := r.1 <= r'.1 /\ r.2 <= r'.2.

(** a range with [0 < min < max] *)
Definition well_formed (r : Q * Q) : Prop := 0 < r.1 /\ r.1 < r.2.

(** the entry of [evaluations] built from one interval *)
Definition evaluate_interval (gender : string) (v : velocity) : evaluated :=
  let r := get_velocity_reference (mid_age v) gender in
  {| vel := v; ref := r;
     bb_evaluation := evaluate_velocity (velocity_bb v) (weight_range r) "berat badan";
     tb_evaluation := evaluate_velocity (velocity_tb v) (height_range r) "tinggi badan" |}.

End KejarTumbuhSpec.

Module NormalRangesSpec.
Import PyFloat WhoCalculator GrowthCharts NormalRanges.

(** the three values of an entry lie between the rounded bounds *)
Definition within_rounded (lo hi : Q) (ndigits : nat) (e : normal_range) : Prop :=
  Forall (fun x => KejarTumbuh.round lo ndigits <= x /\
                   x <= KejarTumbuh.round hi ndigits)
    [min_normal e; median e; max_normal e].

(** what [get_normal_ranges] answers under a key when it reads
    [BOUNDS[bound]]: an entry in the unit [u] within the rounded bounds,
    or nothing when the calculator or the bounds are missing *)
Definition range_entry (BOUNDS : gmap string (Q * Q)) (calc : option Calculator)
    (bound u : string) (ndigits : nat) (entry : option normal_range) : Prop :=
  match entry with
  | Some e =>
      calc <> None /\ unit e = u /\
      exists lo hi, BOUNDS !! bound = Some (lo, hi) /\
        (lo <= hi -> within_rounded lo hi ndigits e)
  | None => calc = None \/ BOUNDS !! bound = None
  end.

End NormalRangesSpec.

Module KpspSpec.

(** the scheduled age that serves a month: the last multiple of 3, at most 24 *)
Definition scheduled_age (month : Z) : Z := Z.min 24 (3 * (month / 3)).

End KpspSpec.

Module ChecklistSpec.

(** the age whose milestones serve a month: 0 below 0, the month itself
    up to 12, then the last multiple of 3, at most 24 *)
Definition milestone_age (month : Z) : Z :=
  if (month <? 0)%Z then 0%Z
  else if (month <=? 12)%Z then month
  else Z.min 24 (3 * (month / 3)).

(** the title of the phase of a month *)
Definition phase_title (month : Z) : string :=
  if (month <? 6)%Z then "ASI Eksklusif"
  else if (month <? 9)%Z then "MPASI Awal"
  else if (month <? 12)%Z then "MPASI Lanjutan"
  else "Makanan Keluarga".

End ChecklistSpec.

(* ===================================================================== *)
(** * Properties *)
(* ===================================================================== *)

(** ** Comparisons on rationals *)

Module QFacts.
Import PyFloat.

Lemma Qltb_lt (x y : Q) : Qltb x y = true <-> x < y.
Proof.
  unfold Qltb. rewrite negb_true_iff, <- not_true_iff_false, Qle_bool_iff.
  split; [apply Qnot_le_lt | apply Qlt_not_le].
Qed.

Lemma Qltb_ge (x y : Q) : Qltb x y = false <-> y <= x.
Proof. unfold Qltb. rewrite negb_false_iff. apply Qle_bool_iff. Qed.

Lemma Qleb_gt (x y : Q) : Qle_bool x y = false <-> y < x.
Proof.
  rewrite <- not_true_iff_false, Qle_bool_iff.
  split; [apply Qnot_le_lt | apply Qlt_not_le].
Qed.

Lemma Qltb_spec (x y : Q) : reflect (x < y) (Qltb x y).
Proof.
  destruct (Qltb x y) eqn:E; constructor.
  - by apply Qltb_lt.
  - apply Qltb_ge in E. by apply Qle_not_lt.
Qed.

Lemma Qleb_spec (x y : Q) : reflect (x <= y) (Qle_bool x y).
Proof.
  destruct (Qle_bool x y) eqn:E; constructor.
  - by apply Qle_bool_iff.
  - apply Qleb_gt in E. by apply Qlt_not_le.
Qed.

Lemma Qabs_le_iff (x y : Q) : Qabs x <= y <-> - y <= x /\ x <= y.
Proof. apply Qabs_Qle_condition. Qed.

Lemma Qabs_lt_iff (x y : Q) : Qabs x < y <-> - y < x /\ x < y.
Proof. apply Qabs_Qlt_condition. Qed.

End QFacts.

(** Case analysis on every comparison of the goal, turned into an
    inequality among the hypotheses. *)
Ltac qcases :=
  repeat match goal with
    | |- context [PyFloat.Qltb ?a ?b] => destruct (QFacts.Qltb_spec a b)
    | |- context [Qle_bool ?a ?b] => destruct (QFacts.Qleb_spec a b)
    end.

Ltac qabs :=
  repeat match goal with
    | H : context [Qabs _ <= _] |- _ => rewrite QFacts.Qabs_le_iff in H
    | H : context [Qabs _ < _] |- _ => rewrite QFacts.Qabs_lt_iff in H
    | |- context [Qabs _ <= _] => rewrite QFacts.Qabs_le_iff
    | |- context [Qabs _ < _] => rewrite QFacts.Qabs_lt_iff
    end.

(** ** Z-scores and classification *)

Module WhoCalculatorFacts.
Import PyFloat WhoCalculator WhoCalculatorSpec QFacts.

(** *** [_safe_z_calc] *)

Lemma safe_z_calc_finite calc call : finite (_safe_z_calc calc call).
Proof.
  unfold _safe_z_calc. destruct calc; [|done].
  destruct (call tt) as [| |[]]; done.
Qed.

Lemma safe_z_calc_unavailable call : _safe_z_calc None call = None.
Proof. done. Qed.

(** *** Frame lemmas: a block touches its own key only *)

Ltac block_ne :=
  intros; repeat case_match; by rewrite lookup_insert_ne.

Lemma permenkes_waz_ne z m k : k ≠ "waz" → permenkes_waz z m !! k = m !! k.
Proof. unfold permenkes_waz. block_ne. Qed.
Lemma permenkes_haz_ne z m k : k ≠ "haz" → permenkes_haz z m !! k = m !! k.
Proof. unfold permenkes_haz. block_ne. Qed.
Lemma permenkes_whz_ne z m k : k ≠ "whz" → permenkes_whz z m !! k = m !! k.
Proof. unfold permenkes_whz. block_ne. Qed.
Lemma permenkes_baz_ne z m k : k ≠ "baz" → permenkes_baz z m !! k = m !! k.
Proof. unfold permenkes_baz. block_ne. Qed.
Lemma permenkes_hcz_ne z m k : k ≠ "hcz" → permenkes_hcz z m !! k = m !! k.
Proof. unfold permenkes_hcz. block_ne. Qed.

Lemma who_waz_ne z m k : k ≠ "waz" → who_waz z m !! k = m !! k.
Proof. unfold who_waz. block_ne. Qed.
Lemma who_haz_ne z m k : k ≠ "haz" → who_haz z m !! k = m !! k.
Proof. unfold who_haz. block_ne. Qed.
Lemma who_whz_ne z m k : k ≠ "whz" → who_whz z m !! k = m !! k.
Proof. unfold who_whz. block_ne. Qed.
Lemma who_baz_ne z m k : k ≠ "baz" → who_baz z m !! k = m !! k.
Proof. unfold who_baz. block_ne. Qed.
Lemma who_hcz_ne z m k : k ≠ "hcz" → who_hcz z m !! k = m !! k.
Proof. unfold who_hcz. block_ne. Qed.

(** *** The label of each index, read off its block *)

Lemma permenkes_lookup_waz z :
  classify_permenkes_2020 z !! "waz" = permenkes_waz z ∅ !! "waz".
Proof.
  unfold classify_permenkes_2020.
  by rewrite permenkes_hcz_ne, permenkes_baz_ne, permenkes_whz_ne, permenkes_haz_ne.
Qed.
Lemma permenkes_lookup_haz z :
  classify_permenkes_2020 z !! "haz" = permenkes_haz z (permenkes_waz z ∅) !! "haz".
Proof.
  unfold classify_permenkes_2020.
  by rewrite permenkes_hcz_ne, permenkes_baz_ne, permenkes_whz_ne.
Qed.
Lemma permenkes_lookup_whz z :
  classify_permenkes_2020 z !! "whz" =
  permenkes_whz z (permenkes_haz z (permenkes_waz z ∅)) !! "whz".
Proof.
  unfold classify_permenkes_2020. by rewrite permenkes_hcz_ne, permenkes_baz_ne.
Qed.
Lemma permenkes_lookup_baz z :
  classify_permenkes_2020 z !! "baz" =
  permenkes_baz z (permenkes_whz z (permenkes_haz z (permenkes_waz z ∅))) !! "baz".
Proof. unfold classify_permenkes_2020. by rewrite permenkes_hcz_ne. Qed.

Lemma who_lookup_waz z :
  classify_who_standards z !! "waz" = who_waz z ∅ !! "waz".
Proof.
  unfold classify_who_standards.
  by rewrite who_hcz_ne, who_baz_ne, who_whz_ne, who_haz_ne.
Qed.
Lemma who_lookup_haz z :
  classify_who_standards z !! "haz" = who_haz z (who_waz z ∅) !! "haz".
Proof.
  unfold classify_who_standards. by rewrite who_hcz_ne, who_baz_ne, who_whz_ne.
Qed.
Lemma who_lookup_whz z :
  classify_who_standards z !! "whz" =
  who_whz z (who_haz z (who_waz z ∅)) !! "whz".
Proof. unfold classify_who_standards. by rewrite who_hcz_ne, who_baz_ne. Qed.
Lemma who_lookup_baz z :
  classify_who_standards z !! "baz" =
  who_baz z (who_whz z (who_haz z (who_waz z ∅))) !! "baz".
Proof. unfold classify_who_standards. by rewrite who_hcz_ne. Qed.

Lemma get_insert (z : zscores) k v : get (<[k := v]> z) k = v.
Proof. unfold get. by rewrite lookup_insert_eq. Qed.

Lemma get_delete (z : zscores) k : get (delete k z) k = None.
Proof. unfold get. by rewrite lookup_delete_eq. Qed.

(** *** Weight-for-height *)

Ltac band_solve :=
  cbn [usable isnan flt fle fabs of_int]; unfold inject_Z; qcases;
  rewrite ?lookup_insert_eq;
  repeat split; intros; qabs;
  try discriminate; try reflexivity; try lra;
  try (exfalso; lra).

(** C4.  The weight-for-height bands are [z < -3] severely wasted,
    [-3 <= z < -2] wasted, [-2 <= z <= 2] normal, [2 < z <= 3] risk of
    overweight and [z > 3] overweight under both taxonomies; every
    finite [whz] falls in exactly one of them and gets that band's
    label, and a [whz] that is [None] or absent gets the fixed label
    for unavailable data. *)
Theorem whz_bands_partition (m : zscores) (q : Q) :
  let z := <["whz" := Some (Fin q)]> m in
  let p := classify_permenkes_2020 z !! "whz" in
  let w := classify_who_standards z !! "whz" in
  ((p = Some "Gizi Buruk (Severely Wasted)" <-> q < -3) /\
   (p = Some "Gizi Kurang (Wasted)" <-> -3 <= q /\ q < -2) /\
   (p = Some "Gizi Baik (Normal)" <-> -2 <= q /\ q <= 2) /\
   (p = Some "Berisiko Gizi Lebih (Possible Risk of Overweight)"
      <-> 2 < q /\ q <= 3) /\
   (p = Some "Gizi Lebih (Overweight)" <-> 3 < q)) /\
  ((w = Some "Severely wasted" <-> q < -3) /\
   (w = Some "Wasted" <-> -3 <= q /\ q < -2) /\
   (w = Some "Normal" <-> -2 <= q /\ q <= 2) /\
   (w = Some "Risk of overweight" <-> 2 < q /\ q <= 3) /\
   (w = Some "Overweight" <-> 3 < q)) /\
  (exists l, p = Some l /\
     l ∈ ["Gizi Buruk (Severely Wasted)"; "Gizi Kurang (Wasted)";
          "Gizi Baik (Normal)";
          "Berisiko Gizi Lebih (Possible Risk of Overweight)";
          "Gizi Lebih (Overweight)"]) /\
  (exists l, w = Some l /\
     l ∈ ["Severely wasted"; "Wasted"; "Normal"; "Risk of overweight";
          "Overweight"]) /\
  classify_permenkes_2020 (<["whz" := None]> m) !! "whz"
    = Some "Data Tidak Tersedia" /\
  classify_permenkes_2020 (delete "whz" m) !! "whz"
    = Some "Data Tidak Tersedia" /\
  classify_who_standards (<["whz" := None]> m) !! "whz" = Some "N/A" /\
  classify_who_standards (delete "whz" m) !! "whz" = Some "N/A".
Proof.
  intros z p w. subst z p w.
  rewrite !permenkes_lookup_whz, !who_lookup_whz.
  unfold permenkes_whz, who_whz. rewrite !get_insert, !get_delete.
  split_and!.
  1-10: band_solve.
  1-2: cbn [usable isnan flt fle of_int]; qcases;
    rewrite lookup_insert_eq; eexists; (split; [reflexivity|]);
    set_solver.
  all: cbn [usable]; by rewrite lookup_insert_eq.
Qed.

(** *** BMI-for-age and head circumference *)

Lemma baz_normal_band (m : zscores) (q : Q) :
  let z := <["baz" := Some (Fin q)]> m in
  (classify_permenkes_2020 z !! "baz" = Some "Gizi Baik (Normal)"
     <-> -2 <= q /\ q <= 1) /\
  (classify_who_standards z !! "baz" = Some "Normal" <-> -2 <= q /\ q <= 1).
Proof.
  intros z. subst z. rewrite permenkes_lookup_baz, who_lookup_baz.
  unfold permenkes_baz, who_baz. rewrite !get_insert.
  split; band_solve.
Qed.

Lemma baz_risk_band (m : zscores) (q : Q) :
  let z := <["baz" := Some (Fin q)]> m in
  (classify_permenkes_2020 z !! "baz"
     = Some "Berisiko Gizi Lebih (Possible Risk of Overweight)"
     <-> 1 < q /\ q <= 2) /\
  (classify_who_standards z !! "baz" = Some "Risk of overweight"
     <-> 1 < q /\ q <= 2).
Proof.
  intros z. subst z. rewrite permenkes_lookup_baz, who_lookup_baz.
  unfold permenkes_baz, who_baz. rewrite !get_insert.
  split; band_solve.
Qed.

(** C1, as the code has it.  The two taxonomies agree at the
    BMI-for-age edge: the normal band ends at [baz <= 1] under both, and
    for every finite [baz] with [1 < baz <= 2] both assign their
    risk-of-overweight label. *)
Theorem baz_edge_agreement (m : zscores) (q : Q) :
  1 < q -> q <= 2 ->
  let z := <["baz" := Some (Fin q)]> m in
  classify_permenkes_2020 z !! "baz"
    = Some "Berisiko Gizi Lebih (Possible Risk of Overweight)" /\
  classify_who_standards z !! "baz" = Some "Risk of overweight" /\
  (forall (m' : zscores) (q' : Q),
     let z' := <["baz" := Some (Fin q')]> m' in
     (classify_permenkes_2020 z' !! "baz" = Some "Gizi Baik (Normal)"
        <-> -2 <= q' /\ q' <= 1) /\
     (classify_who_standards z' !! "baz" = Some "Normal"
        <-> -2 <= q' /\ q' <= 1)).
Proof.
  intros H1 H2 z. destruct (baz_risk_band m q) as [Hp Hw].
  split_and!; [by apply Hp | by apply Hw | apply baz_normal_band].
Qed.

Lemma baz_edge_agreement_witness :
  (1 < 1.5 /\ 1.5 <= 2) /\
  let z : zscores := <["baz" := Some (Fin 1.5)]> ∅ in
  classify_permenkes_2020 z !! "baz"
    = Some "Berisiko Gizi Lebih (Possible Risk of Overweight)" /\
  classify_who_standards z !! "baz" = Some "Risk of overweight" /\
  (forall (m' : zscores) (q' : Q),
     let z' := <["baz" := Some (Fin q')]> m' in
     (classify_permenkes_2020 z' !! "baz" = Some "Gizi Baik (Normal)"
        <-> -2 <= q' /\ q' <= 1) /\
     (classify_who_standards z' !! "baz" = Some "Normal"
        <-> -2 <= q' /\ q' <= 1)).
Proof.
  split; [split; lra | apply (baz_edge_agreement ∅ 1.5); lra].
Defined.

(** C1 as stated fails: at [baz = 1.5] the WHO classifier does not
    answer its normal label. *)
Lemma baz_edge_who_not_normal :
  let z : zscores := <["baz" := Some (Fin 1.5)]> ∅ in
  ~ (classify_permenkes_2020 z !! "baz"
       = Some "Berisiko Gizi Lebih (Possible Risk of Overweight)" /\
     classify_who_standards z !! "baz" = Some "Normal").
Proof. intros z [_ H]. vm_compute in H. discriminate H. Qed.

(** Both classifiers fill exactly the five keys. *)
Lemma permenkes_lookup_other z k :
  k ≠ "waz" → k ≠ "haz" → k ≠ "whz" → k ≠ "baz" → k ≠ "hcz" →
  classify_permenkes_2020 z !! k = None.
Proof.
  intros. unfold classify_permenkes_2020.
  by rewrite permenkes_hcz_ne, permenkes_baz_ne, permenkes_whz_ne,
    permenkes_haz_ne, permenkes_waz_ne.
Qed.

Lemma who_lookup_other z k :
  k ≠ "waz" → k ≠ "haz" → k ≠ "whz" → k ≠ "baz" → k ≠ "hcz" →
  classify_who_standards z !! k = None.
Proof.
  intros. unfold classify_who_standards.
  by rewrite who_hcz_ne, who_baz_ne, who_whz_ne, who_haz_ne, who_waz_ne.
Qed.

(** Two inputs get the same label of one taxonomy exactly when they get
    the same label of the other: by cases on the band of each input. *)
Ltac same_band u1 u2 :=
  destruct u1 as [[q1| | |]|], u2 as [[q2| | |]|];
  cbn [flt fle fabs of_int];
  repeat match goal with
    | |- context [Qltb ?a ?b] => destruct (Qltb a b); cbv iota
    | |- context [Qle_bool ?a ?b] => destruct (Qle_bool a b); cbv iota
    end;
  rewrite !lookup_insert_eq;
  split; intros; first [reflexivity | discriminate].

Lemma same_partition (z1 z2 : zscores) (k : string) :
  classify_permenkes_2020 z1 !! k = classify_permenkes_2020 z2 !! k <->
  classify_who_standards z1 !! k = classify_who_standards z2 !! k.
Proof.
  destruct (decide (k = "waz")) as [->|].
  { rewrite !permenkes_lookup_waz, !who_lookup_waz.
    unfold permenkes_waz, who_waz.
    same_band (usable (get z1 "waz")) (usable (get z2 "waz")). }
  destruct (decide (k = "haz")) as [->|].
  { rewrite !permenkes_lookup_haz, !who_lookup_haz.
    unfold permenkes_haz, who_haz.
    same_band (usable (get z1 "haz")) (usable (get z2 "haz")). }
  destruct (decide (k = "whz")) as [->|].
  { rewrite !permenkes_lookup_whz, !who_lookup_whz.
    unfold permenkes_whz, who_whz.
    same_band (usable (get z1 "whz")) (usable (get z2 "whz")). }
  destruct (decide (k = "baz")) as [->|].
  { rewrite !permenkes_lookup_baz, !who_lookup_baz.
    unfold permenkes_baz, who_baz.
    same_band (usable (get z1 "baz")) (usable (get z2 "baz")). }
  destruct (decide (k = "hcz")) as [->|].
  { unfold classify_permenkes_2020, classify_who_standards,
      permenkes_hcz, who_hcz.
    same_band (usable (get z1 "hcz")) (usable (get z2 "hcz")). }
  by rewrite !permenkes_lookup_other, !who_lookup_other.
Qed.

(** C10.  The two classifiers are band-for-band equivalent: on every
    key, two z-score sets get the same Permenkes label exactly when they
    get the same WHO label, so the outputs differ in wording only; in
    particular the BMI-for-age normal band is [-2 <= baz <= 1] in both,
    and the head-circumference rule is [|hcz| <= 2] normal, [hcz < -2]
    microcephaly and [hcz > 2] macrocephaly in both. *)
Theorem classifiers_same_bands :
  (forall (z1 z2 : zscores) (k : string),
     classify_permenkes_2020 z1 !! k = classify_permenkes_2020 z2 !! k <->
     classify_who_standards z1 !! k = classify_who_standards z2 !! k) /\
  (forall (m : zscores) (q : Q),
     let z := <["baz" := Some (Fin q)]> m in
     (classify_permenkes_2020 z !! "baz" = Some "Gizi Baik (Normal)"
        <-> -2 <= q /\ q <= 1) /\
     (classify_who_standards z !! "baz" = Some "Normal"
        <-> -2 <= q /\ q <= 1)) /\
  (forall (m : zscores) (q : Q),
     let z := <["hcz" := Some (Fin q)]> m in
     let p := classify_permenkes_2020 z !! "hcz" in
     let w := classify_who_standards z !! "hcz" in
     ((p = Some "Normal" <-> Qabs q <= 2) /\
      (p = Some "Mikrosefali (perlu evaluasi)" <-> q < -2) /\
      (p = Some "Makrosefali (perlu evaluasi)" <-> 2 < q)) /\
     ((w = Some "Normal" <-> Qabs q <= 2) /\
      (w = Some "Microcephaly" <-> q < -2) /\
      (w = Some "Macrocephaly" <-> 2 < q))).
Proof.
  split_and!.
  - apply same_partition.
  - apply baz_normal_band.
  - intros m q z p w. subst z p w.
    unfold classify_permenkes_2020, classify_who_standards,
      permenkes_hcz, who_hcz.
    rewrite !get_insert. split_and!; band_solve.
Qed.

(** *** [calculate_all_zscores] *)

Ltac lookup_field :=
  rewrite ?lookup_insert; repeat case_decide; simplify_eq; done.

Lemma threshold_order :
  0 < underflow_threshold /\ underflow_threshold < 1 /\ 1 < overflow_threshold.
Proof. split_and!; reflexivity. Qed.

Lemma fround_in_range x :
  underflow_threshold < Qabs x -> Qabs x < overflow_threshold ->
  fround x = Fin x.
Proof.
  intros Hlo Hhi. unfold fround.
  destruct (Qleb_spec overflow_threshold (Qabs x)); [lra|].
  destruct (Qleb_spec (Qabs x) underflow_threshold); [lra|done].
Qed.

Lemma fround_cases x :
  (overflow_threshold <= Qabs x /\ fround x = signed_inf (Qltb x 0)) \/
  (Qabs x <= underflow_threshold /\ fround x = Fin 0) \/
  (underflow_threshold < Qabs x /\ Qabs x < overflow_threshold /\ fround x = Fin x).
Proof.
  unfold fround. destruct threshold_order as (H0 & H1 & H2).
  destruct (Qleb_spec overflow_threshold (Qabs x)); [by left|].
  destruct (Qleb_spec (Qabs x) underflow_threshold); [right; by left|].
  right; right. split_and!; [lra|lra|done].
Qed.

Lemma Qsquare y : y ^ 2 == y * y.
Proof. reflexivity. Qed.

Ltac run := cbn [mbind outcome_bind float_pow2 is_zero].

Lemma bmi_step h :
  float_truediv (Fin h) (of_int 100) = Return (fround (h / 100)).
Proof. reflexivity. Qed.

Lemma bmi_returns w h :
  0 < h -> bmi_square_in_range h ->
  bmi w h = Return (fround (w / (h / 100) ^ 2)).
Proof.
  intros Hh [Hlo Hhi]. destruct threshold_order as (H0 & H1 & H2).
  unfold bmi. rewrite bmi_step. set (y := h / 100) in *.
  assert (Hy : 0 < y).
  { unfold y. apply Qlt_shift_div_l; lra. }
  rewrite Qsquare in Hlo, Hhi.
  assert (Hyr : fround y = Fin y).
  { apply fround_in_range; rewrite Qabs_pos by lra; nra. }
  assert (Hsq : fround (y ^ 2) = Fin (y ^ 2)).
  { apply fround_in_range; rewrite Qabs_pos, ?Qsquare; nra. }
  assert (Hnz : Qeq_bool (y ^ 2) 0 = false).
  { apply not_true_iff_false. intros E. apply Qeq_bool_iff in E.
    rewrite Qsquare in E. nra. }
  rewrite Hyr. run. rewrite Hsq. run. unfold float_truediv. run. by rewrite Hnz.
Qed.

Lemma bmi_raises w h e :
  0 < h -> bmi w h = Raise e ->
  (e = ZeroDivisionError /\ (h / 100) ^ 2 <= underflow_threshold) \/
  (e = OverflowError /\ overflow_threshold <= (h / 100) ^ 2).
Proof.
  intros Hh. destruct threshold_order as (H0 & H1 & H2).
  unfold bmi. rewrite bmi_step. set (y := h / 100) in *.
  assert (Hy : 0 < y).
  { unfold y. apply Qlt_shift_div_l; lra. }
  assert (Hay : Qabs y == y) by (apply Qabs_pos; lra).
  assert (Hneg : Qltb y 0 = false) by (apply Qltb_ge; lra).
  assert (Hasq : Qabs (y ^ 2) == y * y).
  { rewrite Qabs_pos; [reflexivity|]. rewrite Qsquare. nra. }
  destruct (fround_cases y) as [(Hov & ->)|[(Hun & ->)|(Hlo & Hhi & ->)]].
  - rewrite Hneg. cbn. done.
  - run. change (fround (0 ^ 2)) with (Fin 0). run. unfold float_truediv. run.
    change (Qeq_bool 0 0) with true. cbv iota. intros [= <-]. left. split; [done|].
    rewrite Qsquare. rewrite Hay in Hun. nra.
  - run.
    destruct (fround_cases (y ^ 2)) as [(Hov & ->)|[(Hun & ->)|(Hlo2 & Hhi2 & ->)]].
    + assert (Hn : Qltb (y ^ 2) 0 = false).
      { apply Qltb_ge. rewrite Qsquare. nra. }
      rewrite Hn. cbn [signed_inf]. run. intros [= <-]. right. split; [done|].
      rewrite Hasq in Hov. rewrite Qsquare. lra.
    + run. unfold float_truediv. run. change (Qeq_bool 0 0) with true. cbv iota.
      intros [= <-]. left. split; [done|]. rewrite Qsquare. lra.
    + run. unfold float_truediv. run.
      assert (Hnz : Qeq_bool (y ^ 2) 0 = false).
      { apply not_true_iff_false. intros E. apply Qeq_bool_iff in E.
        rewrite Qsquare in E. nra. }
      rewrite Hnz. done.
Qed.

(** what a call does, case by case: a result has the five keys, each
    [None] or finite, with [None] for what could not be computed; an
    exception is one of the BMI expression *)
Lemma calculate_all_zscores_outcome (calc : option Calculator)
    (sex : string) (age_months : Q) (weight height head_circ : option Q) :
  match calculate_all_zscores calc sex age_months weight height head_circ with
  | Return r =>
      dom r = {[ "waz"; "haz"; "whz"; "baz"; "hcz" ]} /\
      map_Forall (fun _ v => finite v) r /\
      (weight = None ->
       r !! "waz" = Some None /\ r !! "whz" = Some None /\ r !! "baz" = Some None) /\
      (height = None ->
       r !! "haz" = Some None /\ r !! "whz" = Some None /\ r !! "baz" = Some None) /\
      (head_circ = None -> r !! "hcz" = Some None) /\
      (forall h, height = Some h -> h <= 0 -> r !! "baz" = Some None) /\
      (calc = None -> r = all_none)
  | Raise e =>
      exists c w h, calc = Some c /\ weight = Some w /\ height = Some h /\
        0 < h /\ bmi w h = Raise e
  end.
Proof.
  unfold calculate_all_zscores.
  destruct calc as [c|].
  2: { cbv beta iota zeta. split_and!;
         [ rewrite !dom_insert_L, dom_empty_L; set_solver
         | repeat (apply map_Forall_insert_2; [exact I|]); apply map_Forall_empty
         | done.. ]. }
  destruct weight as [w|], height as [h|], head_circ as [hc|];
    try destruct (Qltb_spec 0 h) as [Hpos|Hnpos];
    try destruct (bmi w h) as [b|e] eqn:Eb;
    cbv beta iota zeta; cbn [mbind outcome_bind]; cbv beta iota zeta;
    try (by exists c, w, h);
    (split_and!;
     [ rewrite !dom_insert_L, dom_empty_L; set_solver
     | repeat (apply map_Forall_insert_2;
               [first [apply safe_z_calc_finite | exact I] |]);
       apply map_Forall_empty
     | try done; intros _; split_and!; lookup_field
     | try done; intros _; split_and!; lookup_field
     | try done; intros _; lookup_field
     | intros h' Hh' Hle; simplify_eq; try lra; lookup_field
     | done ]).
Qed.

(** C5, where the code departs from it.  With a calculator, a weight
    and a positive height, the BMI expression is evaluated outside every
    [try]: for a height of [1e-170] the square underflows to zero and
    the call ends in [ZeroDivisionError]; for a height of [1e200] it
    overflows and the call ends in [OverflowError].  No result is
    returned, whatever the calculator is. *)
Theorem calculate_all_zscores_raises (c : Calculator) :
  calculate_all_zscores (Some c) "M" 9 (Some 8.5) (Some 1e-170) None
    = Raise ZeroDivisionError /\
  calculate_all_zscores (Some c) "M" 9 (Some 8.5) (Some 1e200) None
    = Raise OverflowError.
Proof. split; vm_compute; reflexivity. Qed.

End WhoCalculatorFacts.

(** ** Root finding and curve inversion *)

Module GrowthChartsFacts.
Import PyFloat GrowthCharts GrowthChartsSpec QFacts.

(** *** The result stays between the bounds *)

Lemma half_between lo hi a b :
  between lo hi a -> between lo hi b -> between lo hi (0.5 * (a + b)).
Proof. unfold between. intros [??] [??]. split; lra. Qed.

Lemma mid_between lo hi a b :
  between lo hi a -> between lo hi b -> between lo hi ((a + b) / 2).
Proof.
  unfold between, Qdiv. change (/ 2) with (1 # 2).
  intros [??] [??]. split; lra.
Qed.

Lemma bisect_between f xtol n s lo hi :
  between lo hi (br_a s) -> between lo hi (br_b s) ->
  between lo hi (bisect f xtol n s).
Proof.
  revert s. induction n as [|n IH]; intros s Ha Hb; cbn [bisect].
  - by apply half_between.
  - pose proof (half_between _ _ _ _ Ha Hb) as Hm.
    destruct (f _) as [fm|]; [|done].
    destruct (_ || _); [done|].
    destruct (Qltb _ _); apply IH; done.
Qed.

Lemma brentq_rootfind_between f a b xtol maxiter lo hi :
  between lo hi a -> between lo hi b ->
  between lo hi (brentq_rootfind f a b xtol maxiter).
Proof.
  intros Ha Hb. unfold brentq_rootfind.
  destruct (f a) as [fa|], (f b) as [fb|]; try by apply mid_between.
  repeat case_match; try done; try by apply mid_between.
  by apply bisect_between.
Qed.

(** *** The sampling grid *)

Lemma removelast_map_seq {A} (f : nat -> A) n :
  removelast (map f (seq 0 (S n))) = map f (seq 0 n).
Proof. rewrite seq_S, map_app. cbn [map]. apply removelast_last. Qed.

Lemma linspace_length lo hi n : length (linspace lo hi n) = n.
Proof.
  unfold linspace. destruct n as [|[|n]]; [done..|].
  change (1 <? S (S n))%nat with true. cbv iota.
  rewrite removelast_map_seq, length_app, length_map, length_seq. cbn. lia.
Qed.

Lemma inject_nat_nonneg (i : nat) : 0 <= inject_Z (Z.of_nat i).
Proof. change 0 with (inject_Z 0). rewrite <- Zle_Qle. lia. Qed.

Lemma inject_nat_le (i j : nat) :
  (i <= j)%nat -> inject_Z (Z.of_nat i) <= inject_Z (Z.of_nat j).
Proof. intros. rewrite <- Zle_Qle. lia. Qed.

Lemma grid_point_between lo hi (k i : nat) :
  lo <= hi -> (i <= S k)%nat ->
  between lo hi
    (inject_Z (Z.of_nat i) * ((hi - lo) / inject_Z (Z.of_nat (S k))) + lo).
Proof.
  intros Hle Hi.
  set (d := inject_Z (Z.of_nat (S k))).
  assert (Hd : 0 < d).
  { unfold d. change 0 with (inject_Z 0). rewrite <- Zlt_Qlt. lia. }
  set (step := (hi - lo) / d).
  assert (Hstep : 0 <= step).
  { unfold step. apply Qle_shift_div_l; [done|]. lra. }
  assert (Hfull : d * step == hi - lo).
  { unfold step. apply Qmult_div_r. intros E. rewrite E in Hd.
    by apply Qlt_irrefl in Hd. }
  assert (H0 : 0 <= inject_Z (Z.of_nat i) * step).
  { apply Qmult_le_0_compat; [apply inject_nat_nonneg | done]. }
  assert (H1 : inject_Z (Z.of_nat i) * step <= d * step).
  { apply Qmult_le_compat_r; [by apply inject_nat_le | done]. }
  unfold between. split; lra.
Qed.

Lemma linspace_between lo hi n :
  lo <= hi -> Forall (between lo hi) (linspace lo hi n).
Proof.
  intros Hle. unfold linspace. destruct n as [|[|n]].
  - constructor.
  - cbn. constructor; [|constructor]. unfold between.
    change (inject_Z (Z.of_nat 0)) with 0. split; lra.
  - change (1 <? S (S n))%nat with true. cbv iota.
    rewrite removelast_map_seq.
    change (0 <? S (S n) - 1)%nat with true. cbv iota.
    replace (S (S n) - 1)%nat with (S n) by lia.
    apply Forall_app. split.
    + apply Forall_forall. intros x Hx.
      apply list_elem_of_In, in_map_iff in Hx.
      destruct Hx as (i & <- & Hi). apply in_seq in Hi.
      apply grid_point_between; [done | lia].
    + constructor; [|constructor]. unfold between. split; lra.
Qed.

Lemma sample_loop_between z_func target_z lo hi xs last best :
  lo <= hi ->
  Forall (between lo hi) xs ->
  state_between lo hi last -> state_between lo hi best ->
  between lo hi (sample_loop z_func target_z lo hi xs last best).
Proof.
  intros Hle Hxs. revert last best.
  induction Hxs as [|x xs Hx Hxs IH]; intros last best Hlast Hbest;
    cbn [sample_loop].
  - destruct best as [[bx ?]|]; [done|].
    unfold between, Qdiv. change (/ 2) with (1 # 2). split; lra.
  - destruct (z_func x) as [z|]; [|by apply IH].
    set (best' := match best with Some _ => _ | None => _ end).
    assert (Hbest' : state_between lo hi best').
    { unfold best'. destruct best as [[bx ba]|]; [|done].
      destruct (Qltb _ _); done. }
    destruct last as [[lx lf]|]; [|by apply IH].
    destruct (Qltb _ _); [|by apply IH].
    by apply brentq_rootfind_between.
Qed.



(** *** The fallback paths *)

Lemma residuals_cons_None z_func target_z x xs :
  z_func x = None ->
  residuals z_func target_z (x :: xs) = residuals z_func target_z xs.
Proof. intros E. unfold residuals. simpl. by rewrite E. Qed.

Lemma residuals_cons_Some z_func target_z x xs z :
  z_func x = Some z ->
  residuals z_func target_z (x :: xs)
  = (x, z - target_z) :: residuals z_func target_z xs.
Proof. intros E. unfold residuals. simpl. by rewrite E. Qed.

Lemma residuals_elem z_func target_z xs x f :
  (x, f) ∈ residuals z_func target_z xs <->
  x ∈ xs /\ exists z, z_func x = Some z /\ f = z - target_z.
Proof.
  unfold residuals. rewrite list_elem_of_omap. split.
  - intros (x' & Hx & E). destruct (z_func x') as [z|] eqn:Ez; [|done].
    cbn in E. simplify_eq. eauto.
  - intros (Hx & z & Ez & ->). exists x. split; [done|]. by rewrite Ez.
Qed.

Lemma residuals_nil z_func target_z xs :
  Forall (fun x => z_func x = None) xs -> residuals z_func target_z xs = [].
Proof.
  induction 1 as [|x xs Hx _ IH]; [done|]. by rewrite residuals_cons_None.
Qed.

(** Without a sign change the loop runs to its end and only tracks the
    best sample. *)
Lemma sample_loop_no_bracket z_func target_z lo hi xs last best :
  brackets (seen last (residuals z_func target_z xs)) = false ->
  sample_loop z_func target_z lo hi xs last best
  = fallback lo hi (fold_left keep_best (residuals z_func target_z xs) best).
Proof.
  revert last best. induction xs as [|x xs IH]; intros last best Hnb.
  - done.
  - cbn [sample_loop]. destruct (z_func x) as [z|] eqn:E.
    2: { rewrite residuals_cons_None in * by done. by apply IH. }
    rewrite (residuals_cons_Some _ _ _ _ _ E) in *. cbn [fold_left].
    assert (Hbest : match best with
                    | Some (_, best_abs) =>
                        if Qltb (Qabs (z - target_z)) best_abs
                        then Some (x, Qabs (z - target_z)) else best
                    | None => Some (x, Qabs (z - target_z))
                    end = keep_best best (x, z - target_z)).
    { by destruct best as [[??]|]. }
    rewrite Hbest.
    destruct last as [[lx lf]|]; cbn [seen fmap list_fmap brackets snd] in Hnb.
    + apply orb_false_iff in Hnb as [Hs Hnb]. rewrite Hs. by apply IH.
    + by apply IH.
Qed.

(** [fold_left keep_best] ends on a sample of least [|f|]. *)
Lemma keep_best_fold rs best :
  match fold_left keep_best rs best with
  | None => best = None /\ rs = []
  | Some (bx, ba) =>
      (best = Some (bx, ba) \/ exists f, (bx, f) ∈ rs /\ ba = Qabs f) /\
      Forall (fun s => ba <= Qabs s.2) rs /\
      match best with Some (_, b0) => ba <= b0 | None => True end
  end.
Proof.
  revert best. induction rs as [|[x f] rs IH]; intros best; cbn [fold_left].
  - destruct best as [[bx ba]|]; [|done].
    split_and!; [by left | constructor | lra].
  - specialize (IH (keep_best best (x, f))).
    destruct (fold_left keep_best rs (keep_best best (x, f))) as [[bx ba]|].
    + destruct IH as (Hin & Hall & Hle).
      assert (Hxf : ba <= Qabs f /\
                    match best with Some (_, b0) => ba <= b0 | None => True end).
      { unfold keep_best in Hle. cbn [fst snd] in Hle.
        destruct best as [[b0x b0a]|]; [|split; [done|done]].
        destruct (Qltb_spec (Qabs f) b0a); split; lra. }
      split_and!.
      * destruct Hin as [Hin|(f' & Hin & ->)].
        -- unfold keep_best in Hin. cbn [fst snd] in Hin.
           destruct best as [[b0x b0a]|].
           ++ destruct (Qltb (Qabs f) b0a).
              ** simplify_eq. right. exists f. split; [left|done].
              ** by left.
           ++ simplify_eq. right. exists f. split; [left|done].
        -- right. exists f'. split; [by right|done].
      * constructor; [apply Hxf | done].
      * apply Hxf.
    + destruct IH as [Hk _]. unfold keep_best in Hk.
      destruct best as [[??]|]; [destruct (Qltb _ _)|]; done.
Qed.

(** C2.  When no two consecutive usable samples change sign,
    [invert_zscore_function] returns the sample of least [|z - target_z|]
    among the usable ones, and the midpoint [(lo + hi) / 2] when the
    z-score function is null at every sample; it is a total function, so
    neither path raises. *)
Theorem invert_zscore_function_fallback (z_func : Q -> option Q)
    (target_z lo hi : Q) (samples : nat) :
  let xs := linspace lo hi samples in
  let r := invert_zscore_function z_func target_z lo hi samples in
  brackets (residuals z_func target_z xs).*2 = false ->
  (Forall (fun x => z_func x = None) xs -> r = (lo + hi) / 2) /\
  (Exists (fun x => is_Some (z_func x)) xs -> best_sample z_func target_z xs r).
Proof.
  intros xs r Hnb. subst r. unfold invert_zscore_function. fold xs.
  rewrite (sample_loop_no_bracket _ _ _ _ _ None None) by done.
  split.
  - intros Hnone. by rewrite residuals_nil.
  - intros Hsome. apply Exists_exists in Hsome as (x0 & Hx0 & z0 & Hz0).
    pose proof (keep_best_fold (residuals z_func target_z xs) None) as Hk.
    destruct (fold_left keep_best _ None) as [[bx ba]|].
    + destruct Hk as ([Hk|(f & Hin & ->)] & Hall & _); [done|].
      apply residuals_elem in Hin as (Hbx & z & Hz & ->).
      exists bx, z. split_and!; [done..|].
      intros x' z' Hx' Hz'. rewrite Forall_forall in Hall.
      apply (Hall (x', z' - target_z)), residuals_elem. eauto.
    + destruct Hk as [_ Hk]. exfalso.
      assert (Hin : (x0, z0 - target_z) ∈ residuals z_func target_z xs).
      { apply residuals_elem. eauto. }
      rewrite Hk in Hin. by inv Hin.
Qed.

Lemma invert_zscore_function_fallback_witness :
  let z_func : Q -> option Q := fun x => Some x in
  let xs := linspace 0 4 5 in
  let r := invert_zscore_function z_func 10 0 4 5 in
  brackets (residuals z_func 10 xs).*2 = false /\
  (Forall (fun x => z_func x = None) xs -> r = (0 + 4) / 2) /\
  (Exists (fun x => is_Some (z_func x)) xs -> best_sample z_func 10 xs r).
Proof.
  intros z_func xs r. split; [vm_compute; reflexivity |].
  apply (invert_zscore_function_fallback z_func 10 0 4 5).
  vm_compute; reflexivity.
Defined.

(** the two fallbacks on small grids *)
Example fallback_best_sample :
  invert_zscore_function (fun x => Some x) 10 0 4 5 = 4.
Proof. vm_compute. reflexivity. Qed.

Example fallback_midpoint :
  invert_zscore_function (fun _ => None) 0 2 30 150 = (2 + 30) / 2.
Proof. vm_compute. reflexivity. Qed.

(** *** Counting iterations and samples *)

Lemma bisect_count_fst f xtol n s :
  (bisect_count f xtol n s).1 = bisect f xtol n s.
Proof.
  revert s. induction n as [|n IH]; intros s;
    cbn [bisect bisect_count]; [done|].
  destruct (f _) as [fm|]; [|done].
  destruct (_ || _); [done|].
  destruct (Qltb _ _).
  - rewrite <- IH. by destruct (bisect_count _ _ _ _).
  - rewrite <- IH. by destruct (bisect_count _ _ _ _).
Qed.

Lemma bisect_count_le f xtol n s : ((bisect_count f xtol n s).2 <= n)%nat.
Proof.
  revert s. induction n as [|n IH]; intros s;
    cbn [bisect bisect_count]; [done|].
  destruct (f _) as [fm|]; [|cbn; lia].
  destruct (_ || _); [cbn; lia|].
  destruct (Qltb _ _).
  - specialize (IH (Bracket (br_a s) (br_fa s) (0.5 * (br_a s + br_b s)) fm)).
    destruct (bisect_count _ _ _ _). cbn in *. lia.
  - specialize (IH (Bracket (0.5 * (br_a s + br_b s)) fm (br_b s) (br_fb s))).
    destruct (bisect_count _ _ _ _). cbn in *. lia.
Qed.

Lemma pow2_S k : pow2 (S k) == 2 * pow2 k.
Proof.
  unfold pow2. rewrite Nat2Z.inj_succ, Z.pow_succ_r by lia.
  by rewrite inject_Z_mult.
Qed.

(** Each iteration halves the bracket, so the width test ends the loop
    after [S k] iterations once half the width is below [xtol * 2 ^ k]. *)
Lemma bisect_count_width f xtol n s k :
  (br_b s - br_a s) / 2 < xtol * pow2 k ->
  ((bisect_count f xtol n s).2 <= S k)%nat.
Proof.
  revert n s. induction k as [|k IH]; intros n s Hw.
  - destruct n as [|n]; cbn [bisect_count]; [cbn; lia|].
    destruct (f _) as [fm|]; [|cbn; lia].
    assert (Hx : Qltb ((br_b s - br_a s) / 2) xtol = true).
    { apply Qltb_lt. change (pow2 0) with 1 in Hw. lra. }
    rewrite Hx, orb_true_r. cbn. lia.
  - destruct n as [|n]; cbn [bisect_count]; [cbn; lia|].
    destruct (f _) as [fm|]; [|cbn; lia].
    destruct (_ || _); [cbn; lia|].
    rewrite pow2_S in Hw. unfold Qdiv in Hw. change (/ 2) with (1 # 2) in Hw.
    destruct (Qltb _ _).
    + specialize (IH n (Bracket (br_a s) (br_fa s) (0.5 * (br_a s + br_b s)) fm)).
      destruct (bisect_count _ _ _ _). cbn [snd br_a br_b] in *.
      apply le_n_S, IH. unfold Qdiv. change (/ 2) with (1 # 2). lra.
    + specialize (IH n (Bracket (0.5 * (br_a s + br_b s)) fm (br_b s) (br_fb s))).
      destruct (bisect_count _ _ _ _). cbn [snd br_a br_b] in *.
      apply le_n_S, IH. unfold Qdiv. change (/ 2) with (1 # 2). lra.
Qed.

Lemma brentq_rootfind_count_fst f a b xtol maxiter :
  (brentq_rootfind_count f a b xtol maxiter).1
  = brentq_rootfind f a b xtol maxiter.
Proof.
  unfold brentq_rootfind_count, brentq_rootfind.
  repeat case_match; try done. apply bisect_count_fst.
Qed.

Lemma brentq_rootfind_count_le f a b xtol maxiter :
  ((brentq_rootfind_count f a b xtol maxiter).2 <= maxiter)%nat.
Proof.
  unfold brentq_rootfind_count.
  repeat case_match; try (cbn; lia). apply bisect_count_le.
Qed.

Lemma sample_loop_count_fst z_func target_z lo hi xs last best :
  (sample_loop_count z_func target_z lo hi xs last best).1
  = sample_loop z_func target_z lo hi xs last best.
Proof.
  revert last best. induction xs as [|x xs IH]; intros last best;
    cbn [sample_loop sample_loop_count]; [done|].
  destruct (z_func x) as [z|]; [|apply IH].
  destruct last as [[lx lf]|]; [|apply IH].
  destruct (Qltb _ _); [|apply IH].
  apply brentq_rootfind_count_fst.
Qed.

Lemma sample_loop_count_le z_func target_z lo hi xs last best :
  let c := (sample_loop_count z_func target_z lo hi xs last best).2 in
  (c.1 <= length xs)%nat /\ (c.2 <= default_maxiter)%nat.
Proof.
  revert last best. induction xs as [|x xs IH]; intros last best;
    cbn [sample_loop_count]; [cbn; lia|].
  destruct (z_func x) as [z|].
  2: { specialize (IH last best). cbn in *. lia. }
  match goal with |- context [sample_loop_count _ _ _ _ xs ?l ?b] =>
    specialize (IH l b) end.
  destruct last as [[lx lf]|].
  2: { cbn in *. lia. }
  destruct (Qltb _ _).
  2: { cbn in *. lia. }
  cbn [fst snd length]. split; [lia|]. apply brentq_rootfind_count_le.
Qed.

(** C9.  Both routines are total and bounded.  [brentq_rootfind] runs
    at most [maxiter] iterations of its loop (100 by default) and
    returns at once when an end point or a midpoint has [|f| < 1e-10] or
    when half the bracket is below [xtol] (1e-6 by default, 1e-5 from
    [invert_zscore_function]), which happens after at most [S k]
    iterations once half the width is below [xtol * 2 ^ k];
    [invert_zscore_function] evaluates the z-score function at no more
    than [samples] grid points (150 by default) before it returns or
    hands over to at most 100 iterations of the root finder. *)
Theorem rootfinding_bounded (f z_func : Q -> option Q)
    (a b xtol target_z lo hi : Q) (maxiter samples : nat) :
  (brentq_rootfind_count f a b xtol maxiter).1
    = brentq_rootfind f a b xtol maxiter /\
  ((brentq_rootfind_count f a b xtol maxiter).2 <= maxiter)%nat /\
  (default_maxiter = 100%nat /\ default_xtol = 1e-6 /\
   default_samples = 150%nat) /\
  (forall fa fb, f a = Some fa -> f b = Some fb -> Qabs fa < 1e-10 ->
     brentq_rootfind_count f a b xtol maxiter = (a, 0%nat)) /\
  (forall n s fm,
     f (0.5 * (br_a s + br_b s)) = Some fm ->
     Qabs fm < 1e-10 \/ (br_b s - br_a s) / 2 < xtol ->
     bisect_count f xtol (S n) s = (0.5 * (br_a s + br_b s), 1%nat)) /\
  (forall n s k,
     (br_b s - br_a s) / 2 < xtol * pow2 k ->
     ((bisect_count f xtol n s).2 <= S k)%nat) /\
  (invert_zscore_function_count z_func target_z lo hi samples).1
    = invert_zscore_function z_func target_z lo hi samples /\
  (let c := (invert_zscore_function_count z_func target_z lo hi samples).2 in
   (c.1 <= samples)%nat /\ (c.2 <= 100)%nat) /\
  (forall x xs z last_x last_f best,
     z_func x = Some z -> (z - target_z) * last_f < 0 ->
     sample_loop z_func target_z lo hi (x :: xs) (Some (last_x, last_f)) best
     = brentq_rootfind (residual z_func target_z) last_x x 1e-5 100).
Proof.
  split_and!.
  - apply brentq_rootfind_count_fst.
  - apply brentq_rootfind_count_le.
  - reflexivity.
  - reflexivity.
  - reflexivity.
  - intros fa fb Ha Hb Hfa. unfold brentq_rootfind_count.
    rewrite Ha, Hb. apply Qltb_lt in Hfa. by rewrite Hfa.
  - intros n s fm Hm Hconv. cbn [bisect_count]. rewrite Hm.
    assert (Hc : Qltb (Qabs fm) 1e-10
                 || Qltb ((br_b s - br_a s) / 2) xtol = true).
    { apply orb_true_iff. by rewrite !Qltb_lt. }
    by rewrite Hc.
  - intros n s k. apply bisect_count_width.
  - apply sample_loop_count_fst.
  - pose proof (sample_loop_count_le z_func target_z lo hi
                  (linspace lo hi samples) None None) as Hc.
    cbn zeta in Hc. rewrite linspace_length in Hc. exact Hc.
  - intros x xs z last_x last_f best Hz Hsign. cbn [sample_loop].
    rewrite Hz. apply Qltb_lt in Hsign. by rewrite Hsign.
Qed.

(** a run that refines a bracket: 49 samples, then 15 iterations *)
Example refinement_run :
  (invert_zscore_function_count (fun x => Some (x - 10)) 0.3 1 30 150).2
  = (49%nat, 15%nat).
Proof. vm_compute. reflexivity. Qed.

End GrowthChartsFacts.

(** ** Growth velocity *)

Module KejarTumbuhFacts.
Import PyFloat KejarTumbuh KejarTumbuhSpec QFacts.

(** *** The stable sort *)

Section SortedFacts.
Context {A : Type} (key : A -> Q).

Lemma insert_by_Permutation x l : insert_by key x l ≡ₚ x :: l.
Proof.
  induction l as [|y l IH]; cbn [insert_by]; [done|].
  destruct (Qle_bool _ _); [done|]. rewrite IH. apply perm_swap.
Qed.

Lemma sorted_Permutation l : sorted key l ≡ₚ l.
Proof.
  induction l as [|x l IH]; [done|]. unfold sorted in *. cbn [foldr].
  by rewrite insert_by_Permutation, IH.
Qed.

Lemma sorted_length l : length (sorted key l) = length l.
Proof. apply Permutation_length, sorted_Permutation. Qed.

Lemma insert_by_StronglySorted x l :
  StronglySorted (key_le key) l ->
  StronglySorted (key_le key) (insert_by key x l).
Proof.
  induction 1 as [|y l Hl IH Hy]; cbn [insert_by].
  - repeat constructor.
  - destruct (Qleb_spec (key x) (key y)) as [Hxy|Hxy].
    + constructor; [by constructor|].
      constructor; [done|].
      eapply Forall_impl; [exact Hy|]. unfold key_le. intros z Hz. lra.
    + constructor; [done|].
      rewrite insert_by_Permutation. constructor; [|done].
      unfold key_le. lra.
Qed.

Lemma sorted_StronglySorted l : StronglySorted (key_le key) (sorted key l).
Proof.
  induction l as [|x l IH]; [constructor|].
  unfold sorted in *. cbn [foldr]. by apply insert_by_StronglySorted.
Qed.

End SortedFacts.





(** *** Intervals and validation *)




(** what each outcome of the analysis says about the input *)
Lemma analyze_cases data gender :
  match analyze_growth_velocity data gender with
  | Failure e =>
      ((length data < 2)%nat /\ e = err_too_few) \/
      ((2 <= length data)%nat /\ e = err_no_interval /\
       adjacent_velocities (sorted usia_bulan data) = [])
  | Success d vs es s g =>
      (2 <= length data)%nat /\ d = sorted usia_bulan data /\
      vs = adjacent_velocities d /\ vs <> [] /\
      length es = length vs /\ total_periods s = length vs /\
      total_measurements s = length data /\ g = gender
  | IndexError => False
  end.
Proof.
  unfold analyze_growth_velocity.
  destruct (Nat.ltb_spec (length data) 2) as [Hlt|Hge]; [by left|].
  pose proof (sorted_length usia_bulan data) as Hlen.
  destruct (adjacent_velocities _) as [|v0 vs0] eqn:Hv; [by right|].
  destruct (sorted usia_bulan data) as [|first rest] eqn:Hs.
  { cbn in Hlen. lia. }
  destruct (last (first :: rest)) as [final|] eqn:Hl.
  2: { by apply last_None in Hl. }
  destruct (0 <? count_severity "critical" _)%nat;
    [|destruct (0 <? count_severity "warning" _)%nat];
    cbn [total_periods total_measurements];
    rewrite ?length_map, ?Hlen; split_and!; done.
Qed.




(** two measurements three months apart; the same two at one age *)
Example one_interval :
  exists d v es s,
    analyze_growth_velocity [mk 9 8.8 72; mk 6 7.5 66] "Perempuan"
    = Success d [v] es s "Perempuan" /\ velocity_bb v == 0.433.
Proof. do 4 eexists. split; [vm_compute; reflexivity | reflexivity]. Qed.

Example no_interval :
  analyze_growth_velocity [mk 6 7.5 66; mk 6 7.7 66.5] "Perempuan"
  = Failure err_no_interval.
Proof. vm_compute. reflexivity. Qed.

(** *** The overall status *)

Lemma evaluate_velocity_level v r t :
  severity (evaluate_velocity v r t) ∈ levels.
Proof.
  unfold evaluate_velocity, levels. destruct r as [mn mx].
  repeat case_match; cbn [severity]; set_solver.
Qed.

Lemma count_severity_pos sev es :
  (0 <? count_severity sev es)%nat = true <-> sev ∈ severities es.
Proof.
  unfold count_severity. induction es as [|e es IH].
  - cbn. split; [done | by inversion 1].
  - cbn [List.filter severities flat_map app]. rewrite !elem_of_cons.
    fold (severities es). rewrite <- IH.
    destruct (String.eqb_spec (severity (bb_evaluation e)) sev) as [->|Hb];
    destruct (String.eqb_spec (severity (tb_evaluation e)) sev) as [->|Ht];
      cbn [orb length]; rewrite ?Nat.ltb_lt; try (split; [auto | intros; lia]).
    split; [auto | intros [?|[?|?]]; done].
Qed.

Lemma count_severity_zero sev es :
  (0 <? count_severity sev es)%nat = false <-> sev ∉ severities es.
Proof. rewrite <- count_severity_pos. by destruct (0 <? _)%nat. Qed.

Lemma severities_levels (f : velocity -> evaluated) vs :
  (forall v, severity (bb_evaluation (f v)) ∈ levels /\
             severity (tb_evaluation (f v)) ∈ levels) ->
  Forall (fun x => x ∈ levels) (severities (map f vs)).
Proof.
  intros Hf. induction vs as [|v vs IH]; [constructor|].
  cbn [map severities flat_map app]. destruct (Hf v).
  by repeat (constructor; [done|]).
Qed.

(** C6, as the code has it.  The overall status of a report has three
    levels, each with its fixed message: [critical] when some weight or
    height evaluation is critical, else [warning] when some evaluation
    is a warning, else [normal]; so evaluations graded attention, normal
    or good all leave the overall status at [normal]. *)
Theorem overall_status_three_levels (data : list measurement)
    (gender : string) d vs es s g :
  analyze_growth_velocity data gender = Success d vs es s g ->
  let sevs := severities es in
  Forall (fun x => x ∈ levels) sevs /\
  (("critical" ∈ sevs /\ overall_status s = "critical"
      /\ overall_message s = msg_critical) \/
   (("critical" ∉ sevs) /\ "warning" ∈ sevs /\ overall_status s = "warning"
      /\ overall_message s = msg_warning) \/
   (("critical" ∉ sevs) /\ ("warning" ∉ sevs) /\ overall_status s = "normal"
      /\ overall_message s = msg_normal)).
Proof.
  unfold analyze_growth_velocity. intros H.
  destruct (length data <? 2)%nat; [done|]. cbv zeta in H.
  match type of H with context [map ?f ?l] =>
    remember (map f l) as es0 eqn:Hes in H end.
  assert (Hlv : Forall (fun x => x ∈ levels) (severities es0)).
  { rewrite Hes. apply severities_levels.
    intros v; split; apply evaluate_velocity_level. }
  clear Hes.
  destruct (adjacent_velocities _) as [|v0 vs0]; [done|].
  destruct (sorted usia_bulan data) as [|first rest]; [done|].
  destruct (last (first :: rest)) as [final|]; [|done].
  destruct (0 <? count_severity "critical" _)%nat eqn:Hc;
    [|destruct (0 <? count_severity "warning" _)%nat eqn:Hw];
    injection H as <- <- <- <- <-; cbn [overall_status overall_message];
    (split; [done|]).
  - left. by apply count_severity_pos in Hc.
  - right; left. apply count_severity_zero in Hc.
    by apply count_severity_pos in Hw.
  - right; right. apply count_severity_zero in Hc.
    by apply count_severity_zero in Hw.
Qed.

Lemma overall_status_three_levels_witness :
  let data := [mk 6 7.5 66; mk 9 8.8 72; mk 12 9 76.5] in
  exists d vs es s g,
    analyze_growth_velocity data "Laki-laki" = Success d vs es s g /\
    let sevs := severities es in
    Forall (fun x => x ∈ levels) sevs /\
    (("critical" ∈ sevs /\ overall_status s = "critical"
        /\ overall_message s = msg_critical) \/
     (("critical" ∉ sevs) /\ "warning" ∈ sevs /\ overall_status s = "warning"
        /\ overall_message s = msg_warning) \/
     (("critical" ∉ sevs) /\ ("warning" ∉ sevs) /\ overall_status s = "normal"
        /\ overall_message s = msg_normal)).
Proof.
  intros data. do 5 eexists. split; [vm_compute; reflexivity |].
  eapply (overall_status_three_levels data "Laki-laki").
  vm_compute; reflexivity.
Defined.

(** a weight gain of 0.2 kg in three months between 9 and 12 months
    is a warning, and so is the report *)
Example overall_warning :
  exists d vs es s g,
    analyze_growth_velocity [mk 6 7.5 66; mk 9 8.8 72; mk 12 9 76.5]
      "Laki-laki" = Success d vs es s g /\
    severities es = ["normal"; "good"; "warning"; "normal"] /\
    overall_status s = "warning".
Proof. do 5 eexists. split; [vm_compute; reflexivity | done]. Qed.

(** C6 as stated fails: a weight gain of 0.2 kg a month between 6 and
    9 months is graded attention, nothing is graded critical or warning,
    and the overall status is [normal], not [attention]. *)
Lemma attention_reported_normal :
  exists d vs es s g,
    analyze_growth_velocity [mk 6 7.5 66; mk 9 8.1 70.5] "Laki-laki"
      = Success d vs es s g /\
    severities es = ["attention"; "normal"] /\
    overall_status s = "normal" /\
    overall_status s <> "attention".
Proof. do 5 eexists. split; [vm_compute; reflexivity | done]. Qed.

End KejarTumbuhFacts.

(** ** Rounding to a number of decimals *)

Module RoundFacts.
Import PyFloat KejarTumbuh QFacts.

Lemma inject_Z_succ z : inject_Z (z + 1) == inject_Z z + 1.
Proof. by rewrite inject_Z_plus. Qed.

Lemma round_half_even_near x :
  x - (1 # 2) <= inject_Z (round_half_even x) /\
  inject_Z (round_half_even x) <= x + (1 # 2).
Proof.
  unfold round_half_even.
  pose proof (Qfloor_le x) as Hlo. pose proof (Qlt_floor x) as Hhi.
  rewrite inject_Z_succ in Hhi.
  destruct (Qcompare_spec (x - inject_Z (Qfloor x)) (1 # 2)) as [He|Hl|Hg].
  - destruct (Z.even _); rewrite ?inject_Z_succ; split; lra.
  - split; lra.
  - rewrite inject_Z_succ. split; lra.
Qed.

Lemma round_half_even_mono x y :
  x <= y -> (round_half_even x <= round_half_even y)%Z.
Proof.
  intros Hxy. pose proof (Qfloor_resp_le _ _ Hxy) as Hf.
  unfold round_half_even.
  pose proof (Qfloor_le x) as Hxlo. pose proof (Qlt_floor x) as Hxhi.
  pose proof (Qfloor_le y) as Hylo. pose proof (Qlt_floor y) as Hyhi.
  destruct (Z.eq_dec (Qfloor x) (Qfloor y)) as [E|Hne].
  - rewrite <- E in *.
    destruct (Qcompare_spec (x - inject_Z (Qfloor x)) (1 # 2)) as [He|Hl|Hg];
    destruct (Qcompare_spec (y - inject_Z (Qfloor x)) (1 # 2)) as [He'|Hl'|Hg'];
      try destruct (Z.even _); try lia; exfalso; lra.
  - assert (Hlt : (Qfloor x + 1 <= Qfloor y)%Z) by lia.
    destruct (Qcompare_spec (x - inject_Z (Qfloor x)) (1 # 2));
    destruct (Qcompare_spec (y - inject_Z (Qfloor y)) (1 # 2));
      repeat destruct (Z.even _); lia.
Qed.

Lemma pow10_pos n : 0 < pow10 n.
Proof.
  unfold pow10. change 0 with (inject_Z 0). rewrite <- Zlt_Qlt.
  apply Z.pow_pos_nonneg; lia.
Qed.

Lemma round_eq x n :
  round x n == inject_Z (round_half_even (x * pow10 n)) / pow10 n.
Proof. unfold round. apply Qred_correct. Qed.

(** rounding moves a value by at most half a unit of the last digit *)
Lemma round_near x n :
  Qabs (round x n - x) <= (1 # 2) / pow10 n.
Proof.
  rewrite round_eq. pose proof (pow10_pos n) as Hp.
  destruct (round_half_even_near (x * pow10 n)) as [Hlo Hhi].
  set (r := inject_Z (round_half_even (x * pow10 n))) in *.
  apply Qabs_le_iff.
  assert (Hx : x == (x * pow10 n) / pow10 n).
  { rewrite Qdiv_mult_l; [reflexivity|]. intros E. rewrite E in Hp. by apply Qlt_irrefl in Hp. }
  assert (Hd : r / pow10 n - x == (r - x * pow10 n) / pow10 n).
  { rewrite Hx at 1. unfold Qdiv. ring. }
  rewrite Hd. split.
  - apply Qle_shift_div_l; [done|].
    assert (E : - ((1 # 2) / pow10 n) * pow10 n == - (1 # 2)).
    { field. intros E. rewrite E in Hp. by apply Qlt_irrefl in Hp. }
    rewrite E. lra.
  - apply Qle_shift_div_r; [done|].
    assert (E : (1 # 2) / pow10 n * pow10 n == 1 # 2).
    { field. intros E. rewrite E in Hp. by apply Qlt_irrefl in Hp. }
    rewrite E. lra.
Qed.

Lemma round_mono x y n : x <= y -> round x n <= round y n.
Proof.
  intros Hxy. rewrite !round_eq. pose proof (pow10_pos n) as Hp.
  apply Qmult_le_compat_r; [|apply Qlt_le_weak, Qinv_lt_0_compat, Hp].
  rewrite <- Zle_Qle. apply round_half_even_mono.
  apply Qmult_le_compat_r; [done|by apply Qlt_le_weak].
Qed.

Lemma round_nonneg x n : 0 <= x -> 0 <= round x n.
Proof.
  intros Hx. rewrite round_eq. pose proof (pow10_pos n) as Hp.
  apply Qle_shift_div_l; [done|]. rewrite Qmult_0_l.
  change 0 with (inject_Z (round_half_even 0)). rewrite <- Zle_Qle.
  apply round_half_even_mono. apply Qmult_le_0_compat; [done|by apply Qlt_le_weak].
Qed.

Lemma half_ulp_1 : (1 # 2) / pow10 1 == 0.05.
Proof. reflexivity. Qed.

Lemma half_ulp_2 : (1 # 2) / pow10 2 == 0.005.
Proof. reflexivity. Qed.

Lemma half_ulp_3 : (1 # 2) / pow10 3 == 0.0005.
Proof. reflexivity. Qed.

Lemma Qdiv_nonneg a b : 0 <= a -> 0 < b -> 0 <= a / b.
Proof. intros Ha Hb. apply Qle_shift_div_l; [done|]. lra. Qed.

End RoundFacts.

(** ** The labels of both classifiers *)

Module ClassificationFacts.
Import PyFloat WhoCalculator WhoCalculatorSpec QFacts WhoCalculatorFacts.

Ltac block_dom := intros; repeat case_match; by rewrite dom_insert_L.

Lemma permenkes_waz_dom z m : dom (permenkes_waz z m) = {["waz"]} ∪ dom m.
Proof. unfold permenkes_waz. block_dom. Qed.

Lemma permenkes_haz_dom z m : dom (permenkes_haz z m) = {["haz"]} ∪ dom m.
Proof. unfold permenkes_haz. block_dom. Qed.

Lemma permenkes_whz_dom z m : dom (permenkes_whz z m) = {["whz"]} ∪ dom m.
Proof. unfold permenkes_whz. block_dom. Qed.

Lemma permenkes_baz_dom z m : dom (permenkes_baz z m) = {["baz"]} ∪ dom m.
Proof. unfold permenkes_baz. block_dom. Qed.

Lemma permenkes_hcz_dom z m : dom (permenkes_hcz z m) = {["hcz"]} ∪ dom m.
Proof. unfold permenkes_hcz. block_dom. Qed.

Lemma who_waz_dom z m : dom (who_waz z m) = {["waz"]} ∪ dom m.
Proof. unfold who_waz. block_dom. Qed.

Lemma who_haz_dom z m : dom (who_haz z m) = {["haz"]} ∪ dom m.
Proof. unfold who_haz. block_dom. Qed.

Lemma who_whz_dom z m : dom (who_whz z m) = {["whz"]} ∪ dom m.
Proof. unfold who_whz. block_dom. Qed.

Lemma who_baz_dom z m : dom (who_baz z m) = {["baz"]} ∪ dom m.
Proof. unfold who_baz. block_dom. Qed.

Lemma who_hcz_dom z m : dom (who_hcz z m) = {["hcz"]} ∪ dom m.
Proof. unfold who_hcz. block_dom. Qed.

(** X1.  Whatever keys the dict of z-scores has, and whatever it holds
    under them, each classifier answers a dict with exactly the five
    keys waz, haz, whz, baz and hcz. *)
Theorem classifiers_five_keys (z : zscores) :
  dom (classify_permenkes_2020 z) = five_keys /\
  dom (classify_who_standards z) = five_keys.
Proof.
  unfold classify_permenkes_2020, classify_who_standards, five_keys. split.
  - rewrite permenkes_hcz_dom, permenkes_baz_dom, permenkes_whz_dom,
      permenkes_haz_dom, permenkes_waz_dom, dom_empty_L. set_solver.
  - rewrite who_hcz_dom, who_baz_dom, who_whz_dom, who_haz_dom, who_waz_dom,
      dom_empty_L. set_solver.
Qed.

Lemma permenkes_lookup_hcz z :
  classify_permenkes_2020 z !! "hcz"
  = permenkes_hcz z (permenkes_baz z (permenkes_whz z (permenkes_haz z (permenkes_waz z ∅)))) !! "hcz".
Proof. done. Qed.

Lemma who_lookup_hcz z :
  classify_who_standards z !! "hcz"
  = who_hcz z (who_baz z (who_whz z (who_haz z (who_waz z ∅)))) !! "hcz".
Proof. done. Qed.

Ltac label_bands :=
  cbn [usable isnan flt fle fabs of_int]; unfold inject_Z; qcases;
  rewrite ?lookup_insert_eq;
  repeat split; intros; qabs;
  try discriminate; try reflexivity; try lra;
  try (exfalso; lra).

(** X2.  The bands of weight-for-age, height-for-age and head
    circumference, for a finite z-score [q].  Weight-for-age: below -3,
    from -3 to below -2, from -2 to 2 inclusive, above 2.
    Height-for-age: below -3, from -3 to below -2, from -2 to 3
    inclusive, above 3.  Head circumference: normal from -2 to 2
    inclusive, microcephaly below -2, macrocephaly above 2.  The two
    classifiers cut at the same places. *)
Theorem waz_haz_hcz_bands (m : zscores) (q : Q) :
  (let z := <["waz" := Some (Fin q)]> m in
   let p := classify_permenkes_2020 z !! "waz" in
   let w := classify_who_standards z !! "waz" in
   ((p = Some "Berat Badan Sangat Kurang" <-> q < -3) /\
    (p = Some "Berat Badan Kurang" <-> -3 <= q /\ q < -2) /\
    (p = Some "Berat Badan Normal" <-> -2 <= q /\ q <= 2) /\
    (p = Some "Risiko Berat Badan Lebih" <-> 2 < q)) /\
   ((w = Some "Severely underweight" <-> q < -3) /\
    (w = Some "Underweight" <-> -3 <= q /\ q < -2) /\
    (w = Some "Normal weight" <-> -2 <= q /\ q <= 2) /\
    (w = Some "Overweight" <-> 2 < q))) /\
  (let z := <["haz" := Some (Fin q)]> m in
   let p := classify_permenkes_2020 z !! "haz" in
   let w := classify_who_standards z !! "haz" in
   ((p = Some "Sangat Pendek (Severely Stunted)" <-> q < -3) /\
    (p = Some "Pendek (Stunted)" <-> -3 <= q /\ q < -2) /\
    (p = Some "Tinggi Badan Normal" <-> -2 <= q /\ q <= 3) /\
    (p = Some "Tinggi Badan Berlebih" <-> 3 < q)) /\
   ((w = Some "Severely stunted" <-> q < -3) /\
    (w = Some "Stunted" <-> -3 <= q /\ q < -2) /\
    (w = Some "Normal height" <-> -2 <= q /\ q <= 3) /\
    (w = Some "Tall" <-> 3 < q))) /\
  (let z := <["hcz" := Some (Fin q)]> m in
   let p := classify_permenkes_2020 z !! "hcz" in
   let w := classify_who_standards z !! "hcz" in
   ((p = Some "Mikrosefali (perlu evaluasi)" <-> q < -2) /\
    (p = Some "Normal" <-> -2 <= q /\ q <= 2) /\
    (p = Some "Makrosefali (perlu evaluasi)" <-> 2 < q)) /\
   ((w = Some "Microcephaly" <-> q < -2) /\
    (w = Some "Normal" <-> -2 <= q /\ q <= 2) /\
    (w = Some "Macrocephaly" <-> 2 < q))).
Proof.
  split_and!; intros z p w; subst z p w.
  - rewrite !permenkes_lookup_waz, !who_lookup_waz.
    unfold permenkes_waz, who_waz. rewrite !get_insert.
    split_and!; label_bands.
  - rewrite !permenkes_lookup_haz, !who_lookup_haz.
    unfold permenkes_haz, who_haz. rewrite !get_insert.
    split_and!; label_bands.
  - rewrite !permenkes_lookup_hcz, !who_lookup_hcz.
    unfold permenkes_hcz, who_hcz. rewrite !get_insert.
    split_and!; label_bands.
Qed.

Lemma usable_None v : usable v = None <-> v = None \/ v = Some NaN.
Proof.
  destruct v as [[]|]; cbn; split; intros; try done; try (by left); try (by right);
  destruct H; discriminate.
Qed.

Ltac unavailable_solve :=
  rewrite <- usable_None;
  match goal with |- context [usable ?v] => destruct (usable v) as [[q| | |]|] end;
  cbn [flt fle fabs of_int];
  repeat match goal with
    | |- context [Qltb ?a ?b] => destruct (Qltb a b); cbv iota
    | |- context [Qle_bool ?a ?b] => destruct (Qle_bool a b); cbv iota
    end;
  rewrite !lookup_insert_eq; split; intros; first [reflexivity | discriminate].

(** X3.  For each of the five indices, the label is "Data Tidak
    Tersedia" (Permenkes) or "N/A" (WHO) exactly when the dict has no
    value under the key, or [None], or NaN: no number, however extreme
    or infinite, gets the unavailable label. *)
Theorem unavailable_label (z : zscores) (k : string) :
  k ∈ indices ->
  (classify_permenkes_2020 z !! k = Some "Data Tidak Tersedia" <-> unavailable z k) /\
  (classify_who_standards z !! k = Some "N/A" <-> unavailable z k).
Proof.
  unfold indices, unavailable. intros Hk.
  repeat (apply elem_of_cons in Hk as [->|Hk]); [..|by inv Hk].
  - rewrite permenkes_lookup_waz, who_lookup_waz. unfold permenkes_waz, who_waz.
    split; unavailable_solve.
  - rewrite permenkes_lookup_haz, who_lookup_haz. unfold permenkes_haz, who_haz.
    split; unavailable_solve.
  - rewrite permenkes_lookup_whz, who_lookup_whz. unfold permenkes_whz, who_whz.
    split; unavailable_solve.
  - rewrite permenkes_lookup_baz, who_lookup_baz. unfold permenkes_baz, who_baz.
    split; unavailable_solve.
  - rewrite permenkes_lookup_hcz, who_lookup_hcz. unfold permenkes_hcz, who_hcz.
    split; unavailable_solve.
Qed.

Lemma unavailable_label_witness :
  let z : zscores := <["haz" := Some PosInf]> (<["waz" := Some NaN]> ∅) in
  "haz" ∈ indices /\
  (classify_permenkes_2020 z !! "haz" = Some "Data Tidak Tersedia"
     <-> unavailable z "haz") /\
  (classify_who_standards z !! "haz" = Some "N/A" <-> unavailable z "haz").
Proof.
  intros z.
  assert (Hk : "haz" ∈ indices) by (apply (bool_decide_unpack _); vm_compute; exact I).
  split; [exact Hk | exact (unavailable_label z "haz" Hk)].
Defined.

(** when the field is [None], both labels say so *)
Lemma none_labels (z : zscores) k :
  k ∈ indices ->
  z !! k = Some None ->
  classify_permenkes_2020 z !! k = Some "Data Tidak Tersedia" /\
  classify_who_standards z !! k = Some "N/A".
Proof.
  intros Hk Hz.
  assert (Hg : get z k = None) by (unfold get; by rewrite Hz).
  unfold indices in Hk.
  repeat (apply elem_of_cons in Hk as [->|Hk]); [..|by inv Hk].
  - rewrite permenkes_lookup_waz, who_lookup_waz. unfold permenkes_waz, who_waz.
    rewrite Hg. cbn [usable]. by rewrite !lookup_insert_eq.
  - rewrite permenkes_lookup_haz, who_lookup_haz. unfold permenkes_haz, who_haz.
    rewrite Hg. cbn [usable]. by rewrite !lookup_insert_eq.
  - rewrite permenkes_lookup_whz, who_lookup_whz. unfold permenkes_whz, who_whz.
    rewrite Hg. cbn [usable]. by rewrite !lookup_insert_eq.
  - rewrite permenkes_lookup_baz, who_lookup_baz. unfold permenkes_baz, who_baz.
    rewrite Hg. cbn [usable]. by rewrite !lookup_insert_eq.
  - rewrite permenkes_lookup_hcz, who_lookup_hcz. unfold permenkes_hcz, who_hcz.
    rewrite Hg. cbn [usable]. by rewrite !lookup_insert_eq.
Qed.

(** X4.  Classifying what [calculate_all_zscores] returns.  When the
    call returns: without a calculator every label of both classifiers
    is the unavailable one; no head circumference leaves hcz
    unavailable; no weight leaves waz, whz and baz unavailable; no
    height leaves haz, whz and baz unavailable; and a height that is
    zero or negative leaves baz unavailable.  The call fails to return
    only with a calculator, a weight and a positive height whose square
    [(h / 100) ** 2] is zero or infinite as a float; so it returns in
    all the cases above but the one of the head circumference, and in
    that one whenever the square is in range. *)
Theorem classify_after_calculate (calc : option Calculator) (sex : string)
    (age_months : Q) (weight height head_circ : option Q) :
  match calculate_all_zscores calc sex age_months weight height head_circ with
  | Return z =>
      (calc = None ->
       classify_permenkes_2020 z = permenkes_unavailable /\
       classify_who_standards z = who_unavailable) /\
      (head_circ = None ->
       classify_permenkes_2020 z !! "hcz" = Some "Data Tidak Tersedia" /\
       classify_who_standards z !! "hcz" = Some "N/A") /\
      (weight = None -> forall k, k ∈ ["waz"; "whz"; "baz"] ->
       classify_permenkes_2020 z !! k = Some "Data Tidak Tersedia" /\
       classify_who_standards z !! k = Some "N/A") /\
      (height = None -> forall k, k ∈ ["haz"; "whz"; "baz"] ->
       classify_permenkes_2020 z !! k = Some "Data Tidak Tersedia" /\
       classify_who_standards z !! k = Some "N/A") /\
      (forall h, height = Some h -> h <= 0 ->
       classify_permenkes_2020 z !! "baz" = Some "Data Tidak Tersedia" /\
       classify_who_standards z !! "baz" = Some "N/A")
  | Raise e =>
      calc <> None /\ weight <> None /\
      exists h, height = Some h /\ 0 < h /\ ~ bmi_square_in_range h
  end.
Proof.
  pose proof (calculate_all_zscores_outcome calc sex age_months
                weight height head_circ) as H.
  destruct (calculate_all_zscores _ _ _ _ _ _) as [z|e].
  - destruct H as (_ & _ & Hw & Hh & Hhc & Hneg & Hnone). split_and!.
    + intros Hc. rewrite (Hnone Hc). split; reflexivity.
    + intros Hc. apply none_labels; [unfold indices; set_solver|by apply Hhc].
    + intros Hc k Hk. destruct (Hw Hc) as (H1 & H2 & H3).
      repeat (apply elem_of_cons in Hk as [->|Hk]); [..|by inv Hk];
        (apply none_labels; [unfold indices; set_solver|done]).
    + intros Hc k Hk. destruct (Hh Hc) as (H1 & H2 & H3).
      repeat (apply elem_of_cons in Hk as [->|Hk]); [..|by inv Hk];
        (apply none_labels; [unfold indices; set_solver|done]).
    + intros h Hc Hle. apply none_labels; [unfold indices; set_solver|].
      by apply (Hneg h).
  - destruct H as (c & w & h & -> & -> & -> & Hpos & Hb).
    split_and!; [done|done|]. exists h. split_and!; [done|done|].
    intros [Hlo Hhi]. apply bmi_raises in Hb as [[_ Hu]|[_ Ho]]; [lra|lra|done].
Qed.

End ClassificationFacts.

(** ** Validation of extreme z-scores *)

Module ValidationFacts.
Import PyFloat WhoCalculator WhoCalculatorSpec QFacts WhoCalculatorFacts.

Lemma validate_loop_step fmt key z items errors warnings :
  exists msg,
    validate_loop fmt ((key, z) :: items) errors warnings
    = match grade_of z with
      | Quiet => validate_loop fmt items errors warnings
      | Warned => validate_loop fmt items errors (warnings ++ [msg])
      | Flagged => validate_loop fmt items (errors ++ [msg]) warnings
      end.
Proof.
  cbn [validate_loop].
  destruct z as [[q| | |]|]; cbn [usable isnan flt fle fabs of_int grade_of];
    try (by eexists); try (by exists "").
  change (inject_Z 5) with 5. change (inject_Z 3) with 3.
  destruct (Qltb 5 (Qabs q)); [by eexists|].
  destruct (Qltb 3 (Qabs q)); [by eexists|by exists ""].
Qed.

Lemma validate_loop_lengths fmt items errors warnings :
  let r := validate_loop fmt items errors warnings in
  length r.1 = (length errors + length (List.filter is_flagged items.*2))%nat /\
  length r.2 = (length warnings + length (List.filter is_warned items.*2))%nat.
Proof.
  revert errors warnings.
  induction items as [|[key z] items IH]; intros errors warnings.
  - cbn. lia.
  - destruct (validate_loop_step fmt key z items errors warnings) as [msg Hs].
    cbn zeta. rewrite Hs. cbn [fmap list_fmap snd List.filter].
    unfold is_flagged at 1, is_warned at 1.
    destruct (grade_of z).
    + apply IH.
    + specialize (IH errors (warnings ++ [msg])). cbn zeta in IH.
      rewrite length_app in IH. cbn [length] in *. lia.
    + specialize (IH (errors ++ [msg]) warnings). cbn zeta in IH.
      rewrite length_app in IH. cbn [length] in *. lia.
Qed.

Lemma grade_quiet z : grade_of z = Quiet <-> calm z.
Proof.
  unfold grade_of, calm. destruct z as [[q| | |]|]; try done.
  destruct (Qltb_spec 5 (Qabs q)) as [H5|H5].
  - split; [done|]. intros [??].
    assert (H3 : Qabs q <= 3) by (apply Qabs_le_iff; split; lra). lra.
  - destruct (Qltb_spec 3 (Qabs q)) as [H3|H3].
    + split; [done|]. intros [??].
      assert (H3' : Qabs q <= 3) by (apply Qabs_le_iff; split; lra). lra.
    + split; [|done]. intros _.
      assert (H3' : Qabs q <= 3) by lra. apply Qabs_le_iff in H3'. split; lra.
Qed.

Lemma filter_nil_iff {A} (f : A -> bool) l :
  List.filter f l = [] <-> Forall (fun x => f x = false) l.
Proof.
  induction l as [|x l IH]; [by split; [constructor|]|].
  cbn [List.filter]. rewrite Forall_cons, <- IH.
  destruct (f x); split; [done | by intros [??] | done | by intros [??]].
Qed.

Lemma validate_silent_iff fmt (items : list (string * option pyfloat)) :
  validate_zscores fmt items = ([], []) <-> Forall calm items.*2.
Proof.
  unfold validate_zscores.
  destruct (validate_loop_lengths fmt items [] []) as [He Hw].
  cbn [length Nat.add] in He, Hw.
  assert (Hc : Forall calm items.*2 <->
               List.filter is_flagged items.*2 = [] /\
               List.filter is_warned items.*2 = []).
  { rewrite !filter_nil_iff, <- Forall_and. apply Forall_proper; [|done].
    intros z. rewrite <- grade_quiet. unfold is_flagged, is_warned.
    destruct (grade_of z); split; try done; intros [??]; done. }
  rewrite Hc.
  destruct (validate_loop fmt items [] []) as [errors warnings].
  cbn [fst snd] in *. split.
  - intros [= -> ->]. cbn [length] in He, Hw.
    split; [destruct (List.filter is_flagged _) | destruct (List.filter is_warned _)];
      done.
  - intros [Hf Hn]. rewrite Hf in He. rewrite Hn in Hw.
    destruct errors, warnings; done.
Qed.

(** X5.  [validate_zscores] appends one error for each value that is
    infinite or has [|z| > 5], one warning for each finite value with
    [3 < |z| <= 5], and nothing for [None], NaN and values in [[-3, 3]]
    (both ends included); so it returns two empty lists exactly when
    every value is of the last kind. *)
Theorem validate_zscores_counts fmt (items : list (string * option pyfloat)) :
  let r := validate_zscores fmt items in
  length r.1 = length (List.filter is_flagged items.*2) /\
  length r.2 = length (List.filter is_warned items.*2) /\
  (r = ([], []) <-> Forall calm items.*2).
Proof.
  intros r. subst r.
  destruct (validate_loop_lengths fmt items [] []) as [He Hw].
  cbn [length Nat.add] in He, Hw. unfold validate_zscores at 1 2.
  split_and!; [done..|]. apply validate_silent_iff.
Qed.

Ltac calm_solve H :=
  match goal with |- context [usable ?v] => destruct v as [[q| | |]|] end;
  cbn [calm] in H; try done;
  cbn [usable isnan flt fle fabs of_int]; unfold inject_Z; qcases;
  rewrite ?lookup_insert_eq; repeat split; intros ?; try discriminate; lra.

Lemma calm_labels (z : zscores) :
  (forall k, calm (get z k)) ->
  (classify_permenkes_2020 z !! "waz" <> Some "Berat Badan Sangat Kurang" /\
   classify_who_standards z !! "waz" <> Some "Severely underweight") /\
  (classify_permenkes_2020 z !! "haz" <> Some "Sangat Pendek (Severely Stunted)" /\
   classify_permenkes_2020 z !! "haz" <> Some "Tinggi Badan Berlebih" /\
   classify_who_standards z !! "haz" <> Some "Severely stunted" /\
   classify_who_standards z !! "haz" <> Some "Tall") /\
  (classify_permenkes_2020 z !! "whz" <> Some "Gizi Buruk (Severely Wasted)" /\
   classify_permenkes_2020 z !! "whz" <> Some "Gizi Lebih (Overweight)" /\
   classify_who_standards z !! "whz" <> Some "Severely wasted" /\
   classify_who_standards z !! "whz" <> Some "Overweight") /\
  (classify_permenkes_2020 z !! "baz" <> Some "Gizi Buruk (Severely Wasted)" /\
   classify_permenkes_2020 z !! "baz" <> Some "Obesitas (Obese)" /\
   classify_who_standards z !! "baz" <> Some "Severely wasted" /\
   classify_who_standards z !! "baz" <> Some "Obese").
Proof.
  intros Hc. split_and!.
  1-2: rewrite ?permenkes_lookup_waz, ?who_lookup_waz; unfold permenkes_waz, who_waz;
    specialize (Hc "waz"); calm_solve Hc.
  1-4: rewrite ?permenkes_lookup_haz, ?who_lookup_haz; unfold permenkes_haz, who_haz;
    specialize (Hc "haz"); calm_solve Hc.
  1-4: rewrite ?permenkes_lookup_whz, ?who_lookup_whz; unfold permenkes_whz, who_whz;
    specialize (Hc "whz"); calm_solve Hc.
  1-4: rewrite ?permenkes_lookup_baz, ?who_lookup_baz; unfold permenkes_baz, who_baz;
    specialize (Hc "baz"); calm_solve Hc.
Qed.

(** X6.  Validation and classification agree on what is extreme: when
    [validate_zscores], run over the items of a dict in any order,
    returns no error and no warning, neither classifier gives that dict
    a label of the outermost bands (below -3 for all four, above +3 for
    haz, whz and baz) for waz, haz, whz or baz. *)
Theorem silent_validation_labels fmt (z : zscores)
    (items : list (string * option pyfloat)) :
  items ≡ₚ map_to_list z ->
  validate_zscores fmt items = ([], []) ->
  (classify_permenkes_2020 z !! "waz" <> Some "Berat Badan Sangat Kurang" /\
   classify_who_standards z !! "waz" <> Some "Severely underweight") /\
  (classify_permenkes_2020 z !! "haz" <> Some "Sangat Pendek (Severely Stunted)" /\
   classify_permenkes_2020 z !! "haz" <> Some "Tinggi Badan Berlebih" /\
   classify_who_standards z !! "haz" <> Some "Severely stunted" /\
   classify_who_standards z !! "haz" <> Some "Tall") /\
  (classify_permenkes_2020 z !! "whz" <> Some "Gizi Buruk (Severely Wasted)" /\
   classify_permenkes_2020 z !! "whz" <> Some "Gizi Lebih (Overweight)" /\
   classify_who_standards z !! "whz" <> Some "Severely wasted" /\
   classify_who_standards z !! "whz" <> Some "Overweight") /\
  (classify_permenkes_2020 z !! "baz" <> Some "Gizi Buruk (Severely Wasted)" /\
   classify_permenkes_2020 z !! "baz" <> Some "Obesitas (Obese)" /\
   classify_who_standards z !! "baz" <> Some "Severely wasted" /\
   classify_who_standards z !! "baz" <> Some "Obese").
Proof.
  intros Hitems Hsilent. apply calm_labels. intros k.
  apply validate_silent_iff in Hsilent. rewrite Forall_forall in Hsilent.
  unfold get. destruct (z !! k) as [v|] eqn:E; [|done].
  apply Hsilent, list_elem_of_fmap. exists (k, v). split; [done|].
  rewrite Hitems. by apply elem_of_map_to_list.
Qed.

Lemma silent_validation_labels_witness :
  let z : zscores := {[ "haz" := Some (Fin (-3)) ]} in
  let items := [("haz", Some (Fin (-3)))] in
  let fmt := fun _ : pyfloat => "-3.00" in
  items ≡ₚ map_to_list z /\
  validate_zscores fmt items = ([], []) /\
  classify_permenkes_2020 z !! "haz" <> Some "Sangat Pendek (Severely Stunted)".
Proof.
  intros z items fmt.
  assert (H1 : items ≡ₚ map_to_list z) by (vm_compute; reflexivity).
  assert (H2 : validate_zscores fmt items = ([], [])) by (vm_compute; reflexivity).
  split; [exact H1|]. split; [exact H2|].
  exact (proj1 (proj1 (proj2 (silent_validation_labels fmt z items H1 H2)))).
Defined.

End ValidationFacts.

(** ** Convergence of the root finder and the round trip of the inversion *)

Module InversionFacts.
Import PyFloat GrowthCharts GrowthChartsSpec QFacts GrowthChartsFacts.

Lemma increasing_le g x y : increasing g -> x <= y -> g x <= g y.
Proof.
  intros Hg Hxy. apply Qle_lteq in Hxy as [Hlt|He].
  - apply Qlt_le_weak. by apply Hg.
  - apply Hg in He. rewrite He. apply Qle_refl.
Qed.

Lemma invert_between z_func target_z lo hi samples :
  lo <= hi -> between lo hi (invert_zscore_function z_func target_z lo hi samples).
Proof.
  intros Hle. unfold invert_zscore_function.
  apply sample_loop_between; [done | by apply linspace_between | done..].
Qed.

(** *** Bisection *)

Lemma sign_change_other (fa fm fb : Q) :
  fa * fb < 0 -> ~ fa * fm < 0 -> ~ fm == 0 -> fm * fb < 0.
Proof.
  intros Hab Ham Hm.
  destruct (Qlt_le_dec 0 fa) as [Ha|Ha].
  - assert (Hb : fb < 0) by nra.
    assert (Hm' : 0 < fm).
    { destruct (Qlt_le_dec 0 fm) as [|Hle]; [done|].
      apply Qle_lteq in Hle as [Hlt|He]; [|done]. exfalso. apply Ham. nra. }
    nra.
  - assert (Ha' : fa < 0).
    { apply Qle_lteq in Ha as [|He]; [done|]. rewrite He in Hab. lra. }
    assert (Hb : 0 < fb) by nra.
    assert (Hm' : fm < 0).
    { destruct (Qlt_le_dec fm 0) as [|Hle]; [done|].
      apply Qle_lteq in Hle as [Hlt|He]; [|by symmetry in He]. exfalso. apply Ham. nra. }
    nra.
Qed.

Lemma bisect_certified f g xtol k n s lo hi :
  (forall x, f x = Some (g x)) ->
  (k < n)%nat ->
  lo <= br_a s -> br_a s < br_b s -> br_b s <= hi ->
  br_fa s = g (br_a s) -> br_fb s = g (br_b s) ->
  br_fa s * br_fb s < 0 ->
  (br_b s - br_a s) / 2 < xtol * pow2 k ->
  certified g xtol lo hi (bisect f xtol n s).
Proof.
  intros Hf. revert n s.
  induction k as [|k IH]; intros n s Hn Hlo Hab Hhi Hfa Hfb Hsign Hw;
    (destruct n as [|n]; [lia|]); cbn [bisect]; rewrite Hf.
  - assert (Hx : Qltb ((br_b s - br_a s) / 2) xtol = true).
    { apply Qltb_lt. change (pow2 0) with 1 in Hw. lra. }
    rewrite Hx, orb_true_r. right. exists (br_a s), (br_b s).
    rewrite <- Hfa, <- Hfb. split_and!; try done.
    apply Qltb_lt in Hx. done.
  - destruct (Qltb_spec (Qabs (g (0.5 * (br_a s + br_b s)))) 1e-10) as [Hr|Hr].
    { by left. }
    destruct (Qltb_spec ((br_b s - br_a s) / 2) xtol) as [Hx|Hx]; cbn [orb].
    { right. exists (br_a s), (br_b s). rewrite <- Hfa, <- Hfb. by split_and!. }
    rewrite pow2_S in Hw. unfold Qdiv in Hw. change (/ 2) with (1 # 2) in Hw.
    assert (Hm0 : ~ g (0.5 * (br_a s + br_b s)) == 0).
    { intros E. apply Hr. rewrite E. reflexivity. }
    destruct (Qltb_spec (br_fa s * g (0.5 * (br_a s + br_b s))) 0) as [Hs|Hs].
    + apply IH; cbn [br_a br_b br_fa br_fb]; try done; try lia; try lra.
      unfold Qdiv. change (/ 2) with (1 # 2). lra.
    + apply IH; cbn [br_a br_b br_fa br_fb]; try done; try lia; try lra.
      * by apply (sign_change_other (br_fa s)).
      * unfold Qdiv. change (/ 2) with (1 # 2). lra.
Qed.

Lemma certified_near_root g xtol lo hi r v :
  increasing g -> g v == 0 -> certified g xtol lo hi r ->
  Qabs (g r) < 1e-10 \/ Qabs (r - v) < xtol.
Proof.
  intros Hg Hv [Hr|(a' & b' & Hlo & Hab & Hhi & Hs & -> & Hw)]; [by left|right].
  pose proof (proj1 (Hg a' b') Hab) as Hgab.
  assert (Ha : g a' < 0 /\ 0 < g b').
  { destruct (Qlt_le_dec (g a') 0) as [Ha|Ha].
    - split; [done|]. destruct (Qlt_le_dec 0 (g b')) as [|Hb]; [done|]. exfalso. nra.
    - exfalso. nra. }
  destruct Ha as [Ha Hb].
  assert (Hav : a' < v).
  { apply Qnot_le_lt. intros Hle. apply (increasing_le g) in Hle; [|done]. lra. }
  assert (Hvb : v < b').
  { apply Qnot_le_lt. intros Hle. apply (increasing_le g) in Hle; [|done]. lra. }
  apply Qabs_lt_iff. unfold Qdiv in Hw. change (/ 2) with (1 # 2) in Hw. split; lra.
Qed.

Lemma brentq_rootfind_certified (f : Q -> option Q) (g : Q -> Q)
    (a b xtol : Q) (maxiter k : nat) :
  (forall x, f x = Some (g x)) ->
  a < b -> g a * g b < 0 ->
  (b - a) / 2 < xtol * pow2 k -> (k < maxiter)%nat ->
  certified g xtol a b (brentq_rootfind f a b xtol maxiter).
Proof.
  intros Hf Hab Hs Hw Hk.
  unfold brentq_rootfind. rewrite !Hf.
  destruct (Qltb_spec (Qabs (g a)) 1e-10) as [Ha|Ha]; [by left|].
  destruct (Qltb_spec (Qabs (g b)) 1e-10) as [Hb|Hb]; [by left|].
  destruct (Qltb_spec 0 (g a * g b)) as [Hp|Hp]; [lra|].
  eapply (bisect_certified f g xtol k); cbn [br_a br_b br_fa br_fb];
    try done; try lra; apply Qle_refl.
Qed.

(** X7.  When the function has a value everywhere and changes sign
    between [a < b], and [maxiter] halvings are enough to bring the
    half-width of the bracket below [xtol], the root finder ends on a
    point whose residual is below [1e-10], or on the midpoint of a
    bracket inside [[a, b]] with a sign change and half-width below
    [xtol]; for an increasing function with a root [v] this puts the
    result within [xtol] of [v], unless the residual is already below
    [1e-10]. *)
Theorem brentq_rootfind_converges (f : Q -> option Q) (g : Q -> Q)
    (a b xtol : Q) (maxiter k : nat) :
  (forall x, f x = Some (g x)) ->
  a < b -> g a * g b < 0 ->
  (b - a) / 2 < xtol * pow2 k -> (k < maxiter)%nat ->
  certified g xtol a b (brentq_rootfind f a b xtol maxiter) /\
  (forall v, increasing g -> g v == 0 ->
     Qabs (g (brentq_rootfind f a b xtol maxiter)) < 1e-10 \/
     Qabs (brentq_rootfind f a b xtol maxiter - v) < xtol).
Proof.
  intros Hf Hab Hs Hw Hk.
  pose proof (brentq_rootfind_certified f g a b xtol maxiter k Hf Hab Hs Hw Hk) as Hc.
  split; [done|]. intros v Hg Hv. by eapply certified_near_root.
Qed.

Lemma brentq_rootfind_converges_witness :
  let g := fun x : Q => x - 1 in
  let f := fun x : Q => Some (g x) in
  (forall x, f x = Some (g x)) /\ 0 < 4 /\ g 0 * g 4 < 0 /\
  (4 - 0) / 2 < 0.5 * pow2 3 /\ (3 < 100)%nat /\
  certified g 0.5 0 4 (brentq_rootfind f 0 4 0.5 100).
Proof.
  intros g f.
  assert (H1 : forall x, f x = Some (g x)) by reflexivity.
  assert (H2 : 0 < 4) by reflexivity.
  assert (H3 : g 0 * g 4 < 0) by reflexivity.
  assert (H4 : (4 - 0) / 2 < 0.5 * pow2 3) by reflexivity.
  assert (H5 : (3 < 100)%nat) by lia.
  split_and!; [exact H1 | exact H2 | exact H3 | exact H4 | exact H5 |].
  exact (proj1 (brentq_rootfind_converges f g 0 4 0.5 100 3 H1 H2 H3 H4 H5)).
Defined.

(** *** The sampling loop on an increasing function *)

Lemma gaps_le_ge step p xs :
  gaps_le step (Some p) xs -> Forall (Qle p) xs.
Proof.
  revert p. induction xs as [|x xs IH]; intros p H; [constructor|].
  destruct H as [[Hpx _] H]. constructor; [done|].
  eapply Forall_impl; [by apply IH|]. intros y Hy. change (x <= y) in Hy. change (p <= y). lra.
Qed.

Section RoundTrip.
Context (g : Q -> Q) (Hg : increasing g) (v lo hi step : Q).

(** after a sample equal to [v]: nothing changes any more *)
Lemma after_hit xs lx lf bx ba :
  0 <= lf -> ba <= 0 -> Forall (Qle v) xs ->
  sample_loop (fun x => Some (g x)) (g v) lo hi xs (Some (lx, lf)) (Some (bx, ba)) = bx.
Proof.
  revert lx lf. induction xs as [|x xs IH]; intros lx lf Hlf Hba Hxs; [done|].
  apply Forall_cons in Hxs as [Hx Hxs]. cbn [sample_loop].
  assert (Hf : 0 <= g x - g v).
  { pose proof (increasing_le g v x Hg Hx). lra. }
  assert (Hb : Qltb (Qabs (g x - g v)) ba = false).
  { apply Qltb_ge. pose proof (Qabs_nonneg (g x - g v)). lra. }
  rewrite Hb.
  assert (Hs : Qltb ((g x - g v) * lf) 0 = false).
  { apply Qltb_ge. by apply Qmult_le_0_compat. }
  rewrite Hs. by apply IH.
Qed.

Lemma before_hit xs last best :
  0 <= step ->
  match last with
  | Some (lx, lf) => lo <= lx /\ lx < v /\ lf < 0
  | None => match xs with x :: _ => x <= v | [] => False end
  end ->
  match best with Some (_, ba) => 0 < ba | None => True end ->
  gaps_le step (fst <$> last) xs ->
  Forall (fun x => lo <= x /\ x <= hi) xs ->
  Exists (Qle v) xs ->
  located (fun x => Some (g x)) (g v) v lo hi step
    (sample_loop (fun x => Some (g x)) (g v) lo hi xs last best).
Proof.
  intros Hstep. revert last best.
  induction xs as [|x xs IH]; intros last best Hlast Hbest Hgap Hrange Hex;
    [by inv Hex|].
  apply Forall_cons in Hrange as [Hx Hrange].
  destruct Hgap as [Hgx Hgap]. cbn [sample_loop].
  set (f := g x - g v).
  destruct (Qlt_le_dec x v) as [Hlt|Hge].
  - (* still below [v] *)
    assert (Hf : f < 0).
    { unfold f. pose proof (proj1 (Hg x v) Hlt). lra. }
    assert (Hex' : Exists (Qle v) xs).
    { apply Exists_cons in Hex as [Hv|]; [lra|done]. }
    assert (Haf : 0 < Qabs f).
    { rewrite Qabs_neg by lra. lra. }
    set (best' := match best with
                  | Some (_, best_abs) =>
                      if Qltb (Qabs f) best_abs then Some (x, Qabs f) else best
                  | None => Some (x, Qabs f)
                  end).
    assert (Hbest' : match best' with Some (_, ba) => 0 < ba | None => True end).
    { unfold best'. destruct best as [[bx ba]|]; [|done].
      destruct (Qltb _ _); done. }
    destruct last as [[lx lf]|].
    + destruct Hlast as (Hlo & Hlx & Hlf).
      assert (Hs : Qltb (f * lf) 0 = false).
      { apply Qltb_ge. nra. }
      rewrite Hs. apply IH; try done. split_and!; [apply Hx|done..].
    + apply IH; try done. split_and!; [apply Hx|done..].
  - apply Qle_lteq in Hge as [Hgt|He].
    + (* the first sample above [v] *)
      assert (Hf : 0 < f).
      { unfold f. pose proof (proj1 (Hg v x) Hgt). lra. }
      destruct last as [[lx lf]|]; [|cbn in Hlast; lra].
      destruct Hlast as (Hlo & Hlx & Hlf). cbn [fmap option_fmap option_map fst] in Hgx.
      assert (Hs : Qltb (f * lf) 0 = true).
      { apply Qltb_lt. nra. }
      rewrite Hs. right. exists lx, x.
      split_and!; [done|done|done|apply Hx|apply Hgx|done].
    + (* a sample equal to [v] *)
      assert (Hf : f == 0).
      { unfold f. pose proof (proj2 (Hg v x) He) as E. rewrite E. ring. }
      clearbody f.
      assert (Haf : Qabs f == 0).
      { rewrite Hf. reflexivity. }
      assert (Hb : match best with
                   | Some (_, best_abs) =>
                       if Qltb (Qabs f) best_abs then Some (x, Qabs f) else best
                   | None => Some (x, Qabs f)
                   end = Some (x, Qabs f)).
      { destruct best as [[bx ba]|]; [|done].
        change (0 < ba) in Hbest.
        assert (Hlt : Qltb (Qabs f) ba = true). { apply Qltb_lt. rewrite Haf. exact Hbest. }
        by rewrite Hlt. }
      rewrite Hb.
      assert (Hxs : Forall (Qle v) xs).
      { apply gaps_le_ge in Hgap. eapply Forall_impl; [exact Hgap|].
        intros y Hy. change (x <= y) in Hy. lra. }
      assert (Hafter : forall lf, 0 <= lf ->
                sample_loop (fun x => Some (g x)) (g v) lo hi xs
                  (Some (x, lf)) (Some (x, Qabs f)) = x).
      { intros lf Hlf. apply after_hit; [done|lra|done]. }
      assert (Hres : located (fun x => Some (g x)) (g v) v lo hi step x).
      { left. split_and!; [by symmetry|apply Hx..]. }
      destruct last as [[lx lf]|].
      * assert (Hs : Qltb (f * lf) 0 = false).
        { apply Qltb_ge. rewrite Hf. lra. }
        rewrite Hs, Hafter; [done|lra].
      * rewrite Hafter; [done|lra].
Qed.

End RoundTrip.

(** *** The grid of [linspace] *)

Lemma gaps_grid (f : nat -> Q) step hi k a prev :
  (forall i, f i <= f (S i) /\ f (S i) - f i <= step) ->
  hi == f (a + k)%nat ->
  match prev with Some p => p == f (a - 1)%nat /\ (0 < a)%nat | None => True end ->
  gaps_le step prev (map f (seq a k) ++ [hi]).
Proof.
  intros Hf. revert a prev. induction k as [|k IH]; intros a prev Hhi Hprev.
  - cbn. split; [|done]. destruct prev as [p|]; [|done].
    destruct Hprev as [Hp Ha]. rewrite Nat.add_0_r in Hhi.
    replace a with (S (a - 1)) in Hhi by lia.
    destruct (Hf (a - 1)%nat). rewrite Hhi, Hp. done.
  - cbn [seq map app gaps_le]. split.
    + destruct prev as [p|]; [|done]. destruct Hprev as [Hp Ha].
      destruct (Hf (a - 1)%nat) as [H1 H2].
      replace (S (a - 1)) with a in * by lia. rewrite Hp. done.
    + apply IH.
      * by replace (S a + k)%nat with (a + S k)%nat by lia.
      * split; [|lia]. replace (S a - 1)%nat with a by lia. reflexivity.
Qed.

Lemma linspace_gaps lo hi n :
  lo <= hi ->
  gaps_le ((hi - lo) / inject_Z (Z.of_nat (S n))) None (linspace lo hi (S (S n))).
Proof.
  intros Hle. unfold linspace.
  change (1 <? S (S n))%nat with true. cbv iota.
  rewrite removelast_map_seq.
  change (0 <? S (S n) - 1)%nat with true. cbv iota.
  replace (S (S n) - 1)%nat with (S n) by lia.
  set (d := inject_Z (Z.of_nat (S n))).
  assert (Hd : 0 < d).
  { unfold d. change 0 with (inject_Z 0). rewrite <- Zlt_Qlt. lia. }
  set (step := (hi - lo) / d).
  assert (Hstep : 0 <= step).
  { unfold step. apply Qle_shift_div_l; [done|]. lra. }
  apply gaps_grid; [| |done].
  - intros i. rewrite Nat2Z.inj_succ. unfold Z.succ. rewrite inject_Z_plus.
    change (inject_Z 1) with 1. split; lra.
  - cbn [Nat.add]. fold d.
    assert (Hfull : d * step == hi - lo).
    { unfold step. apply Qmult_div_r. intros E. rewrite E in Hd.
      by apply Qlt_irrefl in Hd. }
    lra.
Qed.

Lemma linspace_head lo hi n :
  exists x xs, linspace lo hi (S (S n)) = x :: xs /\ x == lo.
Proof.
  unfold linspace. change (1 <? S (S n))%nat with true. cbv iota.
  rewrite removelast_map_seq. cbn [seq map app]. eexists _, _. split; [done|].
  change (inject_Z (Z.of_nat 0)) with 0. lra.
Qed.

Lemma linspace_last lo hi n : hi ∈ linspace lo hi (S (S n)).
Proof.
  unfold linspace. change (1 <? S (S n))%nat with true. cbv iota.
  apply elem_of_app. right. by left.
Qed.

(** *** The round trip *)

Lemma invert_located (g : Q -> Q) (v lo hi : Q) (samples : nat) :
  increasing g -> lo <= v -> v <= hi -> (2 <= samples)%nat ->
  located (fun x => Some (g x)) (g v) v lo hi
    ((hi - lo) / inject_Z (Z.of_nat (samples - 1)))
    (invert_zscore_function (fun x => Some (g x)) (g v) lo hi samples).
Proof.
  intros Hg Hlo Hhi Hn. destruct samples as [|[|n]]; [lia..|].
  replace (S (S n) - 1)%nat with (S n) by lia.
  unfold invert_zscore_function.
  assert (Hle : lo <= hi) by lra.
  pose proof (linspace_gaps lo hi n Hle) as Hgap.
  pose proof (linspace_between lo hi (S (S n)) Hle) as Hrange.
  pose proof (linspace_last lo hi n) as Hlast.
  destruct (linspace_head lo hi n) as (x & xs & Hx & Hx0).
  rewrite Hx in *.
  apply before_hit; try done.
  - set (d := inject_Z (Z.of_nat (S n))).
    assert (Hd : 0 < d).
    { unfold d. change 0 with (inject_Z 0). rewrite <- Zlt_Qlt. lia. }
    apply Qle_shift_div_l; [done|]. lra.
  - lra.
  - apply Exists_exists. exists hi. done.
Qed.

(** X8.  Round trip of the inversion.  For an increasing z-score
    function [g] that has a value everywhere, a value [v] between the
    bounds and at least two samples, inverting the target [g v] returns
    a point no farther from [v] than one step of the sampling grid,
    [(hi - lo) / (samples - 1)]. *)
Theorem invert_round_trip (g : Q -> Q) (v lo hi : Q) (samples : nat) :
  increasing g -> lo <= v -> v <= hi -> (2 <= samples)%nat ->
  Qabs (invert_zscore_function (fun x => Some (g x)) (g v) lo hi samples - v)
  <= (hi - lo) / inject_Z (Z.of_nat (samples - 1)).
Proof.
  intros Hg Hlo Hhi Hn.
  pose proof (invert_located g v lo hi samples Hg Hlo Hhi Hn) as Hloc.
  set (step := (hi - lo) / inject_Z (Z.of_nat (samples - 1))) in *.
  assert (Hstep : 0 <= step).
  { unfold step. apply Qle_shift_div_l; [|lra].
    change 0 with (inject_Z 0). rewrite <- Zlt_Qlt. lia. }
  destruct Hloc as [(He & _)|(a & b & Ha & Hav & Hvb & Hb & Hgapab & ->)].
  - apply Qabs_le_iff. split; lra.
  - pose proof (brentq_rootfind_between (residual (fun x => Some (g x)) (g v))
                  a b 1e-5 default_maxiter a b) as Hbt.
    unfold between in Hbt. destruct Hbt as [Hb1 Hb2]; [split; lra..|].
    apply Qabs_le_iff. split; lra.
Qed.

Lemma invert_round_trip_witness :
  let g := fun x : Q => 2 * x + 1 in
  increasing g /\ 0 <= 3 /\ 3 <= 10 /\ (2 <= 3)%nat /\
  Qabs (invert_zscore_function (fun x => Some (g x)) (g 3) 0 10 3 - 3)
  <= (10 - 0) / inject_Z (Z.of_nat (3 - 1)).
Proof.
  intros g.
  assert (H1 : increasing g) by (intros x y; unfold g; split; intros; lra).
  assert (H2 : 0 <= 3) by (vm_compute; discriminate).
  assert (H3 : 3 <= 10) by (vm_compute; discriminate).
  assert (H4 : (2 <= 3)%nat) by lia.
  split_and!; [exact H1 | exact H2 | exact H3 | exact H4 |].
  exact (invert_round_trip g 3 0 10 3 H1 H2 H3 H4).
Defined.

Lemma or_zero_Some z : or_zero (Some z) == z.
Proof.
  unfold or_zero. destruct (Qeq_bool z 0) eqn:E; [|reflexivity].
  apply Qeq_bool_iff in E. by symmetry.
Qed.

(** X9.  Round trip within the tolerances.  Under the same conditions,
    and when 99 halvings bring half a grid step below [1e-5] (the 100
    iterations of the default are then enough), the inversion of [g v]
    returns [v] itself, or a point whose z-score differs from the target
    by less than [1e-10], or a point within [1e-5] of [v]. *)
Theorem invert_round_trip_tolerance (g : Q -> Q) (v lo hi : Q) (samples : nat) :
  increasing g -> lo <= v -> v <= hi -> (2 <= samples)%nat ->
  (hi - lo) / inject_Z (Z.of_nat (samples - 1)) / 2 < 1e-5 * pow2 99 ->
  let r := invert_zscore_function (fun x => Some (g x)) (g v) lo hi samples in
  r == v \/ Qabs (g r - g v) < 1e-10 \/ Qabs (r - v) < 1e-5.
Proof.
  intros Hg Hlo Hhi Hn Hw r.
  pose proof (invert_located g v lo hi samples Hg Hlo Hhi Hn) as Hloc.
  fold r in Hloc.
  destruct Hloc as [(He & _)|(a & b & Ha & Hav & Hvb & Hb & Hgap & Hr)]; [by left|right].
  set (g' := fun t => or_zero (Some (g t)) - g v).
  assert (Hg' : increasing g').
  { intros x y. unfold g'. rewrite !or_zero_Some. destruct (Hg x y) as [H1 H2].
    split; intros H; [apply H1 in H|apply H2 in H]; lra. }
  assert (Hv' : g' v == 0) by (unfold g'; rewrite or_zero_Some; ring).
  assert (Hga : g' a < 0).
  { unfold g'. rewrite or_zero_Some. pose proof (proj1 (Hg a v) Hav). lra. }
  assert (Hgb : 0 < g' b).
  { unfold g'. rewrite or_zero_Some. pose proof (proj1 (Hg v b) Hvb). lra. }
  assert (Hc : certified g' 1e-5 a b r).
  { rewrite Hr. apply (brentq_rootfind_certified _ g' a b 1e-5 default_maxiter 99).
    - done.
    - lra.
    - nra.
    - unfold Qdiv in *. change (/ 2) with (1 # 2) in *. lra.
    - unfold default_maxiter. lia. }
  destruct (certified_near_root g' 1e-5 a b r v Hg' Hv' Hc) as [H|H]; [left|by right].
  unfold g' in H. by rewrite or_zero_Some in H.
Qed.

Lemma invert_round_trip_tolerance_witness :
  let g := fun x : Q => 2 * x + 1 in
  increasing g /\ 0 <= 3 /\ 3 <= 10 /\ (2 <= 3)%nat /\
  (10 - 0) / inject_Z (Z.of_nat (3 - 1)) / 2 < 1e-5 * pow2 99 /\
  let r := invert_zscore_function (fun x => Some (g x)) (g 3) 0 10 3 in
  r == 3 \/ Qabs (g r - g 3) < 1e-10 \/ Qabs (r - 3) < 1e-5.
Proof.
  intros g.
  assert (H1 : increasing g) by (intros x y; unfold g; split; intros; lra).
  assert (H2 : 0 <= 3) by (vm_compute; discriminate).
  assert (H3 : 3 <= 10) by (vm_compute; discriminate).
  assert (H4 : (2 <= 3)%nat) by lia.
  assert (H5 : (10 - 0) / inject_Z (Z.of_nat (3 - 1)) / 2 < 1e-5 * pow2 99)
    by (vm_compute; reflexivity).
  split_and!; [exact H1 | exact H2 | exact H3 | exact H4 | exact H5 |].
  exact (invert_round_trip_tolerance g 3 0 10 3 H1 H2 H3 H4 H5).
Defined.

End InversionFacts.

(** ** The curves of the charts *)

Module CurveFacts.
Import PyFloat WhoCalculator GrowthCharts GrowthChartsSpec QFacts GrowthChartsFacts.
Import InversionFacts.

Lemma arange_elem start stop step x :
  0 < step -> x ∈ arange start stop step -> start <= x /\ x < stop.
Proof.
  intros Hstep Hx. unfold arange in Hx.
  apply list_elem_of_In, in_map_iff in Hx. destruct Hx as (i & <- & Hi).
  apply in_seq in Hi. destruct Hi as [_ Hi]. cbn in Hi.
  set (t := (stop - start) / step) in *.
  assert (Hi0 : 0 <= inject_Z (Z.of_nat i)) by apply inject_nat_nonneg.
  assert (Hpos : 0 <= inject_Z (Z.of_nat i) * step) by (apply Qmult_le_0_compat; lra).
  split; [lra|].
  assert (Hc : (Z.of_nat i <= Qceiling t - 1)%Z) by lia.
  pose proof (Qceiling_lt t) as Hlt.
  rewrite Zle_Qle in Hc.
  assert (Hit : inject_Z (Z.of_nat i) < t) by lra.
  assert (Hts : t * step == stop - start).
  { unfold t. field. intros E. rewrite E in Hstep. by apply Qlt_irrefl in Hstep. }
  assert (inject_Z (Z.of_nat i) * step < t * step).
  { apply Qmult_lt_compat_r; done. }
  clearbody t. lra.
Qed.

(** the grid reaches [stop - step]: some grid point is at or beyond it *)
Lemma arange_reaches start stop step :
  0 < step -> start <= stop - step ->
  exists x, x ∈ arange start stop step /\ stop - step <= x.
Proof.
  intros Hstep Hle. unfold arange.
  set (t := (stop - start) / step).
  assert (Hts : t * step == stop - start).
  { unfold t. field. intros E. rewrite E in Hstep. by apply Qlt_irrefl in Hstep. }
  assert (Ht1 : 1 <= t).
  { unfold t. apply Qle_shift_div_l; [done|]. lra. }
  pose proof (Qle_ceiling t) as Hc.
  assert (Hn : (1 <= Qceiling t)%Z).
  { rewrite Zle_Qle. change (inject_Z 1) with 1. lra. }
  exists (start + inject_Z (Z.of_nat (Z.to_nat (Qceiling t) - 1)) * step). split.
  - apply list_elem_of_In, in_map_iff. eexists. split; [reflexivity|].
    apply in_seq. lia.
  - replace (Z.of_nat (Z.to_nat (Qceiling t) - 1)) with (Qceiling t - 1)%Z by lia.
    unfold Z.sub. rewrite inject_Z_plus. change (inject_Z (- (1))) with (-1).
    assert ((t - 1) * step <= (inject_Z (Qceiling t) + -1) * step).
    { apply Qmult_le_compat_r; lra. }
    clearbody t. lra.
Qed.

Lemma AGE_GRID_length : length AGE_GRID = 241%nat.
Proof. vm_compute. reflexivity. Qed.

Lemma AGE_GRID_range : Forall (between 0 60) AGE_GRID.
Proof.
  apply Forall_forall. intros x Hx. unfold AGE_GRID, arange in Hx.
  apply list_elem_of_In, in_map_iff in Hx. destruct Hx as (i & <- & Hi).
  apply in_seq in Hi.
  assert (Hn : Z.to_nat (Qceiling ((60.25 - 0.0) / 0.25)) = 241%nat) by (vm_compute; reflexivity).
  rewrite Hn in Hi. pose proof (inject_nat_nonneg i) as H0.
  assert (H1 : inject_Z (Z.of_nat i) <= 240).
  { change 240 with (inject_Z 240). rewrite <- Zle_Qle. lia. }
  unfold between. split; lra.
Qed.

Lemma map_between {A} (f : A -> Q) lo hi (l : list A) :
  (forall x, between lo hi (f x)) -> Forall (between lo hi) (map f l).
Proof. intros Hf. induction l; constructor; done. Qed.

(** X10.  The three curves over age.  The age grid has 241 points, all
    between 0 and 60 months.  Each of the weight, height and head
    circumference curves has one value per grid point: all zeros when
    there is no calculator; otherwise, when the bounds of its measure
    are in [BOUNDS], values that all lie between those bounds, whatever
    the calculator answers or fails to answer; and a [KeyError] exactly
    when there is a calculator and the bounds are missing. *)
Theorem age_curves (BOUNDS : gmap string (Q * Q)) (calc : option Calculator)
    (sex : string) (z_score : Q) :
  age_curve BOUNDS calc "wfa" (generate_wfa_curve BOUNDS calc sex z_score) /\
  age_curve BOUNDS calc "hfa" (generate_hfa_curve BOUNDS calc sex z_score) /\
  age_curve BOUNDS calc "hcfa" (generate_hcfa_curve BOUNDS calc sex z_score) /\
  length AGE_GRID = 241%nat /\ Forall (between 0 60) AGE_GRID.
Proof.
  split_and!; [..|apply AGE_GRID_length|apply AGE_GRID_range].
  - unfold generate_wfa_curve, age_curve. destruct calc as [c|].
    + destruct (BOUNDS !! "wfa") as [[lo hi]|]; [|done].
      split_and!; [done|by rewrite length_map|].
      exists lo, hi. split; [done|]. intros Hle. apply map_between.
      intros age. by apply invert_between.
    + split_and!; [done|unfold zeros_like; by rewrite length_map|done].
  - unfold generate_hfa_curve, age_curve. destruct calc as [c|].
    + destruct (BOUNDS !! "hfa") as [[lo hi]|]; [|done].
      split_and!; [done|by rewrite length_map|].
      exists lo, hi. split; [done|]. intros Hle. apply map_between.
      intros age. by apply invert_between.
    + split_and!; [done|unfold zeros_like; by rewrite length_map|done].
  - unfold generate_hcfa_curve, age_curve. destruct calc as [c|].
    + destruct (BOUNDS !! "hcfa") as [[lo hi]|]; [|done].
      split_and!; [done|by rewrite length_map|].
      exists lo, hi. split; [done|]. intros Hle. apply map_between.
      intros age. by apply invert_between.
    + split_and!; [done|unfold zeros_like; by rewrite length_map|done].
Qed.

(** X11.  The weight-for-length curve.  Its grid runs from the lower
    length bound in steps of 0.5 and stays below the upper bound plus
    0.5, which it reaches or passes when the bounds are in order; the
    curve has one value per grid point, zeros without a calculator and
    values between the weight bounds with one.  The length bounds are
    read before the calculator is looked at, so their absence is a
    [KeyError] even without a calculator; the absence of the weight
    bounds is one only with a calculator. *)
Theorem wfl_curve (BOUNDS : gmap string (Q * Q)) (calc : option Calculator)
    (sex : string) (age_months z_score : Q) :
  match generate_wfl_curve BOUNDS calc sex age_months z_score with
  | Curve grid values =>
      exists lo_l hi_l, BOUNDS !! "wfl_l" = Some (lo_l, hi_l) /\
        grid = arange lo_l (hi_l + 0.5) 0.5 /\
        length values = length grid /\
        Forall (fun x => lo_l <= x /\ x < hi_l + 0.5) grid /\
        (lo_l <= hi_l -> exists x, x ∈ grid /\ hi_l <= x) /\
        match calc with
        | None => values = zeros_like grid
        | Some _ =>
            exists lo_w hi_w, BOUNDS !! "wfl_w" = Some (lo_w, hi_w) /\
              (lo_w <= hi_w -> Forall (between lo_w hi_w) values)
        end
  | KeyError =>
      BOUNDS !! "wfl_l" = None \/ (calc <> None /\ BOUNDS !! "wfl_w" = None)
  end.
Proof.
  unfold generate_wfl_curve.
  destruct (BOUNDS !! "wfl_l") as [[lo_l hi_l]|]; [|by left]. cbn [fst snd].
  assert (Hgrid : Forall (fun x => lo_l <= x /\ x < hi_l + 0.5)
                    (arange lo_l (hi_l + 0.5) 0.5)).
  { apply Forall_forall. intros x Hx. by apply arange_elem in Hx. }
  assert (Hreach : lo_l <= hi_l ->
            exists x, x ∈ arange lo_l (hi_l + 0.5) 0.5 /\ hi_l <= x).
  { intros Hle. destruct (arange_reaches lo_l (hi_l + 0.5) 0.5) as (x & Hx & Hxl);
      [done|lra|]. exists x. split; [done|lra]. }
  destruct calc as [c|].
  - destruct (BOUNDS !! "wfl_w") as [[lo_w hi_w]|]; [|by right].
    exists lo_l, hi_l. split_and!; [done|done|by rewrite length_map|done|done|].
    exists lo_w, hi_w. split; [done|]. intros Hle. apply map_between.
    intros l. by apply invert_between.
  - exists lo_l, hi_l.
    split_and!; [done|done|unfold zeros_like; by rewrite length_map|done|done|done].
Qed.

End CurveFacts.

(** ** The normal ranges *)

Module NormalRangesFacts.
Import PyFloat WhoCalculator GrowthCharts GrowthChartsSpec NormalRanges.
Import NormalRangesSpec QFacts GrowthChartsFacts RoundFacts InversionFacts.

Lemma round_between lo hi x n :
  between lo hi x ->
  KejarTumbuh.round lo n <= KejarTumbuh.round x n /\
  KejarTumbuh.round x n <= KejarTumbuh.round hi n.
Proof. intros [??]. split; by apply round_mono. Qed.

Ltac lookup_range :=
  repeat first [ rewrite lookup_insert_eq
               | rewrite lookup_insert_ne by done
               | rewrite lookup_empty ].

Ltac entry_ok :=
  split_and!; [done | done |];
  eexists _, _; split; [done |];
  intros Hle; unfold within_rounded; cbn [min_normal median max_normal];
  repeat (constructor; [by apply round_between, invert_between |]);
  constructor.

(** X12.  [get_normal_ranges] answers under no other key than weight,
    height and head_circ.  Each entry is there only with a calculator
    and the bounds of its measure; it carries its unit (kg for weight,
    cm for the other two), and its three values lie between the rounded
    bounds (2 decimals for weight, 1 for the other two).  Without a
    calculator the dict is empty. *)
Theorem normal_ranges_entries (BOUNDS : gmap string (Q * Q))
    (calc : option Calculator) (sex : string) (age_months : Q) :
  let r := get_normal_ranges BOUNDS calc sex age_months in
  dom r ⊆ {[ "weight"; "height"; "head_circ" ]} /\
  range_entry BOUNDS calc "wfa" "kg" 2 (r !! "weight") /\
  range_entry BOUNDS calc "hfa" "cm" 1 (r !! "height") /\
  range_entry BOUNDS calc "hcfa" "cm" 1 (r !! "head_circ").
Proof.
  intros r. subst r. unfold get_normal_ranges, range_entry.
  destruct calc as [c|].
  2: { rewrite dom_empty_L, !lookup_empty. split_and!; [set_solver|by left..]. }
  split_and!.
  - destruct (BOUNDS !! "wfa") as [[lo1 hi1]|];
    destruct (BOUNDS !! "hfa") as [[lo2 hi2]|];
    destruct (BOUNDS !! "hcfa") as [[lo3 hi3]|];
      rewrite ?dom_insert_L, ?dom_empty_L; set_solver.
  - destruct (BOUNDS !! "wfa") as [[lo1 hi1]|] eqn:E1;
    destruct (BOUNDS !! "hfa") as [[lo2 hi2]|];
    destruct (BOUNDS !! "hcfa") as [[lo3 hi3]|];
      lookup_range; first [by right | entry_ok].
  - destruct (BOUNDS !! "wfa") as [[lo1 hi1]|];
    destruct (BOUNDS !! "hfa") as [[lo2 hi2]|] eqn:E2;
    destruct (BOUNDS !! "hcfa") as [[lo3 hi3]|];
      lookup_range; first [by right | entry_ok].
  - destruct (BOUNDS !! "wfa") as [[lo1 hi1]|];
    destruct (BOUNDS !! "hfa") as [[lo2 hi2]|];
    destruct (BOUNDS !! "hcfa") as [[lo3 hi3]|] eqn:E3;
      lookup_range; first [by right | entry_ok].
Qed.

End NormalRangesFacts.

(** ** Reference velocities and the grading of one velocity *)

Module VelocityFacts.
Import PyFloat KejarTumbuh KejarTumbuhSpec QFacts KejarTumbuhFacts RoundFacts.

Ltac ref_cases age :=
  unfold get_velocity_reference;
  destruct (Qltb_spec age 3); [|destruct (Qltb_spec age 6);
    [|destruct (Qltb_spec age 9); [|destruct (Qltb_spec age 12);
      [|destruct (Qltb_spec age 24)]]]].

Lemma reference_from_table age sex :
  let r := get_velocity_reference age sex in
  let sex_key := if starts_with_M_or_L sex then "male" else "female" in
  GROWTH_VELOCITY_REFERENCE !! age_range r ≫= lookup ("weight_" +:+ sex_key)
    = Some (weight_range r) /\
  GROWTH_VELOCITY_REFERENCE !! age_range r ≫= lookup ("height_" +:+ sex_key)
    = Some (height_range r).
Proof.
  ref_cases age; destruct (starts_with_M_or_L sex); split; vm_compute; reflexivity.
Qed.

Lemma reference_well_formed age sex :
  well_formed (weight_range (get_velocity_reference age sex)) /\
  well_formed (height_range (get_velocity_reference age sex)).
Proof.
  ref_cases age; destruct (starts_with_M_or_L sex); vm_compute; done.
Qed.

Lemma reference_band age sex :
  let k := age_range (get_velocity_reference age sex) in
  (k = "0_3" <-> age < 3) /\ (k = "3_6" <-> 3 <= age /\ age < 6) /\
  (k = "6_9" <-> 6 <= age /\ age < 9) /\ (k = "9_12" <-> 9 <= age /\ age < 12) /\
  (k = "12_24" <-> 12 <= age /\ age < 24) /\ (k = "24_60" <-> 24 <= age).
Proof.
  ref_cases age; cbn [age_range]; repeat split; intros; try discriminate; try lra;
    try (exfalso; lra).
Qed.

Lemma reference_decreasing age age' sex :
  age <= age' ->
  range_le (weight_range (get_velocity_reference age' sex))
           (weight_range (get_velocity_reference age sex)) /\
  range_le (height_range (get_velocity_reference age' sex))
           (height_range (get_velocity_reference age sex)).
Proof.
  intros Hle. ref_cases age; ref_cases age'; try (exfalso; lra);
    destruct (starts_with_M_or_L sex); vm_compute; done.
Qed.

(** X13.  The reference of an age and a sex.  The band is chosen by the
    cuts 3, 6, 9, 12 and 24 months, each cut belonging to the older
    band, and ages below 0 or above 60 fall in the first and the last
    band.  Both ranges are read from the table under that band and the
    normalised sex, so neither default of the two lookups is ever used;
    both have [0 < min < max]; and an older child never has a larger
    minimum or maximum than a younger one of the same sex. *)
Theorem velocity_reference_table (age age' : Q) (sex : string) :
  let r := get_velocity_reference age sex in
  let sex_key := if starts_with_M_or_L sex then "male" else "female" in
  let k := age_range r in
  ((k = "0_3" <-> age < 3) /\ (k = "3_6" <-> 3 <= age /\ age < 6) /\
   (k = "6_9" <-> 6 <= age /\ age < 9) /\ (k = "9_12" <-> 9 <= age /\ age < 12) /\
   (k = "12_24" <-> 12 <= age /\ age < 24) /\ (k = "24_60" <-> 24 <= age)) /\
  (GROWTH_VELOCITY_REFERENCE !! k ≫= lookup ("weight_" +:+ sex_key)
     = Some (weight_range r) /\
   GROWTH_VELOCITY_REFERENCE !! k ≫= lookup ("height_" +:+ sex_key)
     = Some (height_range r)) /\
  well_formed (weight_range r) /\ well_formed (height_range r) /\
  (age <= age' ->
   range_le (weight_range (get_velocity_reference age' sex)) (weight_range r) /\
   range_le (height_range (get_velocity_reference age' sex)) (height_range r)).
Proof.
  intros r sex_key k. subst r sex_key k.
  split; [apply reference_band|].
  split; [apply reference_from_table|].
  split; [apply reference_well_formed|].
  split; [apply reference_well_formed|].
  apply reference_decreasing.
Qed.

(** X14.  The grade of a velocity against a range with
    [0 < min < max]: critical below 0; warning from 0 to below half the
    minimum; attention from half the minimum to below the minimum;
    normal from the minimum to the maximum, both included; good above
    the maximum. *)
Theorem evaluate_velocity_grades (v : Q) (r : Q * Q) (t : string) :
  well_formed r ->
  let sev := severity (evaluate_velocity v r t) in
  (sev = "critical" <-> v < 0) /\
  (sev = "warning" <-> 0 <= v /\ v < r.1 * 0.5) /\
  (sev = "attention" <-> r.1 * 0.5 <= v /\ v < r.1) /\
  (sev = "normal" <-> r.1 <= v /\ v <= r.2) /\
  (sev = "good" <-> r.2 < v).
Proof.
  destruct r as [mn mx]. unfold well_formed. intros [H0 Hlt].
  cbn [fst snd] in *. cbv zeta. unfold evaluate_velocity.
  qcases; cbn [severity]; repeat split; intros; try discriminate; try reflexivity;
    try lra; exfalso; lra.
Qed.

Lemma evaluate_velocity_grades_witness :
  well_formed (0.5, 0.9) /\
  (severity (evaluate_velocity 0.25 (0.5, 0.9) "berat badan") = "attention"
   <-> (0.5, 0.9).1 * 0.5 <= 0.25 /\ 0.25 < (0.5, 0.9).1).
Proof.
  assert (H : well_formed (0.5, 0.9)) by (vm_compute; done).
  split; [exact H|].
  exact (proj1 (proj2 (proj2 (evaluate_velocity_grades 0.25 (0.5, 0.9) "berat badan" H)))).
Defined.

(** X15.  Against a fixed range, a larger velocity never gets a worse
    grade, in the order critical, warning, attention, normal, good. *)
Theorem evaluate_velocity_monotone (v v' : Q) (r : Q * Q) (t : string) :
  v <= v' ->
  (rank (severity (evaluate_velocity v r t))
   <= rank (severity (evaluate_velocity v' r t)))%nat.
Proof.
  intros Hv. destruct r as [mn mx]. unfold evaluate_velocity.
  qcases; cbn [severity]; try (cbv; lia); exfalso; lra.
Qed.

Lemma evaluate_velocity_monotone_witness :
  let v := 0.1 in
  let v' := 0.6 in
  let r := (0.5, 0.9) in
  v <= v' /\
  (rank (severity (evaluate_velocity v r "berat badan"))
   <= rank (severity (evaluate_velocity v' r "berat badan")))%nat.
Proof.
  intros v v' r.
  assert (H : v <= v') by (vm_compute; discriminate).
  split; [exact H|].
  exact (evaluate_velocity_monotone v v' r "berat badan" H).
Defined.

(** X16.  What an interval returned by [calculate_velocity] says.  The
    second age is above the first and the middle age lies strictly
    between them; each rounded field is within half a unit of its last
    digit of the exact value (months and height change to 0.05, weight
    change and height velocity to 0.005, weight velocity to 0.0005); a
    measure that did not fall has a velocity and a change that are not
    negative, and a negative velocity means the measure fell. *)
Theorem calculate_velocity_accuracy (d1 d2 : measurement) (r : velocity) :
  calculate_velocity d1 d2 = Some r ->
  let dt := usia_bulan d2 - usia_bulan d1 in
  0 < dt /\
  (usia_bulan d1 < mid_age r /\ mid_age r < usia_bulan d2) /\
  Qabs (delta_months r - dt) <= 0.05 /\
  Qabs (delta_bb r - (bb d2 - bb d1)) <= 0.005 /\
  Qabs (delta_tb r - (tb d2 - tb d1)) <= 0.05 /\
  Qabs (velocity_bb r - (bb d2 - bb d1) / dt) <= 0.0005 /\
  Qabs (velocity_tb r - (tb d2 - tb d1) / dt) <= 0.005 /\
  (bb d1 <= bb d2 -> 0 <= velocity_bb r /\ 0 <= delta_bb r) /\
  (tb d1 <= tb d2 -> 0 <= velocity_tb r /\ 0 <= delta_tb r) /\
  (velocity_bb r < 0 -> bb d2 < bb d1) /\
  (velocity_tb r < 0 -> tb d2 < tb d1).
Proof.
  intros H dt. subst dt. unfold calculate_velocity in H.
  destruct (Qleb_spec (usia_bulan d2 - usia_bulan d1) 0) as [|Hdt]; [done|].
  apply Qnot_le_lt in Hdt. injection H as <-.
  cbn [mid_age delta_months delta_bb delta_tb velocity_bb velocity_tb].
  assert (Hb : bb d1 <= bb d2 ->
               0 <= round ((bb d2 - bb d1) / (usia_bulan d2 - usia_bulan d1)) 3).
  { intros. apply round_nonneg, Qdiv_nonneg; lra. }
  assert (Ht : tb d1 <= tb d2 ->
               0 <= round ((tb d2 - tb d1) / (usia_bulan d2 - usia_bulan d1)) 2).
  { intros. apply round_nonneg, Qdiv_nonneg; lra. }
  split_and!.
  - done.
  - unfold Qdiv. change (/ 2) with (1 # 2). lra.
  - unfold Qdiv. change (/ 2) with (1 # 2). lra.
  - rewrite <- half_ulp_1. apply round_near.
  - rewrite <- half_ulp_2. apply round_near.
  - rewrite <- half_ulp_1. apply round_near.
  - rewrite <- half_ulp_3. apply round_near.
  - rewrite <- half_ulp_2. apply round_near.
  - intros. split; [auto|]. apply round_nonneg. lra.
  - intros. split; [auto|]. apply round_nonneg. lra.
  - intros Hneg. apply Qnot_le_lt. intros Hle. apply Hb in Hle. lra.
  - intros Hneg. apply Qnot_le_lt. intros Hle. apply Ht in Hle. lra.
Qed.

Lemma calculate_velocity_accuracy_witness :
  let d1 := mk 6 7.5 66 in
  let d2 := mk 10 8.8 72 in
  exists r, calculate_velocity d1 d2 = Some r /\
    Qabs (velocity_bb r - (bb d2 - bb d1) / (usia_bulan d2 - usia_bulan d1))
    <= 0.0005.
Proof.
  intros d1 d2. eexists. split; [vm_compute; reflexivity|].
  refine (proj1 (proj2 (proj2 (proj2 (proj2 (proj2
            (calculate_velocity_accuracy d1 d2 _ _))))))).
  vm_compute; reflexivity.
Defined.

End VelocityFacts.

(** ** The report of the analysis *)

Module ReportFacts.
Import PyFloat KejarTumbuh KejarTumbuhSpec QFacts KejarTumbuhFacts RoundFacts.

(** *** The analysis of sorted data *)

Lemma insert_by_head {A} (key : A -> Q) x l :
  Forall (key_le key x) l -> insert_by key x l = x :: l.
Proof.
  intros Hx. destruct l as [|y l]; [done|]. cbn [insert_by].
  apply Forall_cons in Hx as [Hxy _]. unfold key_le in Hxy.
  apply Qle_bool_iff in Hxy. by rewrite Hxy.
Qed.

Lemma sorted_fixed {A} (key : A -> Q) l :
  StronglySorted (key_le key) l -> sorted key l = l.
Proof.
  induction 1 as [|x l Hl IH Hx]; [done|].
  unfold sorted in *. cbn [foldr]. rewrite IH. by apply insert_by_head.
Qed.

Lemma sorted_idempotent {A} (key : A -> Q) l :
  sorted key (sorted key l) = sorted key l.
Proof. apply sorted_fixed, sorted_StronglySorted. Qed.

(** X17.  The analysis of data and of the same data sorted by age give
    the same result; and the sorted data that a report carries, analysed
    again, give the same report. *)
Theorem analyze_sorted_data (data : list measurement) (gender : string) :
  analyze_growth_velocity (sorted usia_bulan data) gender
  = analyze_growth_velocity data gender /\
  analyze_growth_velocity (report_data (analyze_growth_velocity data gender)) gender
  = match analyze_growth_velocity data gender with
    | Success d vs es s g => Success d vs es s g
    | _ => Failure err_too_few
    end.
Proof.
  assert (H1 : analyze_growth_velocity (sorted usia_bulan data) gender
               = analyze_growth_velocity data gender).
  { unfold analyze_growth_velocity.
    by rewrite sorted_idempotent, sorted_length. }
  split; [done|].
  pose proof (analyze_cases data gender) as Hc.
  destruct (analyze_growth_velocity data gender) as [e|d vs es s g|] eqn:E.
  - done.
  - cbn [report_data]. destruct Hc as (_ & -> & _). by rewrite H1.
  - done.
Qed.

(** *** What a report holds *)

Lemma adjacent_velocities_elem l v :
  v ∈ adjacent_velocities l ->
  exists d1 d2, (d1, d2) ∈ adjacent_pairs l /\ calculate_velocity d1 d2 = Some v.
Proof.
  induction l as [|d1 l IH]; [by inversion 1|]. destruct l as [|d2 l]; [by inversion 1|].
  change (adjacent_velocities (d1 :: d2 :: l)) with
    (match calculate_velocity d1 d2 with
     | Some v => v :: adjacent_velocities (d2 :: l)
     | None => adjacent_velocities (d2 :: l)
     end).
  change (adjacent_pairs (d1 :: d2 :: l)) with
    ((d1, d2) :: adjacent_pairs (d2 :: l)).
  destruct (calculate_velocity d1 d2) as [v0|] eqn:E.
  - intros Hv. apply elem_of_cons in Hv as [->|Hv].
    + exists d1, d2. split; [left|done].
    + destruct (IH Hv) as (a & b & Hab & Hc). exists a, b. split; [by right|done].
  - intros Hv. destruct (IH Hv) as (a & b & Hab & Hc).
    exists a, b. split; [by right|done].
Qed.

Lemma adjacent_velocities_bound l :
  (length (adjacent_velocities l) <= length l - 1)%nat.
Proof.
  induction l as [|d1 l IH]; [done|]. destruct l as [|d2 l]; [done|].
  change (adjacent_velocities (d1 :: d2 :: l)) with
    (match calculate_velocity d1 d2 with
     | Some v => v :: adjacent_velocities (d2 :: l)
     | None => adjacent_velocities (d2 :: l)
     end).
  destruct (calculate_velocity d1 d2); cbn [length] in *; lia.
Qed.

Lemma last_sorted_ge {A} (key : A -> Q) x l y :
  StronglySorted (key_le key) (x :: l) -> last (x :: l) = Some y -> key x <= key y.
Proof.
  intros Hs Hl. apply StronglySorted_inv in Hs as [_ Hx].
  destruct l as [|z l].
  - cbn in Hl. injection Hl as <-. lra.
  - rewrite last_cons_cons in Hl. apply last_Some_elem_of in Hl.
    rewrite Forall_forall in Hx. by apply Hx.
Qed.

Lemma analyze_success_inv data gender d vs es s g :
  analyze_growth_velocity data gender = Success d vs es s g ->
  es = map (evaluate_interval gender) vs /\
  overall_status s
  = (if (0 <? count_severity "critical" es)%nat then "critical"
     else if (0 <? count_severity "warning" es)%nat then "warning" else "normal") /\
  exists first final,
    hd_error d = Some first /\ last d = Some final /\
    total_months s = round (usia_bulan final - usia_bulan first) 1 /\
    total_delta_bb s = round (bb final - bb first) 2 /\
    total_delta_tb s = round (tb final - tb first) 1.
Proof.
  unfold analyze_growth_velocity. intros H.
  destruct (length data <? 2)%nat; [done|]. cbv zeta in H.
  match type of H with context [map ?f ?l] =>
    assert (Hes : map f l = map (evaluate_interval gender) l) by reflexivity;
    remember (map f l) as es0 eqn:Hes0 in H, Hes end.
  clear Hes0.
  destruct (adjacent_velocities _) as [|v0 vs0]; [done|].
  destruct (sorted usia_bulan data) as [|first rest]; [done|].
  destruct (last (first :: rest)) as [final|] eqn:El; [|done].
  destruct (0 <? count_severity "critical" es0)%nat eqn:Hc;
    [|destruct (0 <? count_severity "warning" es0)%nat eqn:Hw];
    injection H as <- <- <- <- <-;
    cbn [overall_status total_months total_delta_bb total_delta_tb];
    rewrite ?Hc, ?Hw; (split_and!; [done|done|]); exists first, final; done.
Qed.

(** X18.  What a successful report holds.  Its data are the input
    sorted by age, with nothing lost or added; its evaluations are made
    one per interval, each against the reference at the middle age of
    its interval and for the gender of the call; the totals of the
    summary are the rounded differences between the last and the first
    measurement by age, so the total of months is never negative; and
    the number of periods is at least one and at most the number of
    measurements less one. *)
Theorem report_structure (data : list measurement) (gender : string) d vs es s g :
  analyze_growth_velocity data gender = Success d vs es s g ->
  d ≡ₚ data /\
  StronglySorted (key_le usia_bulan) d /\
  es = map (evaluate_interval gender) vs /\
  (exists first final,
     hd_error d = Some first /\ last d = Some final /\
     usia_bulan first <= usia_bulan final /\
     total_months s = round (usia_bulan final - usia_bulan first) 1 /\
     total_delta_bb s = round (bb final - bb first) 2 /\
     total_delta_tb s = round (tb final - tb first) 1) /\
  0 <= total_months s /\
  total_measurements s = length data /\
  (1 <= total_periods s <= length data - 1)%nat.
Proof.
  intros H. pose proof (analyze_cases data gender) as Hc. rewrite H in Hc.
  destruct Hc as (Hlen & Hd & Hvs & Hne & Hes & Hp & Hm & Hg).
  apply analyze_success_inv in H as (Hev & _ & first & final & Hf & Hl & Htm & Hbb & Htb).
  pose proof (sorted_StronglySorted usia_bulan data) as Hsorted. rewrite <- Hd in Hsorted.
  assert (Hage : usia_bulan first <= usia_bulan final).
  { destruct d as [|x rest]; [done|]. cbn in Hf. injection Hf as ->.
    by eapply last_sorted_ge. }
  split_and!.
  - rewrite Hd. apply sorted_Permutation.
  - done.
  - done.
  - by exists first, final.
  - rewrite Htm. apply round_nonneg. lra.
  - done.
  - rewrite Hp. destruct vs; [done|]. cbn [length]. lia.
  - rewrite Hp, Hvs. pose proof (adjacent_velocities_bound d) as Hb.
    assert (Hl' : length d = length data) by (rewrite Hd; apply sorted_length).
    by rewrite Hl' in Hb.
Qed.

Lemma report_structure_witness :
  let data := [mk 9 8.8 72; mk 6 7.5 66; mk 12 9 76.5] in
  exists d vs es s g,
    analyze_growth_velocity data "Perempuan" = Success d vs es s g /\
    d ≡ₚ data /\ es = map (evaluate_interval "Perempuan") vs /\
    0 <= total_months s.
Proof.
  intros data. do 5 eexists. split; [vm_compute; reflexivity|].
  refine ((fun H => conj (proj1 H)
             (conj (proj1 (proj2 (proj2 H)))
                   (proj1 (proj2 (proj2 (proj2 (proj2 H)))))))
          (report_structure data "Perempuan" _ _ _ _ _ _)).
  vm_compute; reflexivity.
Defined.

(** *** When the report is critical *)

Lemma severity_critical v r t :
  severity (evaluate_velocity v r t) = "critical" <-> v < 0.
Proof.
  destruct r as [mn mx]. unfold evaluate_velocity.
  qcases; cbn [severity]; split; intros; try done; try discriminate; exfalso; lra.
Qed.

Lemma calculate_velocity_sign d1 d2 r :
  calculate_velocity d1 d2 = Some r ->
  (bb d1 <= bb d2 -> 0 <= velocity_bb r) /\ (tb d1 <= tb d2 -> 0 <= velocity_tb r).
Proof.
  unfold calculate_velocity.
  destruct (Qleb_spec (usia_bulan d2 - usia_bulan d1) 0) as [|Hdt]; [done|].
  apply Qnot_le_lt in Hdt. intros [= <-]. cbn [velocity_bb velocity_tb].
  split; intros; apply round_nonneg, Qdiv_nonneg; lra.
Qed.

Lemma critical_severities gender vs :
  "critical" ∈ severities (map (evaluate_interval gender) vs) <->
  Exists (fun v => velocity_bb v < 0 \/ velocity_tb v < 0) vs.
Proof.
  induction vs as [|v vs IH].
  - cbn. split; [by inversion 1|by inversion 1].
  - cbn [map severities flat_map app]. fold (severities (map (evaluate_interval gender) vs)).
    rewrite !elem_of_cons, IH, Exists_cons.
    cbn [evaluate_interval bb_evaluation tb_evaluation].
    pose proof (severity_critical (velocity_bb v)
                  (weight_range (get_velocity_reference (mid_age v) gender)) "berat badan") as Hb.
    pose proof (severity_critical (velocity_tb v)
                  (height_range (get_velocity_reference (mid_age v) gender)) "tinggi badan") as Ht.
    split.
    + intros [E|[E|?]]; [left; left; by apply Hb|left; right; by apply Ht|by right].
    + intros [[?|?]|?]; [left; symmetry; by apply Hb|right; left; symmetry; by apply Ht|by right; right].
Qed.

(** X19.  The overall status of a report is critical exactly when some
    interval has a negative rounded weight or height velocity; so a
    child whose weight and height never fall from one measurement to
    the next, in the order of age, is never reported critical. *)
Theorem overall_critical_iff (data : list measurement) (gender : string) d vs es s g :
  analyze_growth_velocity data gender = Success d vs es s g ->
  (overall_status s = "critical" <->
   Exists (fun v => velocity_bb v < 0 \/ velocity_tb v < 0) vs) /\
  (Forall (fun p => bb p.1 <= bb p.2 /\ tb p.1 <= tb p.2) (adjacent_pairs d) ->
   overall_status s <> "critical").
Proof.
  intros H. pose proof (analyze_cases data gender) as Hc. rewrite H in Hc.
  destruct Hc as (_ & _ & Hvs & _).
  apply analyze_success_inv in H as (-> & Hst & _).
  assert (Hiff : overall_status s = "critical" <->
                 Exists (fun v => velocity_bb v < 0 \/ velocity_tb v < 0) vs).
  { rewrite <- (critical_severities gender), <- count_severity_pos, Hst.
    destruct (0 <? count_severity "critical" _)%nat; [split; done|].
    destruct (0 <? count_severity "warning" _)%nat; split; intros; discriminate. }
  split; [done|]. intros Hmono Hcrit. apply Hiff in Hcrit.
  apply Exists_exists in Hcrit as (v & Hv & Hneg).
  rewrite Hvs in Hv. apply adjacent_velocities_elem in Hv as (d1 & d2 & Hp & Hcv).
  rewrite Forall_forall in Hmono. apply Hmono in Hp. cbn [fst snd] in Hp.
  destruct (calculate_velocity_sign _ _ _ Hcv) as [Hb Ht].
  destruct Hp as [Hpb Hpt]. apply Hb in Hpb. apply Ht in Hpt.
  destruct Hneg; lra.
Qed.

Lemma overall_critical_iff_witness :
  let data := [mk 6 7.5 66; mk 9 7.2 68] in
  exists d vs es s g,
    analyze_growth_velocity data "L" = Success d vs es s g /\
    (overall_status s = "critical" <->
     Exists (fun v => velocity_bb v < 0 \/ velocity_tb v < 0) vs).
Proof.
  intros data. do 5 eexists. split; [vm_compute; reflexivity|].
  refine (proj1 (overall_critical_iff data "L" _ _ _ _ _ _)).
  vm_compute; reflexivity.
Defined.

End ReportFacts.

(** ** The KPSP screening *)

Module KpspFacts.
Import Kpsp KpspSpec.

Lemma kpsp_ages_eq : kpsp_ages = [3; 6; 9; 12; 15; 18; 21; 24]%Z.
Proof. vm_compute. reflexivity. Qed.

Lemma nearest_agree month :
  nearest_with_break month kpsp_ages None = nearest_without_break month kpsp_ages None /\
  nearest_without_break month kpsp_ages None
  = if (month <? 3)%Z then None else Some (scheduled_age month).
Proof.
  rewrite kpsp_ages_eq. unfold scheduled_age.
  cbn [nearest_with_break nearest_without_break].
  repeat match goal with
    | |- context [(?a <=? month)%Z] => destruct (Z.leb_spec a month)
    end;
  destruct (Z.ltb_spec month 3); try lia; (split; [reflexivity|]); try reflexivity;
    f_equal; Z.div_mod_to_equations; lia.
Qed.

(** X20.  Which questionnaire serves a month.  There is none below 3
    months; from 3 months on it is the one of the last multiple of 3, at
    most 24, so every older child gets the questionnaire of 24 months.
    The loop that stops early and the loop that runs to the end choose
    the same age: the list of questions is the one of the full entry,
    and it has 5 questions whenever there is an entry. *)
Theorem kpsp_selection (month : Z) :
  (get_kpsp_full_for_month month = None <-> (month < 3)%Z) /\
  ((3 <= month)%Z ->
     get_kpsp_full_for_month month = KPSP_QUESTIONS !! scheduled_age month /\
     is_Some (get_kpsp_full_for_month month)) /\
  get_kpsp_questions_for_month month
  = match get_kpsp_full_for_month month with
    | Some entry => map question (questions entry)
    | None => []
    end /\
  length (get_kpsp_questions_for_month month)
  = (if (month <? 3)%Z then 0 else 5)%nat.
Proof.
  unfold get_kpsp_full_for_month, get_kpsp_questions_for_month.
  destruct (nearest_agree month) as [-> ->].
  destruct (Z.ltb_spec month 3) as [Hlt|Hge].
  - split_and!; [split; [done|done] | lia | done | done].
  - assert (Hs : scheduled_age month ∈ [3; 6; 9; 12; 15; 18; 21; 24]%Z).
    { unfold scheduled_age.
      assert (H : (1 <= month / 3)%Z) by (Z.div_mod_to_equations; lia).
      destruct (Z.le_gt_cases 8 (month / 3)) as [H8|H8].
      - rewrite Z.min_l by lia. set_solver.
      - rewrite Z.min_r by lia.
        assert (Hc : (month / 3 = 1 \/ month / 3 = 2 \/ month / 3 = 3 \/ month / 3 = 4 \/
                      month / 3 = 5 \/ month / 3 = 6 \/ month / 3 = 7)%Z) by lia.
        destruct Hc as [->|[->|[->|[->|[->|[->| ->]]]]]]; set_solver. }
    set (a := scheduled_age month) in *. clearbody a.
    repeat (apply elem_of_cons in Hs as [->|Hs]); [..|by inv Hs];
      (split_and!; [split; [done|lia] | intros _; split; [done|by eexists] | done | done]).
Qed.

(** X21.  The interpretation of a screening depends on the number of
    answers that are not yes: none gives Sesuai, exactly one gives
    Meragukan, and every other count gives Kemungkinan Penyimpangan,
    also a count of yes above the total, which is not rejected. *)
Theorem interpret_kpsp_result_cases (yes_count total : Z) :
  let r := interpret_kpsp_result yes_count total in
  (status r = "Sesuai" <-> yes_count = total) /\
  (status r = "Meragukan" <-> yes_count = (total - 1)%Z) /\
  (status r = "Kemungkinan Penyimpangan"
   <-> (yes_count < total - 1)%Z \/ (total < yes_count)%Z) /\
  (emoji r = "🚨" <-> status r = "Kemungkinan Penyimpangan").
Proof.
  intros r. subst r. unfold interpret_kpsp_result.
  destruct (Z.eqb_spec (total - yes_count) 0) as [H0|H0];
    [|destruct (Z.eqb_spec (total - yes_count) 1) as [H1|H1]];
    cbn [status emoji]; split_and!; split; intros; try discriminate; try reflexivity; lia.
Qed.

End KpspFacts.

(** ** The helpers of the monthly checklist *)

Module ChecklistFacts.
Import Checklist ChecklistSpec.

Lemma milestone_ages_eq :
  milestone_ages = [0; 1; 2; 3; 4; 5; 6; 7; 8; 9; 10; 11; 12; 15; 18; 21; 24]%Z.
Proof. vm_compute. reflexivity. Qed.

Lemma nearest_milestone_cons month a rest n :
  nearest_milestone month (a :: rest) n
  = nearest_milestone month rest (if (a <=? month)%Z then a else n).
Proof. cbn [nearest_milestone]. by destruct (a <=? month)%Z. Qed.

Lemma nearest_milestone_age month :
  nearest_milestone month milestone_ages 0 = milestone_age month.
Proof.
  rewrite milestone_ages_eq. unfold milestone_age.
  rewrite !nearest_milestone_cons. cbn [nearest_milestone].
  repeat match goal with
    | |- context [(?a <=? month)%Z] =>
        destruct (Z.leb_spec a month); try (exfalso; lia)
    end;
  destruct (Z.ltb_spec month 0); try (exfalso; lia);
  destruct (Z.leb_spec month 12); try (exfalso; lia);
  try reflexivity; try lia; Z.div_mod_to_equations; lia.
Qed.

Lemma milestone_age_key month :
  milestone_age month ∈ [0; 1; 2; 3; 4; 5; 6; 7; 8; 9; 10; 11; 12; 15; 18; 21; 24]%Z.
Proof.
  unfold milestone_age.
  destruct (Z.ltb_spec month 0); [set_solver|].
  destruct (Z.leb_spec month 12).
  - assert (Hc : (month = 0 \/ month = 1 \/ month = 2 \/ month = 3 \/ month = 4 \/
                  month = 5 \/ month = 6 \/ month = 7 \/ month = 8 \/ month = 9 \/
                  month = 10 \/ month = 11 \/ month = 12)%Z) by lia.
    repeat (destruct Hc as [->|Hc]; [set_solver|]). subst. set_solver.
  - assert (Hc : (Z.min 24 (3 * (month / 3)) = 12 \/ Z.min 24 (3 * (month / 3)) = 15 \/
                  Z.min 24 (3 * (month / 3)) = 18 \/ Z.min 24 (3 * (month / 3)) = 21 \/
                  Z.min 24 (3 * (month / 3)) = 24)%Z)
      by (Z.div_mod_to_equations; lia).
    repeat (destruct Hc as [->|Hc]; [set_solver|]). rewrite Hc. set_solver.
Qed.

(** X22.  The helpers of the monthly checklist never fail.  The
    milestones of a month are those of the month itself from 0 to 12,
    of the last multiple of 3 from 13 on and of 24 from 24 on, and those
    of month 0 for a negative month; the fallback of the lookup is
    never used.  The nutrition phase is cut at 6, 9 and 12 months, each
    cut belonging to the older phase; months below 0 get the first phase
    and months of 24 and above still get the last one. *)
Theorem checklist_selection (month : Z) :
  get_milestone_for_month month = DEVELOPMENT_MILESTONES !! milestone_age month /\
  is_Some (get_milestone_for_month month) /\
  title <$> get_nutrition_phase month = Some (phase_title month).
Proof.
  unfold get_milestone_for_month. cbv zeta. rewrite nearest_milestone_age.
  pose proof (milestone_age_key month) as Hk.
  set (a := milestone_age month) in *. clearbody a.
  split_and!.
  - repeat (apply elem_of_cons in Hk as [->|Hk]); [..|by inv Hk];
      vm_compute; reflexivity.
  - repeat (apply elem_of_cons in Hk as [->|Hk]); [..|by inv Hk];
      vm_compute; by eexists.
  - unfold get_nutrition_phase, phase_title.
    destruct (month <? 6)%Z; [vm_compute; reflexivity|].
    destruct (month <? 9)%Z; [vm_compute; reflexivity|].
    destruct (month <? 12)%Z; vm_compute; reflexivity.
Qed.

End ChecklistFacts.
